(** * Meeting RAG system: answer synthesis and accuracy evaluation

    A shallow embedding of [phase3_rag_system.py] (class [MeetingRAGSystem],
    methods [generate_answer] and [search_and_generate]) and of
    [accuracy_evaluation.py] (class [AccuracyEvaluator]), followed by the
    properties of these functions.

    Modelling conventions.
    - Python [float] values are exact rationals ([Q]); [int] counters and
      [len] results are [nat].  The rounding of binary64 arithmetic is
      modelled apart, in [Module Binary64]: the two weighted sums and the
      Generation Scorer on IEEE 754 double precision numbers.
    - A [str] is a [string] whose characters are the code points below
      256; [lower] folds the capital letters among them (A-Z, À-Ö, Ø-Þ),
      as [str.lower()] does on such strings.
    - A [dict] with optional keys is a record whose optional keys are
      [option] fields; [key in d] is [Some _].
    - A Python exception is a value of [exn]; code that may raise returns
      [result].
    - The embedding model, the vector store and the Mistral client are
      variables of a section: [search] and [complete], and for the
      harness the set-up of the store, [setup_collection] and
      [load_embeddings_to_qdrant].
    - LangSmith telemetry is always wrapped in [try ... except: pass] and
      never changes a returned value; it is left out. *)

From Stdlib Require Import List String Ascii Bool Arith ZArith QArith Qminmax.
From Stdlib Require Import DecimalString Lia Lqa Floats.
Import ListNotations.

(** ** Python values and exceptions *)

Inductive exn : Type :=
| ZeroDivisionError
| StatisticsError
| ValueError (msg : string)
| ExternalError (msg : string).

(** [str(e)] *)
Definition str_exn (e : exn) : string :=
  match e with
  | ZeroDivisionError => "division by zero"
  | StatisticsError => "mean requires at least one data point"
  | ValueError msg => msg
  | ExternalError msg => msg
  end%string.

Inductive result (A : Type) : Type :=
| Ok (a : A)
| Raise (e : exn).

Arguments Ok {A} a.
Arguments Raise {A} e.

Definition bind {A B : Type} (m : result A) (k : A -> result B) : result B :=
  match m with
  | Ok a => k a
  | Raise e => Raise e
  end.

Notation "x <- m ;; k" := (bind m (fun x => k))
  (at level 61, m at next level, right associativity).

Module Py.

Definition Qlt_bool (a b : Q) : bool := negb (Qle_bool b a).

(** [min(a, b)]: the first argument unless the second is smaller. *)
Definition min (a b : Q) : Q := if Qlt_bool b a then b else a.

(** [max(a, b)]: the first argument unless the second is larger. *)
Definition max (a b : Q) : Q := if Qlt_bool a b then b else a.

(** [max(seq)] and [min(seq)] of the non-empty sequence [x :: l]. *)
Definition max_seq (x : Q) (l : list Q) : Q := fold_left max l x.
Definition min_seq (x : Q) (l : list Q) : Q := fold_left min l x.

(** [max(seq)] and [min(seq)]; an empty sequence raises [ValueError]. *)
Definition max_of (l : list Q) : result Q :=
  match l with
  | [] => Raise (ValueError "max() arg is an empty sequence")
  | x :: l' => Ok (max_seq x l')
  end.

Definition min_of (l : list Q) : result Q :=
  match l with
  | [] => Raise (ValueError "min() arg is an empty sequence")
  | x :: l' => Ok (min_seq x l')
  end.

(** [sum(seq)] *)
Definition sum (l : list Q) : Q := fold_left Qplus l 0.

Definition of_nat (n : nat) : Q := inject_Z (Z.of_nat n).

(** [a / b] on floats *)
Definition div (a b : Q) : result Q :=
  if Qeq_bool b 0 then Raise ZeroDivisionError else Ok (a / b).

(** [a / b] on ints (true division) *)
Definition int_div (a b : nat) : result Q := div (of_nat a) (of_nat b).

(** [statistics.mean(seq)] *)
Definition mean (l : list Q) : result Q :=
  match l with
  | [] => Raise StatisticsError
  | _ => Ok (sum l / of_nat (List.length l))
  end.

(** [str(n)] for a non-negative int *)
Definition str_nat (n : nat) : string := NilEmpty.string_of_uint (Nat.to_uint n).

(** [c.lower()] for a code point below 256: the capital letters A-Z
    (65-90), À-Ö (192-214) and Ø-Þ (216-222) move 32 code points up, to
    their small letters; every other character stays. *)
Definition lower_char (c : ascii) : ascii :=
  let n := nat_of_ascii c in
  if ((65 <=? n)%nat && (n <=? 90)%nat)
     || ((192 <=? n)%nat && (n <=? 214)%nat)
     || ((216 <=? n)%nat && (n <=? 222)%nat)
  then ascii_of_nat (n + 32)
  else c.

(** [s.lower()] *)
Fixpoint lower (s : string) : string :=
  match s with
  | EmptyString => EmptyString
  | String c s' => String (lower_char c) (lower s')
  end.

(** [needle in hay] on strings *)
Fixpoint str_in (needle hay : string) : bool :=
  match hay with
  | EmptyString => prefix needle EmptyString
  | String _ hay' => prefix needle hay || str_in needle hay'
  end.

(** [x in l] for a list of strings *)
Definition list_in (x : string) (l : list string) : bool :=
  existsb (String.eqb x) l.

(** [x in l] when [x] may be [None] and [l] holds strings *)
Definition opt_in (x : option string) (l : list string) : bool :=
  match x with
  | Some s => list_in s l
  | None => false
  end.

(** [str(x)] for an optional string *)
Definition str_opt (x : option string) : string :=
  match x with
  | Some s => s
  | None => "None"%string
  end.

(** truth value of an optional string *)
Definition truthy (x : option string) : bool :=
  match x with
  | Some EmptyString | None => false
  | Some _ => true
  end.

Definition newline : string := String (ascii_of_nat 10) EmptyString.

End Py.

(** ** Data model *)

(** One entry of the list returned by [MeetingRAGSystem.search]. *)
Record Chunk : Type := mkChunk {
  score : Q;
  chunk_id : string;
  meeting_id : string;
  text : string;
  type : string;
  speaker : option string;
  role : option string;
  metadata : list (string * option string)
}.

(** The dict returned by [generate_answer]. *)
Record GeneratedAnswer : Type := mkAnswer {
  answer : string;
  confidence : Q;
  sources_used : nat;
  retrieval_scores : option (list Q);
  error : option string
}.

(** The dict returned by [search_and_generate]. *)
Record RagResult : Type := mkRag {
  rag_query : string;
  generated_answer : GeneratedAnswer;
  retrieved_chunks : list Chunk;
  total_chunks_found : nat
}.

(** One entry of the ground truth dataset. *)
Record QuerySpec : Type := mkQuery {
  query : string;
  expected_types : option (list string);
  expected_speakers : option (list string);
  expected_keywords : option (list string);
  category : string
}.

(** ** Answer synthesis: [phase3_rag_system.py] *)

Module RAG.

Definition no_information : string :=
  "I couldn't find any relevant information to answer your question.".

Definition error_prefix : string :=
  "Sorry, I encountered an error generating the response: ".

(** The lines one chunk adds to [context_parts]. *)
Definition chunk_context (i : nat) (chunk : Chunk) : list string :=
  [ "Source " ++ Py.str_nat i ++ ":";
    "Meeting: " ++ meeting_id chunk ]%string
  ++ (if Py.truthy (speaker chunk)
      then [ "Speaker: " ++ Py.str_opt (speaker chunk)
             ++ " (" ++ Py.str_opt (role chunk) ++ ")" ]%string
      else [])
  ++ [ "Content: " ++ text chunk; "" ]%string.

(** [for i, chunk in enumerate(chunks, i)] *)
Fixpoint context_parts (i : nat) (chunks : list Chunk) : list string :=
  match chunks with
  | [] => []
  | chunk :: rest => chunk_context i chunk ++ context_parts (S i) rest
  end.

Definition build_context (retrieved_chunks : list Chunk) : string :=
  String.concat Py.newline (context_parts 1 (firstn 5 retrieved_chunks)).

Definition build_prompt (q context : string) : string :=
  ("You are an AI assistant helping analyze meeting data for an AI-insurance entrepreneur named Arjun Vasanth. Based on the retrieved meeting information below, provide a comprehensive and accurate answer to the user's question.

Question: " ++ q ++ "

Retrieved Meeting Information:
" ++ context ++ "

Instructions:
- Provide a clear, comprehensive answer based only on the information provided
- If multiple perspectives are mentioned, include them in your response
- Cite specific meetings, speakers, or details when relevant
- If the information is insufficient to fully answer the question, state what you can determine and what limitations exist
- Be conversational but professional
- Focus on insights that would be valuable for business decision-making

Answer:")%string.

(** [sum(chunk['score'] for chunk in retrieved_chunks[:5]) / min(len(retrieved_chunks), 5)] *)
Definition avg_score (retrieved_chunks : list Chunk) : result Q :=
  Py.div (Py.sum (map score (firstn 5 retrieved_chunks)))
         (Py.of_nat (Nat.min (List.length retrieved_chunks) 5)).

Section Synthesizer.

(** [mistral_client.chat.complete(...)] followed by
    [response.choices[0].message.content], at the fixed model,
    temperature and token limit. *)
Variable complete : string -> result string.

(** The body of the [try] block. *)
Definition try_generate (prompt : string) (retrieved_chunks : list Chunk)
  : result GeneratedAnswer :=
  generated <- complete prompt ;;
  avg <- avg_score retrieved_chunks ;;
  Ok {| answer := generated;
        confidence := Py.min (avg * 1.2) 1.0;
        sources_used := List.length (firstn 5 retrieved_chunks);
        retrieval_scores := Some (map score (firstn 5 retrieved_chunks));
        error := None |}.

Definition generate_answer (q : string) (retrieved_chunks : list Chunk)
  : GeneratedAnswer :=
  match retrieved_chunks with
  | [] =>
      {| answer := no_information;
         confidence := 0.0;
         sources_used := 0;
         retrieval_scores := None;
         error := None |}
  | _ =>
      let context := build_context retrieved_chunks in
      let prompt := build_prompt q context in
      match try_generate prompt retrieved_chunks with
      | Ok r => r
      | Raise e =>
          {| answer := (error_prefix ++ str_exn e)%string;
             confidence := 0.0;
             sources_used := List.length retrieved_chunks;
             retrieval_scores := None;
             error := Some (str_exn e) |}
      end
  end.

(** [self.search(query, limit, chunk_type, meeting_id)] with the two
    filters left at [None]. *)
Variable search : string -> nat -> result (list Chunk).

Definition search_and_generate (q : string) (limit : nat) : result RagResult :=
  chunks <- search q limit ;;
  let llm_response := generate_answer q chunks in
  Ok {| rag_query := q;
        generated_answer := llm_response;
        retrieved_chunks := chunks;
        total_chunks_found := List.length chunks |}.

End Synthesizer.

End RAG.

(** ** Accuracy evaluation: [accuracy_evaluation.py] *)

Record RelevanceMetrics : Type := mkRelevance {
  type_accuracy : Q;
  keyword_relevance : Q;
  speaker_accuracy : Q;
  overall_relevance : Q
}.

Record RankingMetrics : Type := mkRanking {
  score_monotonicity : Q;
  score_distribution : Q
}.

Record GenerationMetrics : Type := mkGeneration {
  gen_confidence : Q;
  length_score : Q;
  keyword_coverage : Q;
  source_utilization : Q;
  overall_quality : Q;
  answer_length : nat
}.

(** The per-query dict stored in [results_by_category]; the two wall-clock
    timings are not part of the model. *)
Record QueryResult : Type := mkQueryResult {
  qr_query : string;
  num_retrieved : nat;
  relevance : RelevanceMetrics;
  ranking : RankingMetrics;
  generation : GenerationMetrics;
  qr_confidence : Q;
  top_score : Q
}.

Record OverallMetrics : Type := mkOverall {
  average_relevance : Q;
  average_ranking_quality : Q;
  average_generation_quality : Q;
  total_queries : nat;
  categories_tested : nat
}.

Record EvaluationResults : Type := mkEvaluation {
  overall_metrics : OverallMetrics;
  results_by_category : list (string * list QueryResult);
  relevance_scores : list Q;
  ranking_scores : list Q;
  generation_scores : list Q
}.

Module Evaluator.

Definition create_ground_truth_dataset : list QuerySpec :=
  [ {| query := "What are the key product development priorities?";
       expected_types := Some ["minute"; "key_insight"];
       expected_speakers := Some ["Arjun Vasanth"; "Vikram Malhotra"];
       expected_keywords := Some ["product"; "development"; "priority"; "roadmap"; "strategy"];
       category := "product_strategy" |};
    {| query := "Show me high priority action items";
       expected_types := Some ["action_item"];
       expected_speakers := None;
       expected_keywords := Some ["high"; "priority"; "urgent"; "deadline"; "task"];
       category := "action_items" |};
    {| query := "What did Arjun discuss about funding and investment?";
       expected_types := Some ["minute"];
       expected_speakers := Some ["Arjun Vasanth"];
       expected_keywords := Some ["funding"; "investment"; "capital"; "money"; "investor"];
       category := "funding" |};
    {| query := "Which meetings discussed regulatory compliance?";
       expected_types := Some ["minute"; "key_insight"];
       expected_speakers := None;
       expected_keywords := Some ["regulatory"; "compliance"; "regulation"; "legal"; "policy"];
       category := "compliance" |};
    {| query := "What are the main concerns about market expansion?";
       expected_types := Some ["minute"; "key_insight"];
       expected_speakers := None;
       expected_keywords := Some ["market"; "expansion"; "growth"; "scale"; "risk"];
       category := "market_strategy" |};
    {| query := "Show me insights about competitive analysis";
       expected_types := Some ["key_insight"; "minute"];
       expected_speakers := None;
       expected_keywords := Some ["competitive"; "competition"; "competitor"; "analysis"; "market"];
       category := "competition" |};
    {| query := "What action items are assigned to technical team?";
       expected_types := Some ["action_item"];
       expected_speakers := None;
       expected_keywords := Some ["technical"; "tech"; "development"; "engineering"; "implement"];
       category := "technical_tasks" |};
    {| query := "Which meetings had discussions about AI integration?";
       expected_types := Some ["minute"; "key_insight"];
       expected_speakers := None;
       expected_keywords := Some ["AI"; "artificial intelligence"; "integration"; "technology"; "automation"];
       category := "ai_technology" |};
    {| query := "What are the key risks identified in recent meetings?";
       expected_types := Some ["key_insight"; "minute"];
       expected_speakers := None;
       expected_keywords := Some ["risk"; "concern"; "challenge"; "issue"; "problem"];
       category := "risk_management" |};
    {| query := "Show me decisions made about product roadmap";
       expected_types := Some ["minute"; "key_insight"];
       expected_speakers := None;
       expected_keywords := Some ["decision"; "roadmap"; "timeline"; "milestone"; "plan"];
       category := "product_planning" |} ]%string.

(** [for x in l: if test(x): matches += 1], from [matches = 0] *)
Definition count_loop {A : Type} (test : A -> bool) (l : list A) : nat :=
  fold_left (fun matches x => if test x then S matches else matches) l 0%nat.

(** The inner keyword loop of [evaluate_relevance], which leaves at the
    first keyword found. *)
Fixpoint keyword_loop (txt : string) (keywords : list string)
         (keyword_matches : nat) : nat :=
  match keywords with
  | [] => keyword_matches
  | keyword :: rest =>
      if Py.str_in (Py.lower keyword) txt
      then S keyword_matches
      else keyword_loop txt rest keyword_matches
  end.

Definition evaluate_relevance (query_data : QuerySpec) (results : list Chunk)
  : result RelevanceMetrics :=
  match results with
  | [] =>
      Ok {| type_accuracy := 0.0; keyword_relevance := 0.0;
            speaker_accuracy := 0.0; overall_relevance := 0.0 |}
  | _ =>
      ta <- match expected_types query_data with
            | Some types =>
                let type_matches :=
                  count_loop (fun r => Py.list_in (type r) types) results in
                Py.int_div type_matches (List.length results)
            | None => Ok 1.0
            end ;;
      kr <- match expected_keywords query_data with
            | Some keywords =>
                let keyword_matches :=
                  fold_left (fun m r => keyword_loop (Py.lower (text r)) keywords m)
                            results 0%nat in
                Py.int_div keyword_matches (List.length results)
            | None => Ok 1.0
            end ;;
      sa <- match expected_speakers query_data with
            | Some speakers =>
                let speaker_matches :=
                  count_loop (fun r => Py.opt_in (speaker r) speakers) results in
                match results with
                | [] => Ok 0.0
                | _ => Py.int_div speaker_matches (List.length results)
                end
            | None => Ok 1.0
            end ;;
      Ok {| type_accuracy := ta; keyword_relevance := kr;
            speaker_accuracy := sa;
            overall_relevance := ta * 0.3 + kr * 0.5 + sa * 0.2 |}
  end.

(** [all(scores[i] >= scores[i+1] for i in range(len(scores)-1))] *)
Definition monotonic (scores : list Q) : bool :=
  forallb (fun i => Qle_bool (nth (i + 1) scores 0) (nth i scores 0))
          (seq 0 (List.length scores - 1)).

Definition evaluate_ranking_quality (results : list Chunk)
  : result RankingMetrics :=
  if (List.length results <? 2)%nat
  then Ok {| score_monotonicity := 1.0; score_distribution := 1.0 |}
  else
    let scores := map score results in
    let sm := if monotonic scores then 1.0 else 0.0 in
    mx <- Py.max_of scores ;;
    mn <- Py.min_of scores ;;
    let score_range := mx - mn in
    sd <- (if Py.Qlt_bool 0 mx
           then q <- Py.div score_range mx ;; Ok (Py.min q 1.0)
           else Ok 0.0) ;;
    Ok {| score_monotonicity := sm; score_distribution := sd |}.

Definition evaluate_generation_quality (query_data : QuerySpec)
           (rag_result : RagResult) : result GenerationMetrics :=
  let generated := answer (generated_answer rag_result) in
  let conf := confidence (generated_answer rag_result) in
  let used := sources_used (generated_answer rag_result) in
  let len := String.length generated in
  let ls := if (50 <=? len)%nat && (len <=? 1000)%nat
            then 1.0
            else Py.max 0.3 (Py.min (Py.of_nat len / 500) 1.0) in
  kc <- match expected_keywords query_data with
        | Some keywords =>
            let answer_lower := Py.lower generated in
            let keyword_matches :=
              count_loop (fun keyword => Py.str_in (Py.lower keyword) answer_lower)
                         keywords in
            Py.int_div keyword_matches (List.length keywords)
        | None => Ok 0.0
        end ;;
  let su := Py.min (Py.of_nat used / 3.0) 1.0 in
  Ok {| gen_confidence := conf;
        length_score := ls;
        keyword_coverage := kc;
        source_utilization := su;
        overall_quality := conf * 0.4 + ls * 0.2 + kc * 0.3 + su * 0.1;
        answer_length := len |}.

(** [_get_grade] *)
Definition get_grade (s : Q) : string :=
  if Qle_bool 0.9 s then "A+"
  else if Qle_bool 0.8 s then "A"
  else if Qle_bool 0.7 s then "B+"
  else if Qle_bool 0.6 s then "B"
  else if Qle_bool 0.5 s then "C"
  else "D".

(** *** [run_accuracy_evaluation] *)

(** The accumulators of the evaluation loop.  [by_category] is the dict
    [results_by_category], kept in insertion order. *)
Record LoopState : Type := mkLoopState {
  by_category : list (string * list QueryResult);
  all_relevance_scores : list Q;
  all_ranking_scores : list Q;
  all_generation_scores : list Q
}.

Definition initial_state : LoopState :=
  {| by_category := []; all_relevance_scores := [];
     all_ranking_scores := []; all_generation_scores := [] |}.

(** [if category not in d: d[category] = []] then [d[category].append(r)] *)
Fixpoint dict_append (cat : string) (r : QueryResult)
         (d : list (string * list QueryResult))
  : list (string * list QueryResult) :=
  match d with
  | [] => [(cat, [r])]
  | (k, v) :: d' =>
      if String.eqb k cat
      then (k, v ++ [r]) :: d'
      else (k, v) :: dict_append cat r d'
  end.

Section Harness.

Variable search : string -> nat -> result (list Chunk).
Variable complete : string -> result string.

(** The part of the loop body that computes [query_result]. *)
Definition process_query (query_data : QuerySpec) : result QueryResult :=
  let q := query query_data in
  retrieval_results <- search q 10 ;;
  rag_result <- RAG.search_and_generate complete search q 10 ;;
  relevance_metrics <- evaluate_relevance query_data retrieval_results ;;
  ranking_metrics <- evaluate_ranking_quality retrieval_results ;;
  generation_metrics <- evaluate_generation_quality query_data rag_result ;;
  Ok {| qr_query := q;
        num_retrieved := List.length retrieval_results;
        relevance := relevance_metrics;
        ranking := ranking_metrics;
        generation := generation_metrics;
        qr_confidence := confidence (generated_answer rag_result);
        top_score := match retrieval_results with
                     | r :: _ => score r
                     | [] => 0.0
                     end |}.

Definition loop_body (st : LoopState) (query_data : QuerySpec)
  : result LoopState :=
  query_result <- process_query query_data ;;
  Ok {| by_category :=
          dict_append (category query_data) query_result (by_category st);
        all_relevance_scores :=
          all_relevance_scores st
          ++ [overall_relevance (relevance query_result)];
        all_ranking_scores :=
          all_ranking_scores st
          ++ [score_monotonicity (ranking query_result)];
        all_generation_scores :=
          all_generation_scores st
          ++ [overall_quality (generation query_result)] |}.

(** [for i, query_data in enumerate(self.ground_truth_queries, 1)] *)
Fixpoint run_loop (queries : list QuerySpec) (st : LoopState)
  : result LoopState :=
  match queries with
  | [] => Ok st
  | query_data :: rest =>
      st' <- loop_body st query_data ;;
      run_loop rest st'
  end.

(** [self.rag_system.setup_collection()] and
    [self.rag_system.load_embeddings_to_qdrant(embeddings_dir)], which
    recreate and fill the store before the first query; each returns
    [None] or raises. *)
Variable setup_collection : result unit.
Variable load_embeddings_to_qdrant : result unit.

Definition run_accuracy_evaluation (ground_truth_queries : list QuerySpec)
  : result EvaluationResults :=
  _ <- setup_collection ;;
  _ <- load_embeddings_to_qdrant ;;
  st <- run_loop ground_truth_queries initial_state ;;
  avg_rel <- Py.mean (all_relevance_scores st) ;;
  avg_rank <- Py.mean (all_ranking_scores st) ;;
  avg_gen <- Py.mean (all_generation_scores st) ;;
  Ok {| overall_metrics :=
          {| average_relevance := avg_rel;
             average_ranking_quality := avg_rank;
             average_generation_quality := avg_gen;
             total_queries := List.length ground_truth_queries;
             categories_tested := List.length (by_category st) |};
        results_by_category := by_category st;
        relevance_scores := all_relevance_scores st;
        ranking_scores := all_ranking_scores st;
        generation_scores := all_generation_scores st |}.

End Harness.

End Evaluator.

(** ** The quantities the scorers are specified by *)

Module Spec.

(** Number of elements of [l] that satisfy [p]. *)
Definition count {A : Type} (p : A -> bool) (l : list A) : nat :=
  List.length (filter p l).

(** Fraction of the elements of [l] that satisfy [p]. *)
Definition fraction {A : Type} (p : A -> bool) (l : list A) : Q :=
  Py.of_nat (count p l) / Py.of_nat (List.length l).

(** The capital letters among the code points below 256. *)
Definition is_capital (c : ascii) : bool :=
  let n := nat_of_ascii c in
  ((65 <=? n)%nat && (n <=? 90)%nat)
  || ((192 <=? n)%nat && (n <=? 214)%nat)
  || ((216 <=? n)%nat && (n <=? 222)%nat).

(** [c] and [d] are the same character or the two cases of one letter,
    the small letter lying 32 code points above its capital. *)
Definition same_letter (c d : ascii) : bool :=
  Ascii.eqb c d
  || (is_capital c && (nat_of_ascii c + 32 =? nat_of_ascii d)%nat)
  || (is_capital d && (nat_of_ascii d + 32 =? nat_of_ascii c)%nat).

(** [a] and [b] have the same length and agree letter by letter, without
    regard to case. *)
Fixpoint same_word (a b : string) : bool :=
  match a, b with
  | EmptyString, EmptyString => true
  | String c a', String d b' => same_letter c d && same_word a' b'
  | _, _ => false
  end.

(** [txt] starts with [keyword], without regard to case. *)
Fixpoint starts_with (keyword txt : string) : bool :=
  match keyword, txt with
  | EmptyString, _ => true
  | String c keyword', String d txt' =>
      same_letter c d && starts_with keyword' txt'
  | String _ _, EmptyString => false
  end.

(** Case-insensitive substring match of a keyword in a text: at some
    position of [txt] the keyword can be read without regard to case. *)
Fixpoint matches_keyword (txt keyword : string) : bool :=
  starts_with keyword txt
  || match txt with
     | EmptyString => false
     | String _ txt' => matches_keyword txt' keyword
     end.

(** The type of [r] is one of the expected types. *)
Definition has_expected_type (types : list string) (r : Chunk) : bool :=
  if in_dec string_dec (type r) types then true else false.

(** [r] has a speaker, who is one of the expected speakers. *)
Definition has_expected_speaker (speakers : list string) (r : Chunk) : bool :=
  match speaker r with
  | Some s => if in_dec string_dec s speakers then true else false
  | None => false
  end.

(** The text of [r] contains at least one of the keywords. *)
Definition mentions_keyword (keywords : list string) (r : Chunk) : bool :=
  existsb (matches_keyword (text r)) keywords.

(** Every adjacent pair satisfies [score[i] >= score[i+1]]. *)
Definition non_increasing (scores : list Q) : Prop :=
  forall i, (S i < List.length scores)%nat ->
            nth (S i) scores 0 <= nth i scores 0.

Definition is_max (m : Q) (l : list Q) : Prop :=
  (exists x, In x l /\ x == m) /\ forall x, In x l -> x <= m.

Definition is_min (m : Q) (l : list Q) : Prop :=
  (exists x, In x l /\ x == m) /\ forall x, In x l -> m <= x.

(** Average of a list of scores. *)
Definition average (l : list Q) : Q := Py.sum l / Py.of_nat (List.length l).

(** The length score of an answer of [len] characters. *)
Definition length_score_of (len : nat) : Q :=
  if (50 <=? len)%nat && (len <=? 1000)%nat
  then 1.0
  else Py.max 0.3 (Py.min (Py.of_nat len / 500) 1.0).

(** The source utilization of an answer built on [used] sources. *)
Definition source_utilization_of (used : nat) : Q :=
  Py.min (Py.of_nat used / 3.0) 1.0.

(** The metrics of the Generation Scorer once the keyword coverage [kc] of
    the answer is known. *)
Definition generation_metrics (a : GeneratedAnswer) (kc : Q) : GenerationMetrics :=
  let ls := length_score_of (String.length (answer a)) in
  let su := source_utilization_of (sources_used a) in
  {| gen_confidence := confidence a;
     length_score := ls;
     keyword_coverage := kc;
     source_utilization := su;
     overall_quality := confidence a * 0.4 + ls * 0.2 + kc * 0.3 + su * 0.1;
     answer_length := String.length (answer a) |}.

End Spec.

(** ** Sample inputs *)

Module Samples.

Open Scope string_scope.

(** A generation capability that always answers [a]. *)
Definition canned (a : string) : string -> result string := fun _ => Ok a.

(** A generation capability that always fails. *)
Definition failing (msg : string) : string -> result string :=
  fun _ => Raise (ExternalError msg).

Definition chunk_with_score (s : Q) : Chunk :=
  {| score := s; chunk_id := "meeting_003_minute_7";
     meeting_id := "meeting_003";
     text := "We should keep the high priority items on the roadmap.";
     type := "minute"; speaker := Some "Vikram Malhotra";
     role := Some "Investor"; metadata := [] |}.

(** A store whose only match is negatively correlated with the query. *)
Definition negative_results : list Chunk := [chunk_with_score (-0.5)].

Definition strong_results : list Chunk :=
  [chunk_with_score 0.95; chunk_with_score 0.9].

(** Two results, both with a negative cosine similarity. *)
Definition all_negative_results : list Chunk :=
  [chunk_with_score (-0.2); chunk_with_score (-0.4)].

(** A string of [n] letters. *)
Fixpoint letters (n : nat) : string :=
  match n with
  | O => ""
  | S n' => String "a" (letters n')
  end.

Definition plain_query : QuerySpec :=
  {| query := "What was discussed?"; expected_types := None;
     expected_speakers := None; expected_keywords := None;
     category := "general" |}.

Definition answer_of_length (n : nat) : RagResult :=
  {| rag_query := "What was discussed?";
     generated_answer :=
       {| answer := letters n; confidence := 0.5; sources_used := 3;
          retrieval_scores := None; error := None |};
     retrieved_chunks := []; total_chunks_found := 0 |}.

(** An answer that mentions three of the five keywords of the second
    ground truth query. *)
Definition priority_answer : RagResult :=
  {| rag_query := "Show me high priority action items";
     generated_answer :=
       {| answer := "Two HIGH priority tasks are open."; confidence := 1.0;
          sources_used := 5; retrieval_scores := None; error := None |};
     retrieved_chunks := []; total_chunks_found := 0 |}.

(** The French word for summer in capital letters, with É (code point
    201), and in small letters, with é (code point 233). *)
Definition summer_capital : string :=
  String (ascii_of_nat 201) (String "T" (String (ascii_of_nat 201) "")).

Definition summer_small : string :=
  String (ascii_of_nat 233) (String "t" (String (ascii_of_nat 233) "")).

(** A query whose keyword is in capital letters, and an answer and a
    chunk that have it in small letters. *)
Definition summer_query : QuerySpec :=
  {| query := "What is planned for the summer?"; expected_types := None;
     expected_speakers := None;
     expected_keywords := Some [summer_capital];
     category := "general" |}.

Definition summer_answer : RagResult :=
  {| rag_query := "What is planned for the summer?";
     generated_answer :=
       {| answer := "The offsite is planned for l'" ++ summer_small
                    ++ ", after the funding round has closed.";
          confidence := 0.8; sources_used := 2;
          retrieval_scores := None; error := None |};
     retrieved_chunks := []; total_chunks_found := 0 |}.

Definition summer_chunk : Chunk :=
  {| score := 0.7; chunk_id := "meeting_004_minute_2";
     meeting_id := "meeting_004";
     text := "Offsite: l'" ++ summer_small ++ " prochain";
     type := "minute"; speaker := None; role := None; metadata := [] |}.

(** A query whose keyword expectation is declared and empty. *)
Definition empty_keywords_query : QuerySpec :=
  {| query := "What was discussed?"; expected_types := None;
     expected_speakers := None; expected_keywords := Some [];
     category := "general" |}.

(** Ten action items, six of which mention a priority. *)
Definition action_item (n : nat) (txt : string) : Chunk :=
  {| score := 0.5; chunk_id := "action_" ++ Py.str_nat n;
     meeting_id := "meeting_001"; text := txt; type := "action_item";
     speaker := None; role := None;
     metadata := [("assigned_to", Some "Arjun Vasanth")] |}.

Definition ten_action_items : list Chunk :=
  [ action_item 1 "Top PRIORITY: file the compliance report";
    action_item 2 "Review the priority list with the investors";
    action_item 3 "Book the venue";
    action_item 4 "Set priority for the claims pipeline";
    action_item 5 "Send the minutes";
    action_item 6 "Re-rank feature priority after the demo";
    action_item 7 "Order lunch";
    action_item 8 "Agree on Priority levels for support tickets";
    action_item 9 "Update the website";
    action_item 10 "Hiring: priority roles first" ].

(** A retriever whose store fails on the query [bad] and answers every
    other query with two strong results. *)
Definition flaky_search (bad : string) : string -> nat -> result (list Chunk) :=
  fun q _ =>
    if String.eqb q bad
    then Raise (ExternalError "vector store unavailable")
    else Ok strong_results.

Definition reliable_search : string -> nat -> result (list Chunk) :=
  fun _ _ => Ok strong_results.

Definition funding_query : string :=
  "What did Arjun discuss about funding and investment?".

End Samples.

(** ** The Generation Scorer on binary64

    The weighted sums and the Generation Scorer as Python evaluates them,
    left to right, on IEEE 754 double precision numbers. *)

Module Binary64.

#[local] Set Warnings "-inexact-float".

Definition weighted_relevance (ta kr sa : float) : float :=
  (ta * 0.3 + kr * 0.5 + sa * 0.2)%float.

Definition weighted_quality (conf ls kc su : float) : float :=
  (conf * 0.4 + ls * 0.2 + kc * 0.3 + su * 0.1)%float.

(** [float(n)], exact for [n] below 2^53. *)
Definition of_nat (n : nat) : float :=
  PrimFloat.of_uint63 (Uint63.of_Z (Z.of_nat n)).

(** [min(a, b)] and [max(a, b)] on floats. *)
Definition min (a b : float) : float := if PrimFloat.ltb b a then b else a.
Definition max (a b : float) : float := if PrimFloat.ltb a b then b else a.

(** [a / b] on ints below 2^53: the quotient of the two floats, correctly
    rounded. *)
Definition int_div (a b : nat) : result float :=
  match b with
  | O => Raise ZeroDivisionError
  | _ => Ok (of_nat a / of_nat b)%float
  end.

(** The keys of [rag_result['generated_answer']] the scorer reads. *)
Record GeneratedAnswer : Type := mkAnswer {
  answer : string;
  confidence : float;
  sources_used : nat
}.

Record GenerationMetrics : Type := mkGeneration {
  gen_confidence : float;
  length_score : float;
  keyword_coverage : float;
  source_utilization : float;
  overall_quality : float;
  answer_length : nat
}.

Definition evaluate_generation_quality (query_data : QuerySpec)
           (generated_answer : GeneratedAnswer) : result GenerationMetrics :=
  let generated := answer generated_answer in
  let conf := confidence generated_answer in
  let used := sources_used generated_answer in
  let len := String.length generated in
  let ls := if (50 <=? len)%nat && (len <=? 1000)%nat
            then 1.0%float
            else max 0.3 (min (of_nat len / 500) 1.0)%float in
  kc <- match expected_keywords query_data with
        | Some keywords =>
            let answer_lower := Py.lower generated in
            let keyword_matches :=
              Evaluator.count_loop
                (fun keyword => Py.str_in (Py.lower keyword) answer_lower)
                keywords in
            int_div keyword_matches (List.length keywords)
        | None => Ok 0.0%float
        end ;;
  let su := min (of_nat used / 3.0) 1.0%float in
  Ok {| gen_confidence := conf;
        length_score := ls;
        keyword_coverage := kc;
        source_utilization := su;
        overall_quality := weighted_quality conf ls kc su;
        answer_length := len |}.

(** The binary64 number that follows 1.0, printed [1.0000000000000002]:
    1 + 2^-52. *)
Definition after_one : Q := 1 + (1 # 4503599627370496).

(** An answer of 66 characters that mentions the five keywords of the
    second ground truth query, built on three sources with confidence
    1.0. *)
Definition best_answer : GeneratedAnswer :=
  {| answer := "Urgent: two HIGH priority tasks are past their deadline this week.";
     confidence := 1.0;
     sources_used := 3 |}.

End Binary64.

(** ** The weighted sum under any monotone rounding

    Each binary64 operation returns the exact result rounded to the
    nearest representable number, and rounding is monotone.  The weighted
    sum of the Generation Scorer is written here over the rationals with
    the rounding [rnd] after each operation and on each decimal constant. *)

Module Rounded.

Section Rounding.

Variable rnd : Q -> Q.

Definition weighted_quality (conf ls kc su : Q) : Q :=
  rnd (rnd (rnd (rnd (conf * rnd 0.4) + rnd (ls * rnd 0.2))
            + rnd (kc * rnd 0.3))
       + rnd (su * rnd 0.1)).

End Rounding.

End Rounded.

From Stdlib Require Import Permutation DecimalNat FinFun.

(** ** Quantities used to state further properties *)

Module Spec2.

(** The categories of [results_by_category], in insertion order. *)
Definition keys (d : list (string * list QueryResult)) : list string :=
  map fst d.

(** The number of query results stored under all categories. *)
Definition stored (d : list (string * list QueryResult)) : nat :=
  list_sum (map (fun kv => List.length (snd kv)) d).

Definition in_unit (x : Q) : Prop := 0 <= x <= 1.

End Spec2.

(** ** Dictionaries with string keys

    A JSON object whose values are strings or [null]: an association list
    in insertion order, with pairwise distinct keys when built by the code
    below. *)

Module Dict.

Definition t : Type := list (string * option string).

(** The value stored under [k], if the key is present. *)
Fixpoint lookup (k : string) (d : t) : option (option string) :=
  match d with
  | [] => None
  | (k', v) :: d' => if String.eqb k' k then Some v else lookup k d'
  end.

(** [d.get(k)] *)
Definition get (k : string) (d : t) : option string :=
  match lookup k d with
  | Some v => v
  | None => None
  end.

(** [d.get(k, default)] *)
Definition get_default (k : string) (d : t) (default : option string)
  : option string :=
  match lookup k d with
  | Some v => v
  | None => default
  end.

(** [k in keys] for a list of key names *)
Definition mem (k : string) (ks : list string) : bool :=
  existsb (String.eqb k) ks.

(** [{k: v for k, v in d.items() if k not in excluded}] *)
Definition without (excluded : list string) (d : t) : t :=
  filter (fun kv => negb (mem (fst kv) excluded)) d.

End Dict.

(** Code that may raise [KeyError] beside the exceptions of [exn]. *)
Inductive outcome (A : Type) : Type :=
| Done (a : A)
| KeyError (key : string)
| Failed (e : exn).

Arguments Done {A} a.
Arguments KeyError {A} key.
Arguments Failed {A} e.

Definition obind {A B : Type} (m : outcome A) (k : A -> outcome B) : outcome B :=
  match m with
  | Done a => k a
  | KeyError key => KeyError key
  | Failed e => Failed e
  end.

Notation "x <~ m ;; k" := (obind m (fun x => k))
  (at level 61, m at next level, right associativity).

(** [d[k]] *)
Definition index (k : string) (d : Dict.t) : outcome (option string) :=
  match Dict.lookup k d with
  | Some v => Done v
  | None => KeyError k
  end.

(** [for x in l: acc.append(f(x))], leaving at the first exception *)
Fixpoint traverse {A B : Type} (f : A -> outcome B) (l : list A)
  : outcome (list B) :=
  match l with
  | [] => Done []
  | x :: l' => y <~ f x ;; ys <~ traverse f l' ;; Done (y :: ys)
  end.

(** ** Chunking and embedding: [chunk_and_embed.py] *)

Module Ingest.

(** The parts of an enriched meeting that [chunk_meeting] reads; a missing
    list is the empty list. *)
Record Meeting : Type := mkMeeting {
  meeting_key : option string;
  minutes : list Dict.t;
  participants : list Dict.t;
  action_items : list Dict.t;
  key_insights : list (option string)
}.

(** [a == b] on values that are strings or [None] *)
Definition value_eqb (a b : option string) : bool :=
  match a, b with
  | Some x, Some y => String.eqb x y
  | None, None => true
  | _, _ => false
  end.

(** [next((p.get("role") for p in participants if p.get("name") == speaker), "unknown")] *)
Definition role_of (participants : list Dict.t) (speaker : option string)
  : option string :=
  match find (fun p => value_eqb (Dict.get "name" p) speaker) participants with
  | Some p => Dict.get "role" p
  | None => Some "unknown"%string
  end.

Definition minute_chunk (mid : option string) (participants : list Dict.t)
           (minute : Dict.t) : Dict.t :=
  [ ("chunk_id",
     Some (Py.str_opt mid ++ "_" ++ Py.str_opt (Dict.get "timestamp" minute)));
    ("meeting_id", mid);
    ("speaker", Dict.get "speaker" minute);
    ("role", role_of participants (Dict.get "speaker" minute));
    ("text", Dict.get "text" minute);
    ("type", Some "minute") ]%string.

Definition action_chunk (mid : option string) (idx : nat) (action : Dict.t)
  : Dict.t :=
  [ ("chunk_id", Some (Py.str_opt mid ++ "_action_" ++ Py.str_nat (idx + 1)));
    ("meeting_id", mid);
    ("task", Dict.get "task" action);
    ("assigned_to", Dict.get "assigned_to" action);
    ("due_date", Dict.get "due_date" action);
    ("priority", Dict.get "priority" action);
    ("type", Some "action_item") ]%string.

Definition insight_chunk (mid : option string) (idx : nat)
           (insight : option string) : Dict.t :=
  [ ("chunk_id", Some (Py.str_opt mid ++ "_insight_" ++ Py.str_nat (idx + 1)));
    ("meeting_id", mid);
    ("text", insight);
    ("type", Some "key_insight") ]%string.

(** [enumerate(l)] counted from [i] *)
Fixpoint enumerate {A : Type} (i : nat) (l : list A) : list (nat * A) :=
  match l with
  | [] => []
  | x :: l' => (i, x) :: enumerate (S i) l'
  end.

Definition chunk_meeting (meeting_data : Meeting) : list Dict.t :=
  let mid := meeting_key meeting_data in
  map (minute_chunk mid (participants meeting_data)) (minutes meeting_data)
  ++ map (fun ia => action_chunk mid (fst ia) (snd ia))
         (enumerate 0 (action_items meeting_data))
  ++ map (fun ii => insight_chunk mid (fst ii) (snd ii))
         (enumerate 0 (key_insights meeting_data)).

(** One record of an embeddings file. *)
Record Item : Type := mkItem {
  item_chunk_id : option string;
  embedding : list Q;
  item_metadata : Dict.t
}.

(** [a or b] on values that are strings or [None] *)
Definition value_or (a b : option string) : option string :=
  if Py.truthy a then a else b.

(** [chunk.get("text") or chunk.get("task")] *)
Definition embedded_text (chunk : Dict.t) : option string :=
  value_or (Dict.get "text" chunk) (Dict.get "task" chunk).

Section Embedding.

(** [model.encode(text).tolist()] *)
Variable encode : string -> list Q.

(** The body of the loop over the chunks of one file: the items it appends. *)
Definition embed_chunk (chunk : Dict.t) : outcome (list Item) :=
  match embedded_text chunk with
  | Some (String c s) =>
      cid <~ index "chunk_id" chunk ;;
      Done [ {| item_chunk_id := cid;
                embedding := encode (String c s);
                item_metadata := chunk |} ]
  | _ => Done []
  end.

(** The [embeddings] list built for the chunks of one file. *)
Definition generate_embeddings (chunks : list Dict.t) : outcome (list Item) :=
  parts <~ traverse embed_chunk chunks ;; Done (List.concat parts).

End Embedding.

End Ingest.

(** ** The vector store side of [phase3_rag_system.py] *)

Module Store.

Record Point : Type := mkPoint {
  point_id : nat;
  vector : list Q;
  payload : Dict.t
}.

(** The payload [load_embeddings_to_qdrant] builds for one item of the
    file named [file_name]. *)
Definition item_payload (file_name : string) (item : Ingest.Item)
  : outcome Dict.t :=
  let metadata := Ingest.item_metadata item in
  mid <~ index "meeting_id" metadata ;;
  let txt := Dict.get_default "text" metadata
               (Dict.get_default "task" metadata (Some ""%string)) in
  ty <~ index "type" metadata ;;
  Done [ ("chunk_id", Ingest.item_chunk_id item);
         ("meeting_id", mid);
         ("text", txt);
         ("type", ty);
         ("speaker", Dict.get "speaker" metadata);
         ("role", Dict.get "role" metadata);
         ("assigned_to", Dict.get "assigned_to" metadata);
         ("due_date", Dict.get "due_date" metadata);
         ("priority", Dict.get "priority" metadata);
         ("file_source", Some file_name) ]%string.

(** The inner loop: the points appended for the items of one file, from
    the counter [next_id]. *)
Fixpoint load_items (file_name : string) (items : list Ingest.Item)
         (next_id : nat) : outcome (list Point) :=
  match items with
  | [] => Done []
  | item :: rest =>
      p <~ item_payload file_name item ;;
      ps <~ load_items file_name rest (S next_id) ;;
      Done ({| point_id := next_id;
               vector := Ingest.embedding item;
               payload := p |} :: ps)
  end.

(** The outer loop over the embeddings files. *)
Fixpoint load_files (files : list (string * list Ingest.Item)) (next_id : nat)
  : outcome (list Point) :=
  match files with
  | [] => Done []
  | (file_name, items) :: rest =>
      ps <~ load_items file_name items next_id ;;
      qs <~ load_files rest (next_id + List.length ps) ;;
      Done (ps ++ qs)
  end.

Definition batch_size : nat := 100.

(** [range(start, stop, step)] for a positive [step]; [fuel] bounds the
    number of elements. *)
Fixpoint range_step (fuel start stop step : nat) : list nat :=
  match fuel with
  | O => []
  | S fuel' =>
      if (start <? stop)%nat
      then start :: range_step fuel' (start + step) stop step
      else []
  end.

(** The batches handed to [client.upsert], in order:
    [points[i:i + batch_size] for i in range(0, len(points), batch_size)]. *)
Definition batches {A : Type} (points : list A) : list (list A) :=
  map (fun i => firstn batch_size (skipn i points))
      (range_step (List.length points) 0 (List.length points) batch_size).

(** [load_embeddings_to_qdrant]: the sequence of upserted batches. *)
Definition load_embeddings_to_qdrant (files : list (string * list Ingest.Item))
  : outcome (list (list Point)) :=
  points <~ load_files files 0 ;; Done (batches points).

(** A hit returned by [client.search]. *)
Record ScoredPoint : Type := mkScored {
  hit_score : Q;
  hit_payload : Dict.t
}.

(** One entry of the list [search] returns, before its fields are known to
    be strings. *)
Record Result : Type := mkResult {
  r_score : Q;
  r_chunk_id : option string;
  r_meeting_id : option string;
  r_text : option string;
  r_type : option string;
  r_speaker : option string;
  r_role : option string;
  r_metadata : Dict.t
}.

Definition named_fields : list string :=
  ["text"; "chunk_id"; "meeting_id"; "type"; "speaker"; "role"]%string.

Definition format_result (hit : ScoredPoint) : outcome Result :=
  let p := hit_payload hit in
  cid <~ index "chunk_id" p ;;
  mid <~ index "meeting_id" p ;;
  txt <~ index "text" p ;;
  ty <~ index "type" p ;;
  Done {| r_score := hit_score hit;
          r_chunk_id := cid;
          r_meeting_id := mid;
          r_text := txt;
          r_type := ty;
          r_speaker := Dict.get "speaker" p;
          r_role := Dict.get "role" p;
          r_metadata := Dict.without named_fields p |}.

(** The condition a filter argument adds: none for [None] and for the
    empty string. *)
Definition condition (key : string) (value : option string)
  : list (string * string) :=
  match value with
  | Some (String c s) => [(key, String c s)]
  | _ => []
  end.

(** The conditions of the [Filter(must=...)] handed to the store; [None]
    when no condition applies. *)
Definition search_filter (chunk_type meeting_id : option string)
  : option (list (string * string)) :=
  let conditions :=
    condition "type" chunk_type ++ condition "meeting_id" meeting_id in
  match conditions with
  | [] => None
  | _ => Some conditions
  end.

Section Retrieval.

(** [self.model.encode(query).tolist()] *)
Variable encode : string -> list Q.

(** [self.client.search(collection, query_vector, query_filter, limit,
    with_payload=True)] *)
Variable client_search :
  list Q -> option (list (string * string)) -> nat -> result (list ScoredPoint).

Definition search (q : string) (limit : nat)
           (chunk_type meeting_id : option string) : outcome (list Result) :=
  match client_search (encode q) (search_filter chunk_type meeting_id) limit with
  | Raise e => Failed e
  | Ok hits => traverse format_result hits
  end.

End Retrieval.

(** The entry as the scorers and the synthesizer read it, when its four
    mandatory fields are strings. *)
Definition to_chunk (r : Result) : option Chunk :=
  match r_chunk_id r, r_meeting_id r, r_text r, r_type r with
  | Some cid, Some mid, Some txt, Some ty =>
      Some {| score := r_score r; chunk_id := cid; meeting_id := mid;
              text := txt; type := ty; speaker := r_speaker r;
              role := r_role r; metadata := r_metadata r |}
  | _, _, _, _ => None
  end.

End Store.

(** ** The displayed average of [query_interface.py] *)

Module Interface.

(** The average retrieval score [format_llm_response] computes when the
    answer carries its retrieval scores. *)
Definition average_retrieval_score (answer_data : GeneratedAnswer)
  : result (option Q) :=
  match retrieval_scores answer_data with
  | Some scores =>
      avg <- Py.div (Py.sum scores) (Py.of_nat (List.length scores)) ;;
      Ok (Some avg)
  | None => Ok None
  end.

End Interface.

(** ** Quantities used to state the properties of the store *)

Module StoreSpec.

(** The keys [search] reads with [payload[...]]. *)
Definition required_keys : list string :=
  ["chunk_id"; "meeting_id"; "text"; "type"]%string.

(** A payload that has the four required keys. *)
Definition well_formed (p : Dict.t) : Prop :=
  forall k, In k required_keys -> Dict.lookup k p <> None.

(** All items of the embeddings files, in file order. *)
Definition all_items (files : list (string * list Ingest.Item))
  : list Ingest.Item :=
  List.concat (map snd files).

(** What an embedded item records about its chunk. *)
Definition embedded_from (encode : string -> list Q) (item : Ingest.Item)
  : Prop :=
  exists t,
    Ingest.embedded_text (Ingest.item_metadata item) = Some t
    /\ t <> ""%string
    /\ Ingest.embedding item = encode t
    /\ Dict.lookup "chunk_id" (Ingest.item_metadata item)
       = Some (Ingest.item_chunk_id item).

End StoreSpec.

(** ** The command line of [query_interface.py]

    The part of the loop in [main] between reading a line and calling the
    RAG system: mode prefixes and filters. *)

Module Cli.

(** [c.isspace()] for a character below 256 *)
Definition is_space (c : ascii) : bool :=
  let n := nat_of_ascii c in
  ((9 <=? n)%nat && (n <=? 13)%nat) || ((28 <=? n)%nat && (n <=? 32)%nat)
  || (n =? 133)%nat || (n =? 160)%nat.

(** [s.lstrip()] *)
Fixpoint lstrip (s : string) : string :=
  match s with
  | EmptyString => EmptyString
  | String c s' => if is_space c then lstrip s' else s
  end.

(** [s.rstrip()] *)
Fixpoint rstrip (s : string) : string :=
  match s with
  | EmptyString => EmptyString
  | String c s' =>
      match rstrip s' with
      | EmptyString => if is_space c then EmptyString else String c EmptyString
      | r => String c r
      end
  end.

(** [s.strip()] *)
Definition strip (s : string) : string := rstrip (lstrip s).

(** [s[n:]] *)
Fixpoint drop (n : nat) (s : string) : string :=
  match n, s with
  | O, _ => s
  | S n', String _ s' => drop n' s'
  | S _, EmptyString => EmptyString
  end.

(** [s.split()]: [cur] is the token being read, empty when there is none. *)
Fixpoint split_from (cur s : string) : list string :=
  match s with
  | EmptyString =>
      match cur with
      | EmptyString => []
      | _ => [cur]
      end
  | String c s' =>
      if is_space c
      then match cur with
           | EmptyString => split_from EmptyString s'
           | _ => cur :: split_from EmptyString s'
           end
      else split_from (cur ++ String c EmptyString) s'
  end.

Definition split (s : string) : list string := split_from EmptyString s.

(** [s.split('=', 1)] when ['=' in s], [None] when not *)
Fixpoint split_assignment (s : string) : option (string * string) :=
  match s with
  | EmptyString => None
  | String c s' =>
      if Ascii.eqb c "="%char
      then Some (EmptyString, s')
      else match split_assignment s' with
           | Some (key, value) => Some (String c key, value)
           | None => None
           end
  end.

(** The loop over [parts]: the two filters and [query_parts]. *)
Fixpoint parse_parts (parts : list string) (chunk_type meeting_id : option string)
         (query_parts : list string)
  : option string * option string * list string :=
  match parts with
  | [] => (chunk_type, meeting_id, query_parts)
  | part :: rest =>
      if prefix "filter:" part
      then
        let filter_part := drop 7 part in
        match split_assignment filter_part with
        | Some (key, value) =>
            if String.eqb key "type"
            then parse_parts rest (Some value) meeting_id query_parts
            else if String.eqb key "meeting"
                 then parse_parts rest chunk_type (Some value) query_parts
                 else parse_parts rest chunk_type meeting_id query_parts
        | None => parse_parts rest chunk_type meeting_id query_parts
        end
      else parse_parts rest chunk_type meeting_id (query_parts ++ [part])
  end.

(** The filters and the query text extracted from the text that follows
    the mode prefix. *)
Definition parse_filters (q : string)
  : option string * option string * string :=
  if Py.str_in "filter:" q
  then
    let '(chunk_type, meeting_id, query_parts) :=
      parse_parts (split q) None None [] in
    (chunk_type, meeting_id, String.concat " " query_parts)
  else (None, None, q).

(** What one input line makes the loop do. *)
Inductive Command : Type :=
| Quit
| Skip
| Ask (raw_mode detailed_mode : bool) (query : string)
      (chunk_type meeting_id : option string).

(** The query text after the mode prefix is removed. *)
Definition body (line : string) : string :=
  let q := strip line in
  if prefix "raw:" q then strip (drop 4 q)
  else if prefix "detailed:" q then strip (drop 9 q)
  else q.

Definition parse_line (line : string) : Command :=
  let q := strip line in
  if Py.list_in (Py.lower q) ["quit"; "exit"; "q"]%string then Quit
  else match q with
       | EmptyString => Skip
       | _ =>
           let raw_mode := prefix "raw:" q in
           let detailed_mode := prefix "detailed:" q in
           let '(chunk_type, meeting_id, q') := parse_filters (body line) in
           Ask raw_mode detailed_mode q' chunk_type meeting_id
       end.

End Cli.

(** ** Quantities used to state the properties of the command line *)

Module CliSpec.

(** A token of [split]: not empty and without white space. *)
Fixpoint no_space (s : string) : bool :=
  match s with
  | EmptyString => true
  | String c s' => negb (Cli.is_space c) && no_space s'
  end.

Definition token (s : string) : Prop := s <> EmptyString /\ no_space s = true.

Definition is_filter (part : string) : bool := prefix "filter:" part.

(** The assignment [key=value] a filter token carries, if any. *)
Definition assignment (part : string) : option (string * string) :=
  if is_filter part then Cli.split_assignment (Cli.drop 7 part) else None.

(** The value of the last assignment to [key] among [parts], from
    [current]. *)
Fixpoint last_value (key : string) (parts : list string)
         (current : option string) : option string :=
  match parts with
  | [] => current
  | part :: rest =>
      match assignment part with
      | Some (k, v) =>
          if String.eqb k key
          then last_value key rest (Some v)
          else last_value key rest current
      | None => last_value key rest current
      end
  end.

End CliSpec.

(** ** The LangSmith evaluator of [test_rag_system.py] *)

Module LangsmithEval.

(** The body of the [try] block of [evaluate_answer_quality]: the quality
    score from the answer of a run and the expected topics. *)
Definition try_quality_score (generated : GeneratedAnswer)
           (expected_topics : list string) : result Q :=
  let answer_lower := Py.lower (answer generated) in
  topic_coverage <-
    Py.int_div
      (Evaluator.count_loop (fun topic => Py.str_in (Py.lower topic) answer_lower)
                            expected_topics)
      (List.length expected_topics) ;;
  Ok (Py.min (confidence generated * 2) 1.0 * 0.4
      + topic_coverage * 0.4
      + Py.min (Py.of_nat (sources_used generated) / 3) 1.0 * 0.2).

(** The score [evaluate_answer_quality] returns; any exception gives 0.0. *)
Definition quality_score (generated : GeneratedAnswer)
           (expected_topics : list string) : Q :=
  match try_quality_score generated expected_topics with
  | Ok s => s
  | Raise _ => 0.0
  end.

End LangsmithEval.

(** ** Sample inputs for the store and the pipeline *)

Module Samples2.

Open Scope string_scope.

Definition standup : Ingest.Meeting :=
  {| Ingest.meeting_key := Some "MTG_2024_01_01_001";
     Ingest.minutes :=
       [ [ ("timestamp", Some "10:00"); ("speaker", Some "Arjun Vasanth");
           ("text", Some "We need to close the funding round.") ];
         [ ("timestamp", Some "10:05"); ("speaker", Some "Vikram Malhotra");
           ("text", Some "") ] ];
     Ingest.participants :=
       [ [ ("name", Some "Arjun Vasanth"); ("role", Some "CEO") ] ];
     Ingest.action_items :=
       [ [ ("task", Some "Send the term sheet");
           ("assigned_to", Some "Vikram Malhotra"); ("priority", Some "high") ] ];
     Ingest.key_insights := [ Some "Investors want a compliance plan"; None ] |}.

(** An encoder that only records the length of the text. *)
Definition length_encoder (s : string) : list Q :=
  [Py.of_nat (String.length s)].

Definition standup_items : list Ingest.Item :=
  [ {| Ingest.item_chunk_id := Some "MTG_2024_01_01_001_10:00";
       Ingest.embedding := [35];
       Ingest.item_metadata :=
         [ ("chunk_id", Some "MTG_2024_01_01_001_10:00");
           ("meeting_id", Some "MTG_2024_01_01_001");
           ("speaker", Some "Arjun Vasanth"); ("role", Some "CEO");
           ("text", Some "We need to close the funding round.");
           ("type", Some "minute") ] |};
    {| Ingest.item_chunk_id := Some "MTG_2024_01_01_001_action_1";
       Ingest.embedding := [19];
       Ingest.item_metadata :=
         [ ("chunk_id", Some "MTG_2024_01_01_001_action_1");
           ("meeting_id", Some "MTG_2024_01_01_001");
           ("task", Some "Send the term sheet");
           ("assigned_to", Some "Vikram Malhotra"); ("due_date", None);
           ("priority", Some "high"); ("type", Some "action_item") ] |} ].

Definition standup_files : list (string * list Ingest.Item) :=
  [ ("embeddings_chunked_standup.json", standup_items) ].

Definition action_hit : Store.ScoredPoint :=
  {| Store.hit_score := 0.8;
     Store.hit_payload :=
       [ ("chunk_id", Some "MTG_2024_01_01_001_action_1");
         ("meeting_id", Some "MTG_2024_01_01_001");
         ("text", Some "Send the term sheet"); ("type", Some "action_item");
         ("speaker", None); ("role", None);
         ("assigned_to", Some "Vikram Malhotra"); ("due_date", None);
         ("priority", Some "high");
         ("file_source", Some "embeddings_chunked_standup.json") ] |}.

Definition minute_hit : Store.ScoredPoint :=
  {| Store.hit_score := 0.6;
     Store.hit_payload :=
       [ ("chunk_id", Some "MTG_2024_01_01_001_10:00");
         ("meeting_id", Some "MTG_2024_01_01_001");
         ("text", Some "We need to close the funding round.");
         ("type", Some "minute");
         ("speaker", Some "Arjun Vasanth"); ("role", Some "CEO");
         ("assigned_to", None); ("due_date", None); ("priority", None);
         ("file_source", Some "embeddings_chunked_standup.json") ] |}.

(** A store that answers every query with the same two hits. *)
Definition two_hit_store (v : list Q) (f : option (list (string * string)))
           (limit : nat) : result (list Store.ScoredPoint) :=
  Ok [action_hit; minute_hit].

(** A retriever over an empty store. *)
Definition empty_search : string -> nat -> result (list Chunk) :=
  fun _ _ => Ok [].

End Samples2.

(** * Properties *)

(** ** Facts about the Python primitives *)

Module PyFacts.

Lemma Qlt_bool_true (a b : Q) : Py.Qlt_bool a b = true <-> a < b.
Proof.
  unfold Py.Qlt_bool. rewrite negb_true_iff. split; intro H.
  - apply Qnot_le_lt. intro Hle. apply Qle_bool_iff in Hle. congruence.
  - destruct (Qle_bool b a) eqn:E; trivial.
    apply Qle_bool_iff in E. apply Qlt_not_le in H. contradiction.
Qed.

Lemma Qlt_bool_false (a b : Q) : Py.Qlt_bool a b = false <-> b <= a.
Proof.
  unfold Py.Qlt_bool. rewrite negb_false_iff. apply Qle_bool_iff.
Qed.

Ltac case_lt a b :=
  let E := fresh "E" in
  destruct (Py.Qlt_bool a b) eqn:E;
  [ apply Qlt_bool_true in E | apply Qlt_bool_false in E ].

Lemma min_le_l (a b : Q) : Py.min a b <= a.
Proof. unfold Py.min. case_lt b a; lra. Qed.

Lemma min_le_r (a b : Q) : Py.min a b <= b.
Proof. unfold Py.min. case_lt b a; lra. Qed.

Lemma min_glb (a b c : Q) : c <= a -> c <= b -> c <= Py.min a b.
Proof. unfold Py.min. case_lt b a; lra. Qed.

Lemma min_cases (a b : Q) : Py.min a b = a \/ Py.min a b = b.
Proof. unfold Py.min. destruct (Py.Qlt_bool b a); auto. Qed.

Lemma max_ge_l (a b : Q) : a <= Py.max a b.
Proof. unfold Py.max. case_lt a b; lra. Qed.

Lemma max_ge_r (a b : Q) : b <= Py.max a b.
Proof. unfold Py.max. case_lt a b; lra. Qed.

Lemma max_lub (a b c : Q) : a <= c -> b <= c -> Py.max a b <= c.
Proof. unfold Py.max. case_lt a b; lra. Qed.

Lemma max_cases (a b : Q) : Py.max a b = a \/ Py.max a b = b.
Proof. unfold Py.max. destruct (Py.Qlt_bool a b); auto. Qed.

(** [min] respects equality of rationals. *)
Lemma min_compat (a a' b b' : Q) :
  a == a' -> b == b' -> Py.min a b == Py.min a' b'.
Proof.
  intros Ha Hb. unfold Py.min. case_lt b a; case_lt b' a'; lra.
Qed.

(** [max(seq)] is an element of the sequence and bounds it from above. *)
Lemma max_seq_in (l : list Q) (x : Q) : In (Py.max_seq x l) (x :: l).
Proof.
  revert x. induction l as [|y l IH]; intro x; simpl.
  - now left.
  - destruct (IH (Py.max x y)) as [H|H].
    + unfold Py.max_seq in *. simpl. rewrite <- H.
      destruct (max_cases x y) as [E|E]; rewrite E; auto.
    + right. now right.
Qed.

Lemma max_seq_ge_first (l : list Q) (x : Q) : x <= Py.max_seq x l.
Proof.
  revert x. induction l as [|y l IH]; intro x; simpl.
  - apply Qle_refl.
  - eapply Qle_trans; [apply (max_ge_l x y) | apply IH].
Qed.

Lemma max_seq_ub (l : list Q) (x y : Q) : In y (x :: l) -> y <= Py.max_seq x l.
Proof.
  revert x. induction l as [|z l IH]; intros x [H|H].
  - subst. apply Qle_refl.
  - destruct H.
  - subst. apply max_seq_ge_first.
  - unfold Py.max_seq. simpl. destruct H as [H|H].
    + subst. eapply Qle_trans; [apply (max_ge_r x y) | apply max_seq_ge_first].
    + apply IH. now right.
Qed.

(** [min(seq)] is an element of the sequence and bounds it from below. *)
Lemma min_seq_in (l : list Q) (x : Q) : In (Py.min_seq x l) (x :: l).
Proof.
  revert x. induction l as [|y l IH]; intro x; simpl.
  - now left.
  - destruct (IH (Py.min x y)) as [H|H].
    + unfold Py.min_seq in *. simpl. rewrite <- H.
      destruct (min_cases x y) as [E|E]; rewrite E; auto.
    + right. now right.
Qed.

Lemma min_seq_le_first (l : list Q) (x : Q) : Py.min_seq x l <= x.
Proof.
  revert x. induction l as [|y l IH]; intro x; simpl.
  - apply Qle_refl.
  - eapply Qle_trans; [apply IH | apply (min_le_l x y)].
Qed.

Lemma min_seq_lb (l : list Q) (x y : Q) : In y (x :: l) -> Py.min_seq x l <= y.
Proof.
  revert x. induction l as [|z l IH]; intros x [H|H].
  - subst. apply Qle_refl.
  - destruct H.
  - subst. apply min_seq_le_first.
  - unfold Py.min_seq. simpl. destruct H as [H|H].
    + subst. eapply Qle_trans; [apply min_seq_le_first | apply (min_le_r x y)].
    + apply IH. now right.
Qed.

(** [sum] *)
Lemma fold_plus_acc (l : list Q) (a : Q) : fold_left Qplus l a == a + Py.sum l.
Proof.
  unfold Py.sum. revert a. induction l as [|x l IH]; intro a; simpl.
  - lra.
  - rewrite (IH (a + x)), (IH (0 + x)). lra.
Qed.

Lemma sum_cons (x : Q) (l : list Q) : Py.sum (x :: l) == x + Py.sum l.
Proof. unfold Py.sum at 1. simpl. rewrite fold_plus_acc. lra. Qed.

Lemma sum_nonneg (l : list Q) : (forall x, In x l -> 0 <= x) -> 0 <= Py.sum l.
Proof.
  induction l as [|x l IH]; intro H.
  - unfold Py.sum. simpl. lra.
  - rewrite sum_cons.
    assert (0 <= x) by (apply H; now left).
    assert (0 <= Py.sum l) by (apply IH; intros; apply H; now right).
    lra.
Qed.

(** Division *)
Lemma of_nat_pos (n : nat) : (0 < n)%nat -> 0 < Py.of_nat n.
Proof.
  intro H. unfold Py.of_nat. change 0 with (inject_Z 0).
  rewrite <- Zlt_Qlt. lia.
Qed.

Lemma of_nat_le (a b : nat) : (a <= b)%nat -> Py.of_nat a <= Py.of_nat b.
Proof. intro H. unfold Py.of_nat. rewrite <- Zle_Qle. lia. Qed.

Lemma of_nat_nonneg (n : nat) : 0 <= Py.of_nat n.
Proof. apply (of_nat_le 0). lia. Qed.

Lemma div_pos (a b : Q) : 0 < b -> Py.div a b = Ok (a / b).
Proof.
  intro H. unfold Py.div. destruct (Qeq_bool b 0) eqn:E; trivial.
  apply Qeq_bool_iff in E. lra.
Qed.

Lemma div_zero (a b : Q) : b == 0 -> Py.div a b = Raise ZeroDivisionError.
Proof.
  intro H. unfold Py.div. apply Qeq_bool_iff in H. now rewrite H.
Qed.

Lemma int_div_pos (a b : nat) :
  (0 < b)%nat -> Py.int_div a b = Ok (Py.of_nat a / Py.of_nat b).
Proof. intro H. apply div_pos. now apply of_nat_pos. Qed.

Lemma int_div_zero (a : nat) : Py.int_div a 0 = Raise ZeroDivisionError.
Proof. reflexivity. Qed.

(** A quotient of a part by the whole lies in the unit interval. *)
Lemma fraction_bounds (a b : nat) :
  (a <= b)%nat -> (0 < b)%nat ->
  0 <= Py.of_nat a / Py.of_nat b <= 1.
Proof.
  intros Hab Hb.
  pose proof (of_nat_pos b Hb) as Hpos.
  pose proof (of_nat_le a b Hab) as Hle.
  pose proof (of_nat_nonneg a) as Hnn.
  split.
  - apply Qle_shift_div_l; [assumption | lra].
  - apply Qle_shift_div_r; [assumption | lra].
Qed.

End PyFacts.

(** ** Strings: [in] is the substring test *)

Module StrFacts.

Open Scope string_scope.

Lemma prefix_iff (n h : string) :
  prefix n h = true <-> exists post, h = n ++ post.
Proof.
  revert h. induction n as [|a n IH]; intro h.
  - split; [intros _; now exists h | intros _; now destruct h].
  - destruct h as [|b h]; simpl.
    + split; [discriminate | intros [post H]; discriminate].
    + destruct (ascii_dec a b) as [->|Hab].
      * rewrite IH. split; intros [post H]; exists post.
        -- now rewrite H.
        -- now inversion H.
      * split; [discriminate | intros [post H]; inversion H; congruence].
Qed.

(** [needle in hay] holds exactly when [hay] contains [needle] as a
    contiguous substring. *)
Lemma str_in_iff (n h : string) :
  Py.str_in n h = true <-> exists pre post, h = pre ++ n ++ post.
Proof.
  induction h as [|c h IH]; cbn [Py.str_in].
  - rewrite prefix_iff. split.
    + intros [post H]. now exists "", post.
    + intros [pre [post H]]. destruct pre; [now exists post | discriminate].
  - rewrite orb_true_iff, prefix_iff, IH. split.
    + intros [[post H] | [pre [post H]]].
      * now exists "", post.
      * exists (String c pre), post. simpl. now rewrite H.
    + intros [pre [post H]]. destruct pre as [|d pre]; simpl in H.
      * left. now exists post.
      * right. inversion H. now exists pre, post.
Qed.

Lemma list_in_iff (x : string) (l : list string) :
  Py.list_in x l = true <-> In x l.
Proof.
  unfold Py.list_in. rewrite existsb_exists. split.
  - intros [y [Hy E]]. apply String.eqb_eq in E. now subst.
  - intro H. exists x. split; trivial. apply String.eqb_refl.
Qed.

(** [lower] keeps the length: it works character by character. *)
Lemma lower_length (s : string) : String.length (Py.lower s) = String.length s.
Proof. induction s; simpl; congruence. Qed.

Lemma lower_char_idem (c : ascii) :
  Py.lower_char (Py.lower_char c) = Py.lower_char c.
Proof.
  destruct c as [[] [] [] [] [] [] [] []]; reflexivity.
Qed.

Lemma lower_idem (s : string) : Py.lower (Py.lower s) = Py.lower s.
Proof.
  induction s as [|c s IH]; simpl; [trivial|].
  now rewrite lower_char_idem, IH.
Qed.

(** [lower] folds exactly the capital letters, each to the letter 32 code
    points above it, and moves nothing else. *)
Lemma lower_char_capital (c : ascii) :
  Py.lower_char c
  = if Spec.is_capital c then ascii_of_nat (nat_of_ascii c + 32) else c.
Proof. reflexivity. Qed.

(** Two characters have the same [lower] exactly when they are the same
    letter: checked on all pairs of code points below 256. *)
Lemma same_letter_table :
  forallb
    (fun n =>
       forallb
         (fun m =>
            Bool.eqb (Spec.same_letter (ascii_of_nat n) (ascii_of_nat m))
                     (Ascii.eqb (Py.lower_char (ascii_of_nat n))
                                (Py.lower_char (ascii_of_nat m))))
         (seq 0 256))
    (seq 0 256)
  = true.
Proof. vm_compute. reflexivity. Qed.

Lemma same_letter_lower (c d : ascii) :
  Spec.same_letter c d = Ascii.eqb (Py.lower_char c) (Py.lower_char d).
Proof.
  pose proof same_letter_table as H. rewrite forallb_forall in H.
  specialize (H (nat_of_ascii c)). rewrite forallb_forall in H.
  assert (Hc : In (nat_of_ascii c) (seq 0 256))
    by (apply in_seq; pose proof (nat_ascii_bounded c); lia).
  assert (Hd : In (nat_of_ascii d) (seq 0 256))
    by (apply in_seq; pose proof (nat_ascii_bounded d); lia).
  specialize (H Hc (nat_of_ascii d) Hd).
  rewrite !ascii_nat_embedding in H. now apply Bool.eqb_prop.
Qed.

Lemma same_word_lower (a b : string) :
  Spec.same_word a b = String.eqb (Py.lower a) (Py.lower b).
Proof.
  revert b. induction a as [|c a IH]; intros [|d b]; simpl; trivial.
  rewrite same_letter_lower, IH.
  now destruct (Ascii.eqb (Py.lower_char c) (Py.lower_char d)).
Qed.

Lemma starts_with_lower (k t : string) :
  Spec.starts_with k t = prefix (Py.lower k) (Py.lower t).
Proof.
  revert t. induction k as [|c k IH]; intros [|d t]; simpl; trivial.
  rewrite same_letter_lower, IH.
  destruct (ascii_dec (Py.lower_char c) (Py.lower_char d)) as [E|E].
  - rewrite E, Ascii.eqb_refl. reflexivity.
  - apply Ascii.eqb_neq in E. now rewrite E.
Qed.

(** The test of the code, [keyword.lower() in text.lower()], is the
    case-insensitive substring match. *)
Lemma matches_keyword_lower (t k : string) :
  Py.str_in (Py.lower k) (Py.lower t) = Spec.matches_keyword t k.
Proof.
  induction t as [|c t IH]; cbn [Py.lower Py.str_in Spec.matches_keyword].
  - rewrite (starts_with_lower k ""). now rewrite orb_false_r.
  - rewrite IH. now rewrite (starts_with_lower k (String c t)).
Qed.

Lemma starts_with_iff (k t : string) :
  Spec.starts_with k t = true
  <-> exists mid post, t = mid ++ post /\ Spec.same_word mid k = true.
Proof.
  revert t. induction k as [|c k IH]; intro t.
  - split; [intros _; now exists "", t|]. reflexivity.
  - destruct t as [|d t]; cbn [Spec.starts_with].
    + split; [discriminate|].
      intros [[|? ?] [post [H1 H2]]]; discriminate.
    + rewrite andb_true_iff, IH. split.
      * intros [Hl [mid [post [-> Hw]]]]. exists (String d mid), post.
        split; [reflexivity|]. cbn [Spec.same_word].
        apply andb_true_iff. split; [|exact Hw].
        unfold Spec.same_letter in *. rewrite Ascii.eqb_sym.
        rewrite !orb_true_iff in *. tauto.
      * intros [[|d' mid] [post [H1 H2]]]; [discriminate|].
        inversion H1; subst. cbn [Spec.same_word] in H2.
        apply andb_true_iff in H2. destruct H2 as [Hl Hw]. split.
        -- unfold Spec.same_letter in *. rewrite Ascii.eqb_sym.
           rewrite !orb_true_iff in *. tauto.
        -- now exists mid, post.
Qed.

(** A keyword matches a text exactly when some contiguous part of the text
    is the keyword up to the case of its letters. *)
Lemma matches_keyword_iff (t k : string) :
  Spec.matches_keyword t k = true
  <-> exists pre mid post,
        t = pre ++ mid ++ post /\ Spec.same_word mid k = true.
Proof.
  induction t as [|c t IH]; cbn [Spec.matches_keyword].
  - rewrite orb_false_r, starts_with_iff. split.
    + intros [mid [post [H1 H2]]]. now exists "", mid, post.
    + intros [[|? ?] [mid [post [H1 H2]]]]; [|discriminate].
      now exists mid, post.
  - rewrite orb_true_iff, starts_with_iff, IH. split.
    + intros [[mid [post [H1 H2]]] | [pre [mid [post [H1 H2]]]]].
      * now exists "", mid, post.
      * exists (String c pre), mid, post. split; [|exact H2].
        simpl. now rewrite H1.
    + intros [[|c' pre] [mid [post [H1 H2]]]].
      * left. now exists mid, post.
      * right. inversion H1. now exists pre, mid, post.
Qed.

Lemma has_expected_type_in (types : list string) (r : Chunk) :
  Py.list_in (type r) types = Spec.has_expected_type types r.
Proof.
  unfold Spec.has_expected_type.
  destruct (in_dec string_dec (type r) types) as [H|H].
  - now apply list_in_iff.
  - apply not_true_is_false. intro E. now apply list_in_iff in E.
Qed.

Lemma has_expected_speaker_in (speakers : list string) (r : Chunk) :
  Py.opt_in (speaker r) speakers = Spec.has_expected_speaker speakers r.
Proof.
  unfold Spec.has_expected_speaker, Py.opt_in.
  destruct (speaker r) as [s|]; [|reflexivity].
  destruct (in_dec string_dec s speakers) as [H|H].
  - now apply list_in_iff.
  - apply not_true_is_false. intro E. now apply list_in_iff in E.
Qed.

End StrFacts.

(** ** Loops as counts *)

Module LoopFacts.

Lemma count_loop_acc {A : Type} (test : A -> bool) (l : list A) (n : nat) :
  fold_left (fun matches x => if test x then S matches else matches) l n
  = (n + Spec.count test l)%nat.
Proof.
  unfold Spec.count. revert n. induction l as [|x l IH]; intro n; simpl.
  - lia.
  - rewrite IH. destruct (test x); simpl; lia.
Qed.

Lemma count_loop_count {A : Type} (test : A -> bool) (l : list A) :
  Evaluator.count_loop test l = Spec.count test l.
Proof. unfold Evaluator.count_loop. now rewrite count_loop_acc. Qed.

(** The keyword loop adds one exactly when some keyword matches, however
    many do. *)
Lemma keyword_loop_existsb (txt : string) (keywords : list string) (n : nat) :
  Evaluator.keyword_loop (Py.lower txt) keywords n
  = if existsb (Spec.matches_keyword txt) keywords then S n else n.
Proof.
  induction keywords as [|k ks IH]; simpl; trivial.
  rewrite StrFacts.matches_keyword_lower.
  destruct (Spec.matches_keyword txt k); simpl; trivial.
Qed.

Lemma count_ext {A : Type} (p p' : A -> bool) (l : list A) :
  (forall x, p x = p' x) -> Spec.count p l = Spec.count p' l.
Proof. intro H. unfold Spec.count. now rewrite (filter_ext p p' H). Qed.

Lemma type_matches_count (types : list string) (results : list Chunk) :
  Evaluator.count_loop (fun r => Py.list_in (type r) types) results
  = Spec.count (Spec.has_expected_type types) results.
Proof.
  rewrite count_loop_count. apply count_ext.
  intro r. apply StrFacts.has_expected_type_in.
Qed.

Lemma speaker_matches_count (speakers : list string) (results : list Chunk) :
  Evaluator.count_loop (fun r => Py.opt_in (speaker r) speakers) results
  = Spec.count (Spec.has_expected_speaker speakers) results.
Proof.
  rewrite count_loop_count. apply count_ext.
  intro r. apply StrFacts.has_expected_speaker_in.
Qed.

(** The number of expected keywords found in an answer. *)
Lemma answer_matches_count (txt : string) (keywords : list string) :
  Evaluator.count_loop (fun keyword => Py.str_in (Py.lower keyword) (Py.lower txt))
                       keywords
  = Spec.count (Spec.matches_keyword txt) keywords.
Proof.
  rewrite count_loop_count. apply count_ext.
  intro k. apply StrFacts.matches_keyword_lower.
Qed.

Lemma keyword_matches_count (keywords : list string) (results : list Chunk) :
  fold_left (fun m r => Evaluator.keyword_loop (Py.lower (text r)) keywords m)
            results 0%nat
  = Spec.count (Spec.mentions_keyword keywords) results.
Proof.
  rewrite <- count_loop_count. unfold Evaluator.count_loop.
  generalize 0%nat. induction results as [|r rs IH]; intro n; simpl; trivial.
  rewrite keyword_loop_existsb. apply IH.
Qed.

Lemma count_le_length {A : Type} (p : A -> bool) (l : list A) :
  (Spec.count p l <= List.length l)%nat.
Proof. apply filter_length_le. Qed.

Lemma fraction_unit {A : Type} (p : A -> bool) (l : list A) :
  l <> [] -> 0 <= Spec.fraction p l <= 1.
Proof.
  intro H. apply PyFacts.fraction_bounds.
  - apply count_le_length.
  - destruct l; [contradiction | simpl; lia].
Qed.

End LoopFacts.

(** ** Answer Synthesizer *)

Module SynthesizerProps.

Lemma top5_length (chunks : list Chunk) :
  List.length (map score (firstn 5 chunks))
  = Nat.min (List.length chunks) 5.
Proof. now rewrite length_map, length_firstn, Nat.min_comm. Qed.

Lemma avg_score_ok (chunks : list Chunk) :
  chunks <> [] ->
  RAG.avg_score chunks = Ok (Spec.average (map score (firstn 5 chunks))).
Proof.
  intro H. unfold RAG.avg_score, Spec.average.
  rewrite top5_length. apply PyFacts.div_pos, PyFacts.of_nat_pos.
  destruct chunks; [contradiction | simpl; lia].
Qed.

Lemma average_nonneg (l : list Q) : 0 <= Py.sum l -> 0 <= Spec.average l.
Proof.
  intro H. unfold Spec.average. destruct l as [|x l].
  - unfold Py.of_nat. simpl. unfold Qdiv. rewrite Qmult_0_l. apply Qle_refl.
  - apply Qle_shift_div_l.
    + apply PyFacts.of_nat_pos. simpl. lia.
    + lra.
Qed.

Section WithGenerator.

Variable complete : string -> result string.

Lemma generate_answer_success (q : string) (chunks : list Chunk)
      (generated : string) :
  chunks <> [] ->
  complete (RAG.build_prompt q (RAG.build_context chunks)) = Ok generated ->
  RAG.generate_answer complete q chunks
  = {| answer := generated;
       confidence :=
         Py.min (Spec.average (map score (firstn 5 chunks)) * 1.2) 1.0;
       sources_used := List.length (firstn 5 chunks);
       retrieval_scores := Some (map score (firstn 5 chunks));
       error := None |}.
Proof.
  intros Hne Hgen. destruct chunks as [|c cs]; [contradiction|].
  unfold RAG.generate_answer, RAG.try_generate.
  rewrite Hgen. unfold bind. now rewrite avg_score_ok.
Qed.

Lemma generate_answer_failure (q : string) (chunks : list Chunk) (e : exn) :
  chunks <> [] ->
  complete (RAG.build_prompt q (RAG.build_context chunks)) = Raise e ->
  RAG.generate_answer complete q chunks
  = {| answer := (RAG.error_prefix ++ str_exn e)%string;
       confidence := 0.0;
       sources_used := List.length chunks;
       retrieval_scores := None;
       error := Some (str_exn e) |}.
Proof.
  intros Hne Hgen. destruct chunks as [|c cs]; [contradiction|].
  unfold RAG.generate_answer, RAG.try_generate.
  now rewrite Hgen.
Qed.

(** The three outcomes of [generate_answer]. *)
Lemma generate_answer_cases (q : string) (chunks : list Chunk) :
  confidence (RAG.generate_answer complete q chunks) = 0.0
  \/ confidence (RAG.generate_answer complete q chunks)
     = Py.min (Spec.average (map score (firstn 5 chunks)) * 1.2) 1.0.
Proof.
  destruct chunks as [|c cs]; [now left|].
  destruct (complete (RAG.build_prompt q (RAG.build_context (c :: cs))))
    as [g|e] eqn:E.
  - right. rewrite (generate_answer_success q (c :: cs) g); trivial. discriminate.
  - left. rewrite (generate_answer_failure q (c :: cs) e); trivial. discriminate.
Qed.

(** C1 (as the code has it).  On generation success over a non-empty
    result list the confidence is [min(avg * 1.2, 1.0)], [avg] being
    the average similarity score of the top five results.  The
    confidence never exceeds 1, and it is non-negative whenever the
    selected scores have a non-negative sum; there is no lower clamp. *)
Theorem confidence_boosted_average_capped :
  (forall q chunks generated,
      chunks <> [] ->
      complete (RAG.build_prompt q (RAG.build_context chunks)) = Ok generated ->
      confidence (RAG.generate_answer complete q chunks)
      = Py.min (Spec.average (map score (firstn 5 chunks)) * 1.2) 1.0)
  /\ (forall q chunks,
         confidence (RAG.generate_answer complete q chunks) <= 1)
  /\ (forall q chunks,
         0 <= Py.sum (map score (firstn 5 chunks)) ->
         0 <= confidence (RAG.generate_answer complete q chunks)).
Proof.
  split; [|split].
  - intros q chunks g Hne Hgen.
    now rewrite (generate_answer_success q chunks g Hne Hgen).
  - intros q chunks.
    destruct (generate_answer_cases q chunks) as [E|E]; rewrite E.
    + lra.
    + eapply Qle_trans; [apply PyFacts.min_le_r | lra].
  - intros q chunks Hsum.
    destruct (generate_answer_cases q chunks) as [E|E]; rewrite E.
    + lra.
    + apply PyFacts.min_glb; [|lra].
      pose proof (average_nonneg _ Hsum). lra.
Qed.

(** C4.  When the generation call raises over a non-empty result list,
    [generate_answer] still returns a value: its text reports the
    failure, its confidence is 0.0, [sources_used] is the full number
    of retrieved results and the error is attached. *)
Theorem generation_failure_is_a_value (q : string) (chunks : list Chunk)
        (e : exn) :
  chunks <> [] ->
  complete (RAG.build_prompt q (RAG.build_context chunks)) = Raise e ->
  let r := RAG.generate_answer complete q chunks in
  answer r = (RAG.error_prefix ++ str_exn e)%string
  /\ confidence r = 0.0
  /\ sources_used r = List.length chunks
  /\ error r = Some (str_exn e).
Proof.
  intros Hne Hgen r. unfold r.
  rewrite (generate_answer_failure q chunks e Hne Hgen). now repeat split.
Qed.

(** C8.  With no retrieved result [generate_answer] returns the fixed
    fallback answer, confidence 0.0 and zero sources, without error
    and without consulting the generation capability; the pipeline
    hands it on unchanged. *)
Theorem empty_results_fallback (q : string) :
  RAG.generate_answer complete q []
  = {| answer := "I couldn't find any relevant information to answer your question.";
       confidence := 0.0;
       sources_used := 0;
       retrieval_scores := None;
       error := None |}
  /\ forall search limit,
      search q limit = Ok [] ->
      exists r,
        RAG.search_and_generate complete search q limit = Ok r
        /\ generated_answer r = RAG.generate_answer complete q []
        /\ total_chunks_found r = 0%nat.
Proof.
  split; [reflexivity|].
  intros search limit Hs. unfold RAG.search_and_generate. rewrite Hs.
  simpl. eexists. now repeat split.
Qed.

End WithGenerator.

Lemma empty_results_fallback_witness :
  exists r,
    RAG.search_and_generate (Samples.failing "offline") (fun _ _ => Ok [])
                            "What are the priorities?" 10 = Ok r
    /\ generated_answer r
       = RAG.generate_answer (Samples.failing "offline")
                             "What are the priorities?" []
    /\ total_chunks_found r = 0%nat.
Proof.
  apply (proj2 (empty_results_fallback (Samples.failing "offline")
                                       "What are the priorities?"%string)
               (fun _ _ => Ok []) 10%nat).
  reflexivity.
Defined.

Lemma confidence_boosted_average_capped_witness :
  confidence (RAG.generate_answer (Samples.canned "Priorities were discussed.")
                                  "What are the priorities?"
                                  Samples.strong_results)
  = Py.min (Spec.average [0.95; 0.9] * 1.2) 1.0.
Proof.
  apply (proj1 (confidence_boosted_average_capped
                  (Samples.canned "Priorities were discussed."))
               "What are the priorities?"%string Samples.strong_results
               "Priorities were discussed."%string).
  - discriminate.
  - reflexivity.
Defined.

(** C1, lower bound: a single result of similarity -0.5 gives the
    confidence -0.6 on generation success. *)
Lemma confidence_negative_example :
  let r := RAG.generate_answer (Samples.canned "Nothing relevant.")
                               "What are the priorities?"
                               Samples.negative_results in
  error r = None
  /\ confidence r == -0.6
  /\ ~ (0 <= confidence r <= 1).
Proof.
  vm_compute. repeat split; try discriminate.
  intros [H _]. apply H. reflexivity.
Qed.

Lemma generation_failure_is_a_value_witness :
  let r := RAG.generate_answer (Samples.failing "quota exceeded")
                               "What are the priorities?"
                               (repeat (Samples.chunk_with_score 0.9) 7) in
  answer r = "Sorry, I encountered an error generating the response: quota exceeded"%string
  /\ confidence r = 0.0
  /\ sources_used r = 7%nat
  /\ error r = Some "quota exceeded"%string.
Proof.
  apply (generation_failure_is_a_value
           (Samples.failing "quota exceeded")
           "What are the priorities?"%string
           (repeat (Samples.chunk_with_score 0.9) 7)
           (ExternalError "quota exceeded")).
  - discriminate.
  - reflexivity.
Defined.

End SynthesizerProps.

(** ** Rounding of the weighted sums *)

Module Binary64Facts.

(** With every sub-score at 1.0 the relevance weights add up to exactly
    1.0 on binary64. *)
Lemma weighted_relevance_all_ones :
  Binary64.weighted_relevance 1 1 1 = 1%float.
Proof. reflexivity. Qed.

(** With every sub-score at 1.0 the quality weights add up to the next
    binary64 number above 1.0. *)
Lemma weighted_quality_all_ones :
  PrimFloat.ltb 1 (Binary64.weighted_quality 1 1 1 1) = true.
Proof. reflexivity. Qed.

(** That number is 1 + 2^-52: the mantissa 2^52 + 1 at the exponent -52. *)
Lemma weighted_quality_all_ones_value :
  Prim2SF (Binary64.weighted_quality 1 1 1 1)
  = S754_finite false 4503599627370497 (-52)
  /\ Binary64.after_one == (4503599627370497 # 1) / (4503599627370496 # 1).
Proof. split; [vm_compute; reflexivity | reflexivity]. Qed.

(** Under any monotone rounding the weighted sum of sub-scores between 0
    and 1 lies between the sums at all zeros and at all ones; on binary64
    the latter is 1 + 2^-52. *)
Section Rounding.

Variable rnd : Q -> Q.
Hypothesis rnd_monotone : forall x y, x <= y -> rnd x <= rnd y.
Hypothesis rnd_zero : rnd 0 == 0.

Lemma rnd_nonneg (x : Q) : 0 <= x -> 0 <= rnd x.
Proof.
  intro H. apply Qle_trans with (rnd 0).
  - rewrite rnd_zero. apply Qle_refl.
  - now apply rnd_monotone.
Qed.

Lemma rounded_term_monotone (x x' c : Q) :
  0 <= c -> x <= x' -> rnd (x * rnd c) <= rnd (x' * rnd c).
Proof.
  intros Hc Hx. apply rnd_monotone.
  apply Qmult_le_compat_r; [exact Hx | now apply rnd_nonneg].
Qed.

Lemma rounded_quality_monotone (conf ls kc su conf' ls' kc' su' : Q) :
  conf <= conf' -> ls <= ls' -> kc <= kc' -> su <= su' ->
  Rounded.weighted_quality rnd conf ls kc su
  <= Rounded.weighted_quality rnd conf' ls' kc' su'.
Proof.
  intros H1 H2 H3 H4. unfold Rounded.weighted_quality.
  apply rnd_monotone, Qplus_le_compat;
    [|apply rounded_term_monotone; [lra | exact H4]].
  apply rnd_monotone, Qplus_le_compat;
    [|apply rounded_term_monotone; [lra | exact H3]].
  apply rnd_monotone, Qplus_le_compat;
    apply rounded_term_monotone; (lra || assumption).
Qed.

Lemma rounded_quality_bounds (conf ls kc su : Q) :
  0 <= conf <= 1 -> 0 <= ls <= 1 -> 0 <= kc <= 1 -> 0 <= su <= 1 ->
  Rounded.weighted_quality rnd 0 0 0 0
  <= Rounded.weighted_quality rnd conf ls kc su
  <= Rounded.weighted_quality rnd 1 1 1 1.
Proof.
  intros [? ?] [? ?] [? ?] [? ?].
  split; apply rounded_quality_monotone; assumption.
Qed.

End Rounding.

(** Exact arithmetic is the rounding that changes nothing; there the two
    ends are 0 and 1. *)
Lemma exact_quality_bounds (conf ls kc su : Q) :
  0 <= conf <= 1 -> 0 <= ls <= 1 -> 0 <= kc <= 1 -> 0 <= su <= 1 ->
  0 <= conf * 0.4 + ls * 0.2 + kc * 0.3 + su * 0.1 <= 1.
Proof. intros. lra. Qed.

End Binary64Facts.

(** ** Relevance Scorer *)

Module RelevanceProps.

Lemma evaluate_relevance_nonempty (query_data : QuerySpec) (r : Chunk)
      (rs : list Chunk) :
  let results := r :: rs in
  Evaluator.evaluate_relevance query_data results
  = let ta := match expected_types query_data with
              | Some types => Spec.fraction (Spec.has_expected_type types) results
              | None => 1.0
              end in
    let kr := match expected_keywords query_data with
              | Some keywords => Spec.fraction (Spec.mentions_keyword keywords) results
              | None => 1.0
              end in
    let sa := match expected_speakers query_data with
              | Some speakers => Spec.fraction (Spec.has_expected_speaker speakers) results
              | None => 1.0
              end in
    Ok {| type_accuracy := ta; keyword_relevance := kr; speaker_accuracy := sa;
          overall_relevance := ta * 0.3 + kr * 0.5 + sa * 0.2 |}.
Proof.
  intro results. unfold Evaluator.evaluate_relevance. subst results.
  assert (Hlen : (0 < List.length (r :: rs))%nat) by (simpl; lia).
  destruct (expected_types query_data), (expected_keywords query_data),
    (expected_speakers query_data);
    cbv zeta;
    rewrite ?LoopFacts.keyword_matches_count, ?LoopFacts.type_matches_count,
      ?LoopFacts.speaker_matches_count, ?(PyFacts.int_div_pos _ _ Hlen);
    reflexivity.
Qed.

(** C5.  On an empty result list the four relevance scores are 0.0.
    Otherwise each sub-score is 1.0 when its expectation is not declared
    and else the fraction of results that match it (for keywords: results
    whose text contains at least one keyword, each result counted once,
    compared case-insensitively), and the overall relevance is
    0.3 * type + 0.5 * keyword + 0.2 * speaker. *)
Theorem relevance_scores (query_data : QuerySpec) :
  Evaluator.evaluate_relevance query_data []
  = Ok {| type_accuracy := 0.0; keyword_relevance := 0.0;
          speaker_accuracy := 0.0; overall_relevance := 0.0 |}
  /\ forall r rs,
      let results := r :: rs in
      exists m,
        Evaluator.evaluate_relevance query_data results = Ok m
        /\ type_accuracy m
           = match expected_types query_data with
             | Some types => Spec.fraction (Spec.has_expected_type types) results
             | None => 1.0
             end
        /\ keyword_relevance m
           = match expected_keywords query_data with
             | Some keywords => Spec.fraction (Spec.mentions_keyword keywords) results
             | None => 1.0
             end
        /\ speaker_accuracy m
           = match expected_speakers query_data with
             | Some speakers => Spec.fraction (Spec.has_expected_speaker speakers) results
             | None => 1.0
             end
        /\ overall_relevance m
           == 0.3 * type_accuracy m + 0.5 * keyword_relevance m
              + 0.2 * speaker_accuracy m.
Proof.
  split; [reflexivity|].
  intros r rs results. subst results.
  rewrite evaluate_relevance_nonempty. cbv zeta.
  eexists. split; [reflexivity|]. cbn [type_accuracy keyword_relevance
    speaker_accuracy overall_relevance].
  repeat split. ring.
Qed.

(** Ten action items of which six mention "priority", scored against the
    second ground truth query. *)
Example relevance_of_ten_action_items :
  exists m,
    Evaluator.evaluate_relevance
      (nth 1 Evaluator.create_ground_truth_dataset Samples.plain_query)
      Samples.ten_action_items = Ok m
    /\ type_accuracy m == 1
    /\ keyword_relevance m == 0.6
    /\ speaker_accuracy m == 1
    /\ overall_relevance m == 0.8.
Proof.
  eexists. split; [vm_compute; reflexivity|]. now repeat split.
Qed.

(** Beyond ASCII: the capital É (code point 201) of a keyword is found in
    a text that has the small é (code point 233), as with [str.lower()]. *)
Example keyword_relevance_accented :
  exists m,
    Evaluator.evaluate_relevance Samples.summer_query [Samples.summer_chunk]
    = Ok m
    /\ keyword_relevance m == 1
    /\ Spec.matches_keyword (text Samples.summer_chunk) Samples.summer_capital
       = true.
Proof.
  eexists. split; [vm_compute; reflexivity|]. split; reflexivity.
Qed.

(** The sub-scores of a non-empty result list lie in the unit interval. *)
Lemma optional_fraction_unit {A B : Type} (o : option B) (p : B -> A -> bool)
      (l : list A) :
  l <> [] ->
  0 <= match o with Some b => Spec.fraction (p b) l | None => 1.0 end <= 1.
Proof.
  intro H. destruct o.
  - now apply LoopFacts.fraction_unit.
  - lra.
Qed.

Lemma overall_relevance_unit (query_data : QuerySpec) (results : list Chunk) :
  exists m, Evaluator.evaluate_relevance query_data results = Ok m
            /\ 0 <= overall_relevance m <= 1.
Proof.
  destruct results as [|r rs].
  - eexists. split; [reflexivity|]. simpl. lra.
  - rewrite evaluate_relevance_nonempty. cbv zeta.
    eexists. split; [reflexivity|]. cbn [overall_relevance].
    assert (Hne : r :: rs <> []) by discriminate.
    pose proof (optional_fraction_unit (expected_types query_data)
                  Spec.has_expected_type (r :: rs) Hne).
    pose proof (optional_fraction_unit (expected_keywords query_data)
                  Spec.mentions_keyword (r :: rs) Hne).
    pose proof (optional_fraction_unit (expected_speakers query_data)
                  Spec.has_expected_speaker (r :: rs) Hne).
    lra.
Qed.

End RelevanceProps.

(** ** Ranking Scorer *)

Module RankingProps.

Lemma monotonic_iff (scores : list Q) :
  Evaluator.monotonic scores = true <-> Spec.non_increasing scores.
Proof.
  unfold Evaluator.monotonic, Spec.non_increasing.
  rewrite forallb_forall. split.
  - intros H i Hi. apply Qle_bool_iff.
    rewrite <- (Nat.add_1_r i). apply H. apply in_seq. lia.
  - intros H i Hi. apply in_seq in Hi. apply Qle_bool_iff.
    rewrite Nat.add_1_r. apply H. lia.
Qed.

Lemma max_seq_is_max (x : Q) (l : list Q) : Spec.is_max (Py.max_seq x l) (x :: l).
Proof.
  split.
  - exists (Py.max_seq x l). split; [apply PyFacts.max_seq_in | reflexivity].
  - intros y Hy. now apply PyFacts.max_seq_ub.
Qed.

Lemma min_seq_is_min (x : Q) (l : list Q) : Spec.is_min (Py.min_seq x l) (x :: l).
Proof.
  split.
  - exists (Py.min_seq x l). split; [apply PyFacts.min_seq_in | reflexivity].
  - intros y Hy. now apply PyFacts.min_seq_lb.
Qed.

Lemma is_max_unique (l : list Q) (m m' : Q) :
  Spec.is_max m l -> Spec.is_max m' l -> m == m'.
Proof.
  intros [[x [Hx Ex]] Hub] [[y [Hy Ey]] Hub'].
  apply Hub in Hy. apply Hub' in Hx. lra.
Qed.

Lemma is_min_unique (l : list Q) (m m' : Q) :
  Spec.is_min m l -> Spec.is_min m' l -> m == m'.
Proof.
  intros [[x [Hx Ex]] Hlb] [[y [Hy Ey]] Hlb'].
  apply Hlb in Hy. apply Hlb' in Hx. lra.
Qed.

(** The scorer on two or more results, in terms of [max(scores)] and
    [min(scores)]. *)
Lemma evaluate_ranking_quality_many (r1 r2 : Chunk) (rs : list Chunk) :
  let scores := map score (r1 :: r2 :: rs) in
  let mx := Py.max_seq (score r1) (map score (r2 :: rs)) in
  let mn := Py.min_seq (score r1) (map score (r2 :: rs)) in
  Evaluator.evaluate_ranking_quality (r1 :: r2 :: rs)
  = Ok {| score_monotonicity := if Evaluator.monotonic scores then 1.0 else 0.0;
          score_distribution :=
            if Py.Qlt_bool 0 mx then Py.min ((mx - mn) / mx) 1.0 else 0.0 |}.
Proof.
  intros scores mx mn. unfold Evaluator.evaluate_ranking_quality.
  change (List.length (r1 :: r2 :: rs) <? 2)%nat with false. cbv iota zeta.
  change (Py.max_of (map score (r1 :: r2 :: rs))) with (Ok mx).
  change (Py.min_of (map score (r1 :: r2 :: rs))) with (Ok mn).
  cbn [bind]. fold scores.
  PyFacts.case_lt 0 mx; [|reflexivity].
  now rewrite (PyFacts.div_pos _ _ E).
Qed.

(** C6 (as the code has it).  With fewer than two results both ranking
    scores are 1.0.  Otherwise the monotonicity score is 1.0 exactly when
    every adjacent pair of scores is non-increasing and 0.0 if not, and
    the distribution score is [min((max - min) / max, 1.0)] when the
    maximum score is positive and 0.0 when it is zero or negative. *)
Theorem ranking_scores (results : list Chunk) :
  let scores := map score results in
  ((List.length results < 2)%nat ->
   Evaluator.evaluate_ranking_quality results
   = Ok {| score_monotonicity := 1.0; score_distribution := 1.0 |})
  /\ ((2 <= List.length results)%nat ->
      exists m,
        Evaluator.evaluate_ranking_quality results = Ok m
        /\ (Spec.non_increasing scores -> score_monotonicity m = 1.0)
        /\ (~ Spec.non_increasing scores -> score_monotonicity m = 0.0)
        /\ forall mx mn,
            Spec.is_max mx scores -> Spec.is_min mn scores ->
            (0 < mx -> score_distribution m == Py.min ((mx - mn) / mx) 1.0)
            /\ (mx <= 0 -> score_distribution m == 0.0)).
Proof.
  intro scores. split.
  - intro Hlen. unfold Evaluator.evaluate_ranking_quality.
    apply Nat.ltb_lt in Hlen. now rewrite Hlen.
  - intro Hlen. destruct results as [|r1 [|r2 rs]]; simpl in Hlen; try lia.
    rewrite evaluate_ranking_quality_many. cbv zeta.
    eexists. split; [reflexivity|].
    cbn [score_monotonicity score_distribution]. fold scores.
    split; [|split].
    + intro Hmono. apply monotonic_iff in Hmono. now rewrite Hmono.
    + intro Hmono. destruct (Evaluator.monotonic scores) eqn:E; trivial.
      apply monotonic_iff in E. contradiction.
    + intros mx mn Hmx Hmn.
      pose proof (is_max_unique _ _ _ Hmx
                    (max_seq_is_max (score r1) (map score (r2 :: rs)))) as Emx.
      pose proof (is_min_unique _ _ _ Hmn
                    (min_seq_is_min (score r1) (map score (r2 :: rs)))) as Emn.
      set (mx' := Py.max_seq (score r1) (map score (r2 :: rs))) in *.
      set (mn' := Py.min_seq (score r1) (map score (r2 :: rs))) in *.
      PyFacts.case_lt 0 mx'; split; intro Hsign; try lra.
      apply PyFacts.min_compat; [|reflexivity].
      rewrite Emx, Emn. reflexivity.
Qed.

Lemma ranking_scores_witness :
  exists m,
    Evaluator.evaluate_ranking_quality Samples.strong_results = Ok m
    /\ score_monotonicity m = 1.0
    /\ score_distribution m == Py.min ((0.95 - 0.9) / 0.95) 1.0.
Proof.
  destruct (proj2 (ranking_scores Samples.strong_results)) as [m [Hm [Hmono [_ Hd]]]].
  - simpl. lia.
  - exists m. split; [exact Hm|]. split.
    + apply Hmono. intros [|[|i]] Hi; simpl in *; try lia.
      unfold Qle. simpl. lia.
    + apply (Hd 0.95 0.9).
      * split; [exists 0.95; split; [now left | reflexivity]|].
        intros x [<-|[<-|[]]]; unfold Qle; simpl; lia.
      * split; [exists 0.9; split; [right; now left | reflexivity]|].
        intros x [<-|[<-|[]]]; unfold Qle; simpl; lia.
      * reflexivity.
Defined.

(** C6, negative maximum: for the scores -0.2 and -0.4 the maximum is not
    zero and [min((max - min) / max, 1.0)] is -1, yet the distribution
    score returned is 0.0. *)
Lemma ranking_negative_maximum_example :
  Evaluator.evaluate_ranking_quality Samples.all_negative_results
  = Ok {| score_monotonicity := 1.0; score_distribution := 0.0 |}
  /\ Spec.is_max (-0.2) (map score Samples.all_negative_results)
  /\ Spec.is_min (-0.4) (map score Samples.all_negative_results)
  /\ ~ (-0.2 == 0)
  /\ Py.min ((-0.2 - -0.4) / -0.2) 1.0 == -1
  /\ ~ (0.0 == Py.min ((-0.2 - -0.4) / -0.2) 1.0).
Proof.
  split; [reflexivity|]. split; [|split].
  - split; [exists (-0.2); split; [now left | reflexivity]|].
    intros x [<-|[<-|[]]]; unfold Qle; simpl; lia.
  - split; [exists (-0.4); split; [right; now left | reflexivity]|].
    intros x [<-|[<-|[]]]; unfold Qle; simpl; lia.
  - repeat split; vm_compute; discriminate.
Qed.

End RankingProps.

(** ** Generation Scorer *)

Module GenerationProps.

(** The scorer returns exactly when the keyword coverage can be computed. *)
Lemma evaluate_generation_quality_undeclared (query_data : QuerySpec)
      (rag_result : RagResult) :
  expected_keywords query_data = None ->
  Evaluator.evaluate_generation_quality query_data rag_result
  = Ok (Spec.generation_metrics (generated_answer rag_result) 0.0).
Proof.
  intro H. unfold Evaluator.evaluate_generation_quality. now rewrite H.
Qed.

Lemma evaluate_generation_quality_declared (query_data : QuerySpec)
      (rag_result : RagResult) (keywords : list string) :
  expected_keywords query_data = Some keywords ->
  Evaluator.evaluate_generation_quality query_data rag_result
  = kc <- Py.int_div
            (Spec.count (Spec.matches_keyword (answer (generated_answer rag_result)))
                        keywords)
            (List.length keywords) ;;
    Ok (Spec.generation_metrics (generated_answer rag_result) kc).
Proof.
  intro H. unfold Evaluator.evaluate_generation_quality.
  rewrite H. cbv zeta. now rewrite LoopFacts.answer_matches_count.
Qed.

Lemma evaluate_generation_quality_nonempty (query_data : QuerySpec)
      (rag_result : RagResult) (keywords : list string) :
  expected_keywords query_data = Some keywords ->
  keywords <> [] ->
  Evaluator.evaluate_generation_quality query_data rag_result
  = Ok (Spec.generation_metrics
          (generated_answer rag_result)
          (Spec.fraction (Spec.matches_keyword (answer (generated_answer rag_result)))
                         keywords)).
Proof.
  intros H Hne. rewrite (evaluate_generation_quality_declared _ _ _ H).
  rewrite PyFacts.int_div_pos; [reflexivity|].
  destruct keywords; [contradiction | simpl; lia].
Qed.

(** Whenever no empty keyword list is declared the scorer returns, with
    some keyword coverage in the unit interval. *)
Lemma evaluate_generation_quality_total (query_data : QuerySpec)
      (rag_result : RagResult) :
  expected_keywords query_data <> Some [] ->
  exists kc,
    Evaluator.evaluate_generation_quality query_data rag_result
    = Ok (Spec.generation_metrics (generated_answer rag_result) kc)
    /\ 0 <= kc <= 1.
Proof.
  intro H. destruct (expected_keywords query_data) as [keywords|] eqn:E.
  - assert (Hne : keywords <> []) by (intros ->; now apply H).
    exists (Spec.fraction
              (Spec.matches_keyword (answer (generated_answer rag_result)))
              keywords).
    split.
    + exact (evaluate_generation_quality_nonempty _ _ _ E Hne).
    + now apply LoopFacts.fraction_unit.
  - exists 0.0. split.
    + now apply evaluate_generation_quality_undeclared.
    + lra.
Qed.

(** The value of the length score. *)
Lemma length_score_in_range (len : nat) :
  (50 <= len <= 1000)%nat -> Spec.length_score_of len = 1.0.
Proof.
  intros [H1 H2]. unfold Spec.length_score_of.
  apply Nat.leb_le in H1, H2. now rewrite H1, H2.
Qed.

Lemma length_score_out_of_range (len : nat) :
  ~ (50 <= len <= 1000)%nat ->
  Spec.length_score_of len = Py.max 0.3 (Py.min (Py.of_nat len / 500) 1.0).
Proof.
  intro H. unfold Spec.length_score_of.
  destruct (50 <=? len)%nat eqn:E1; destruct (len <=? 1000)%nat eqn:E2; trivial.
  apply Nat.leb_le in E1, E2. lia.
Qed.

Lemma length_score_bounds (len : nat) : 0.3 <= Spec.length_score_of len <= 1.
Proof.
  unfold Spec.length_score_of.
  destruct ((50 <=? len)%nat && (len <=? 1000)%nat).
  - lra.
  - split.
    + apply PyFacts.max_ge_l.
    + apply PyFacts.max_lub; [lra|].
      eapply Qle_trans; [apply PyFacts.min_le_r | lra].
Qed.

Lemma length_score_short (len : nat) :
  (len < 50)%nat -> Spec.length_score_of len == 0.3.
Proof.
  intro H. rewrite length_score_out_of_range by lia.
  assert (Hq : Py.of_nat len / 500 <= 0.1).
  { apply Qle_shift_div_r; [lra|].
    pose proof (PyFacts.of_nat_le len 50 ltac:(lia)) as Hle.
    change (Py.of_nat 50) with 50 in Hle. lra. }
  pose proof (PyFacts.min_le_l (Py.of_nat len / 500) 1.0) as Hmin.
  unfold Py.max. PyFacts.case_lt 0.3 (Py.min (Py.of_nat len / 500) 1.0); lra.
Qed.

(** Above 1000 characters the quotient [len / 500] exceeds 1, so the
    score is back at 1.0. *)
Lemma length_score_long (len : nat) :
  (1000 < len)%nat -> Spec.length_score_of len == 1.
Proof.
  intro H. rewrite length_score_out_of_range by lia.
  assert (Hq : 1 <= Py.of_nat len / 500).
  { apply Qle_shift_div_l; [lra|].
    pose proof (PyFacts.of_nat_le 1000 len ltac:(lia)) as Hle.
    change (Py.of_nat 1000) with 1000 in Hle. lra. }
  pose proof (PyFacts.min_glb (Py.of_nat len / 500) 1.0 1 Hq ltac:(lra)) as Hmin.
  pose proof (PyFacts.min_le_r (Py.of_nat len / 500) 1.0) as Hmin'.
  unfold Py.max. PyFacts.case_lt 0.3 (Py.min (Py.of_nat len / 500) 1.0); lra.
Qed.

Lemma source_utilization_unit (used : nat) :
  0 <= Spec.source_utilization_of used <= 1.
Proof.
  unfold Spec.source_utilization_of. split.
  - apply PyFacts.min_glb; [|lra].
    apply Qle_shift_div_l; [lra|].
    pose proof (PyFacts.of_nat_nonneg used). lra.
  - eapply Qle_trans; [apply PyFacts.min_le_r | lra].
Qed.

(** C3.  The code at the failing input.  An answer of 1001 characters is
    outside the range 50 to 1000 that the scorer tests for, yet it gets
    the length score 1.0, the score of an answer inside the range, and not
    a value below 1.0: the fallback [max(0.3, min(1001 / 500, 1.0))] is
    1.0, as it is for every answer above 1000 characters. *)
Theorem length_score_1001_example :
  exists m,
    Evaluator.evaluate_generation_quality Samples.plain_query
                                          (Samples.answer_of_length 1001) = Ok m
    /\ answer_length m = 1001%nat
    /\ length_score m = Py.max 0.3 (Py.min (Py.of_nat 1001 / 500) 1.0)
    /\ length_score m == 1
    /\ ~ (length_score m < 1).
Proof.
  eexists. split; [vm_compute; reflexivity|].
  split; [reflexivity|]. split; [reflexivity|]. split; [reflexivity|].
  intro H. vm_compute in H. discriminate.
Qed.

(** C9.  The keyword coverage is 0.0 when no [expected_keywords] is
    declared; when a list is declared it is the number of its keywords
    found in the answer, compared case-insensitively as substrings,
    divided by the number of keywords: for a non-empty list, the fraction
    of expected keywords that appear in the answer. *)
Theorem keyword_coverage_fraction (query_data : QuerySpec)
        (rag_result : RagResult) :
  let txt := answer (generated_answer rag_result) in
  let outcome :=
    m <- Evaluator.evaluate_generation_quality query_data rag_result ;;
    Ok (keyword_coverage m) in
  (expected_keywords query_data = None -> outcome = Ok 0.0)
  /\ (forall keywords,
         expected_keywords query_data = Some keywords ->
         outcome = Py.int_div (Spec.count (Spec.matches_keyword txt) keywords)
                              (List.length keywords))
  /\ (forall keywords,
         expected_keywords query_data = Some keywords ->
         keywords <> [] ->
         outcome = Ok (Spec.fraction (Spec.matches_keyword txt) keywords)).
Proof.
  intros txt outcome. subst outcome. split; [|split].
  - intro H. now rewrite (evaluate_generation_quality_undeclared _ _ H).
  - intros keywords H.
    rewrite (evaluate_generation_quality_declared _ _ _ H). fold txt.
    now destruct (Py.int_div _ _).
  - intros keywords H Hne.
    now rewrite (evaluate_generation_quality_nonempty _ _ _ H Hne).
Qed.

Lemma keyword_coverage_fraction_witness :
  exists kc,
    (m <- Evaluator.evaluate_generation_quality
            (nth 1 Evaluator.create_ground_truth_dataset Samples.plain_query)
            Samples.priority_answer ;;
     Ok (keyword_coverage m))
    = Ok kc
    /\ kc == 0.6
    /\ Spec.matches_keyword "Two HIGH priority tasks are open." "high" = true
    /\ Spec.matches_keyword "Two HIGH priority tasks are open." "urgent" = false.
Proof.
  eexists. split.
  - apply (proj2 (proj2 (keyword_coverage_fraction
                           (nth 1 Evaluator.create_ground_truth_dataset
                                Samples.plain_query)
                           Samples.priority_answer))).
    + reflexivity.
    + discriminate.
  - split; [vm_compute; reflexivity|]. split; reflexivity.
Defined.

(** C9, beyond ASCII: the capital É (code point 201) of a keyword is found
    in an answer that has the small é (code point 233), as with
    [str.lower()]. *)
Example keyword_coverage_accented :
  exists m,
    Evaluator.evaluate_generation_quality
      Samples.summer_query Samples.summer_answer = Ok m
    /\ keyword_coverage m == 1.
Proof. eexists. split; [vm_compute; reflexivity | reflexivity]. Qed.

(** C10.  A query that declares [expected_keywords] as an empty list makes
    the scorer divide by zero: it raises [ZeroDivisionError] for every
    answer instead of returning scores. *)
Theorem empty_keywords_division_by_zero (query_data : QuerySpec)
        (rag_result : RagResult) :
  expected_keywords query_data = Some [] ->
  Evaluator.evaluate_generation_quality query_data rag_result
  = Raise ZeroDivisionError.
Proof.
  intro H. now rewrite (evaluate_generation_quality_declared _ _ _ H).
Qed.

Lemma empty_keywords_division_by_zero_witness :
  Evaluator.evaluate_generation_quality Samples.empty_keywords_query
                                        Samples.priority_answer
  = Raise ZeroDivisionError.
Proof.
  apply (empty_keywords_division_by_zero Samples.empty_keywords_query
                                         Samples.priority_answer).
  reflexivity.
Defined.

Lemma overall_quality_unit (a : GeneratedAnswer) (kc : Q) :
  0 <= confidence a <= 1 -> 0 <= kc <= 1 ->
  0 <= overall_quality (Spec.generation_metrics a kc) <= 1.
Proof.
  intros Hc Hk. cbn [Spec.generation_metrics overall_quality].
  pose proof (length_score_bounds (String.length (answer a))).
  pose proof (source_utilization_unit (sources_used a)).
  lra.
Qed.

Lemma overall_quality_bounds (a : GeneratedAnswer) (kc : Q) :
  0 <= kc <= 1 ->
  (0 <= confidence a -> 0 <= overall_quality (Spec.generation_metrics a kc))
  /\ (confidence a <= 1 ->
      overall_quality (Spec.generation_metrics a kc) <= Binary64.after_one).
Proof.
  intros Hk. cbn [Spec.generation_metrics overall_quality].
  pose proof (length_score_bounds (String.length (answer a))).
  pose proof (source_utilization_unit (sources_used a)).
  unfold Binary64.after_one.
  assert (0 <= 1 # 4503599627370496) by discriminate.
  split; intro; lra.
Qed.

(** C7 (as the code has it).  The relevance scorer returns for every
    input, with an overall relevance in the unit interval.  The generation
    scorer clamps neither the confidence of the answer, which it passes
    through, nor the weighted sum: whenever no empty keyword list is
    declared it returns, the length score, the keyword coverage and the
    source utilization lie in the unit interval, and the overall quality
    is at least 0 when the confidence is not negative and at most
    1 + 2^-52, the binary64 number after 1.0, when the confidence is at
    most 1. *)
Theorem overall_scores_bounded :
  (forall query_data results,
      exists m, Evaluator.evaluate_relevance query_data results = Ok m
                /\ 0 <= overall_relevance m <= 1)
  /\ (forall query_data rag_result,
         expected_keywords query_data <> Some [] ->
         exists m,
           Evaluator.evaluate_generation_quality query_data rag_result = Ok m
           /\ gen_confidence m = confidence (generated_answer rag_result)
           /\ 0 <= length_score m <= 1
           /\ 0 <= keyword_coverage m <= 1
           /\ 0 <= source_utilization m <= 1
           /\ (0 <= confidence (generated_answer rag_result) ->
               0 <= overall_quality m)
           /\ (confidence (generated_answer rag_result) <= 1 ->
               overall_quality m <= Binary64.after_one)).
Proof.
  split.
  - apply RelevanceProps.overall_relevance_unit.
  - intros query_data rag_result Hk.
    destruct (evaluate_generation_quality_total query_data rag_result Hk)
      as [kc [Hm Hkc]].
    eexists. split; [exact Hm|]. split; [reflexivity|].
    split; [|split; [exact Hkc|split]].
    + pose proof (length_score_bounds
                    (String.length (answer (generated_answer rag_result)))).
      cbn [Spec.generation_metrics length_score]. lra.
    + apply source_utilization_unit.
    + now apply overall_quality_bounds.
Qed.

Lemma overall_scores_bounded_witness :
  exists m,
    Evaluator.evaluate_generation_quality
      (nth 1 Evaluator.create_ground_truth_dataset Samples.plain_query)
      Samples.priority_answer = Ok m
    /\ 0 <= keyword_coverage m <= 1
    /\ 0 <= overall_quality m
    /\ overall_quality m <= Binary64.after_one.
Proof.
  destruct (proj2 overall_scores_bounded
                  (nth 1 Evaluator.create_ground_truth_dataset Samples.plain_query)
                  Samples.priority_answer)
    as [m [Hm [_ [_ [Hkc [_ [Hlo Hhi]]]]]]].
  - discriminate.
  - exists m. split; [exact Hm|]. split; [exact Hkc|]. split.
    + apply Hlo. discriminate.
    + apply Hhi. discriminate.
Defined.

(** C7, outside the unit interval on both sides.  Below: the pipeline
    over a store whose only match has similarity -0.5 yields confidence
    -0.6, and the overall quality of that answer is negative.  Above: for
    an answer of 66 characters that mentions all five expected keywords,
    built on three sources with confidence 1.0, every sub-score is 1.0
    and the binary64 sum 1.0 * 0.4 + 1.0 * 0.2 + 1.0 * 0.3 + 1.0 * 0.1 is
    1.0000000000000002. *)
Lemma overall_quality_outside_unit_interval_example :
  (exists rag m,
      RAG.search_and_generate (Samples.canned "Nothing relevant.")
                              (fun _ _ => Ok Samples.negative_results)
                              "What are the priorities?" 10
      = Ok rag
      /\ Evaluator.evaluate_generation_quality Samples.plain_query rag = Ok m
      /\ overall_quality m < 0
      /\ ~ (0 <= overall_quality m <= 1))
  /\ (exists m,
         Binary64.evaluate_generation_quality
           (nth 1 Evaluator.create_ground_truth_dataset Samples.plain_query)
           Binary64.best_answer = Ok m
         /\ Binary64.gen_confidence m = 1%float
         /\ Binary64.length_score m = 1%float
         /\ Binary64.keyword_coverage m = 1%float
         /\ Binary64.source_utilization m = 1%float
         /\ PrimFloat.ltb 1 (Binary64.overall_quality m) = true
         /\ Prim2SF (Binary64.overall_quality m)
            = S754_finite false 4503599627370497 (-52)).
Proof.
  split.
  - eexists. eexists. split; [vm_compute; reflexivity|].
    split; [vm_compute; reflexivity|]. split.
    + reflexivity.
    + intros [H _]. apply H. reflexivity.
  - eexists. split; [vm_compute; reflexivity|].
    repeat split; vm_compute; reflexivity.
Qed.

End GenerationProps.

(** ** Evaluation Harness *)

Module HarnessProps.

Section WithCollaborators.

Variable search : string -> nat -> result (list Chunk).
Variable complete : string -> result string.

#[local] Abbreviation process_query := (Evaluator.process_query search complete).
#[local] Abbreviation loop_body := (Evaluator.loop_body search complete).
#[local] Abbreviation run_loop := (Evaluator.run_loop search complete).

Variable setup_collection : result unit.
Variable load_embeddings_to_qdrant : result unit.

#[local] Abbreviation run_accuracy_evaluation :=
  (Evaluator.run_accuracy_evaluation search complete setup_collection
                                     load_embeddings_to_qdrant).

(** The store is set up: neither set-up call raises. *)
#[local] Abbreviation store_ready :=
  (setup_collection = Ok tt /\ load_embeddings_to_qdrant = Ok tt).

Lemma loop_body_raises (st : Evaluator.LoopState) (q : QuerySpec) (e : exn) :
  process_query q = Raise e -> loop_body st q = Raise e.
Proof. intro H. unfold Evaluator.loop_body. now rewrite H. Qed.

Lemma loop_body_returns (st : Evaluator.LoopState) (q : QuerySpec)
      (r : QueryResult) :
  process_query q = Ok r -> exists st', loop_body st q = Ok st'.
Proof. intro H. unfold Evaluator.loop_body. rewrite H. simpl. eauto. Qed.

Lemma run_loop_app (l1 l2 : list QuerySpec) (st : Evaluator.LoopState) :
  run_loop (l1 ++ l2) st = st' <- run_loop l1 st ;; run_loop l2 st'.
Proof.
  revert st. induction l1 as [|q l1 IH]; intro st; simpl; trivial.
  destruct (loop_body st q) as [st'|e]; simpl; trivial.
Qed.

(** The loop gets through every prefix of queries that process cleanly. *)
Lemma run_loop_returns (qs : list QuerySpec) (st : Evaluator.LoopState) :
  (forall q, In q qs -> exists r, process_query q = Ok r) ->
  exists st', run_loop qs st = Ok st'.
Proof.
  revert st. induction qs as [|q qs IH]; intros st H; simpl.
  - eauto.
  - destruct (H q (or_introl eq_refl)) as [r Hr].
    destruct (loop_body_returns st q r Hr) as [st1 Hst1].
    rewrite Hst1. simpl. apply IH. intros q' Hq'. apply H. now right.
Qed.

(** Each completed iteration appends one score to each accumulator. *)
Lemma run_loop_lengths (qs : list QuerySpec) (st st' : Evaluator.LoopState) :
  run_loop qs st = Ok st' ->
  List.length (Evaluator.all_relevance_scores st')
  = (List.length (Evaluator.all_relevance_scores st) + List.length qs)%nat
  /\ List.length (Evaluator.all_ranking_scores st')
     = (List.length (Evaluator.all_ranking_scores st) + List.length qs)%nat
  /\ List.length (Evaluator.all_generation_scores st')
     = (List.length (Evaluator.all_generation_scores st) + List.length qs)%nat.
Proof.
  revert st. induction qs as [|q qs IH]; intros st H; simpl in H.
  - inversion H; subst. simpl. lia.
  - unfold Evaluator.loop_body in H.
    destruct (process_query q) as [r|e]; simpl in H; [|discriminate].
    apply IH in H. simpl in H. rewrite !length_app in H. simpl in *. lia.
Qed.

Lemma mean_returns (l : list Q) : l <> [] -> exists m, Py.mean l = Ok m.
Proof. destruct l; [contradiction | simpl; eauto]. Qed.

(** When every query processes cleanly the run returns a report with one
    score of each kind per query. *)
Lemma run_returns_report (qs : list QuerySpec) :
  store_ready ->
  qs <> [] ->
  (forall q, In q qs -> exists r, process_query q = Ok r) ->
  exists report,
    run_accuracy_evaluation qs = Ok report
    /\ total_queries (overall_metrics report) = List.length qs
    /\ List.length (relevance_scores report) = List.length qs
    /\ List.length (ranking_scores report) = List.length qs
    /\ List.length (generation_scores report) = List.length qs.
Proof.
  intros [Hs Hl] Hne H. unfold Evaluator.run_accuracy_evaluation.
  rewrite Hs, Hl. cbn [bind].
  destruct (run_loop_returns qs Evaluator.initial_state H) as [st Hst].
  rewrite Hst. simpl.
  destruct (run_loop_lengths qs _ _ Hst) as [L1 [L2 L3]]. simpl in L1, L2, L3.
  assert (Hpos : (0 < List.length qs)%nat)
    by (destruct qs; [contradiction | simpl; lia]).
  destruct (mean_returns (Evaluator.all_relevance_scores st)) as [m1 ->];
    [intros E; rewrite E in L1; simpl in L1; lia|].
  destruct (mean_returns (Evaluator.all_ranking_scores st)) as [m2 ->];
    [intros E; rewrite E in L2; simpl in L2; lia|].
  destruct (mean_returns (Evaluator.all_generation_scores st)) as [m3 ->];
    [intros E; rewrite E in L3; simpl in L3; lia|].
  simpl. eexists. split; [reflexivity|]. simpl. auto.
Qed.

(** A failing set-up call ends the run before the first query. *)
Lemma setup_failure_aborts_run (qs : list QuerySpec) (e : exn) :
  setup_collection = Raise e
  \/ (setup_collection = Ok tt /\ load_embeddings_to_qdrant = Raise e) ->
  run_accuracy_evaluation qs = Raise e.
Proof.
  unfold Evaluator.run_accuracy_evaluation.
  intros [H | [H1 H2]].
  - now rewrite H.
  - now rewrite H1, H2.
Qed.

(** The loop leaves at the first query whose processing raises, with its
    exception, whatever queries follow. *)
Lemma first_failure_aborts_loop (before after : list QuerySpec)
      (q : QuerySpec) (e : exn) (st : Evaluator.LoopState) :
  (forall q', In q' before -> exists r, process_query q' = Ok r) ->
  process_query q = Raise e ->
  run_loop (before ++ q :: after) st = Raise e.
Proof.
  intros Hbefore Hq. rewrite run_loop_app.
  destruct (run_loop_returns before st Hbefore) as [st' Hst].
  rewrite Hst. simpl. now rewrite (loop_body_raises st' q e Hq).
Qed.

(** The run raises what the first failing query raises. *)
Lemma first_failure_aborts_run (before after : list QuerySpec)
      (q : QuerySpec) (e : exn) :
  store_ready ->
  (forall q', In q' before -> exists r, process_query q' = Ok r) ->
  process_query q = Raise e ->
  run_accuracy_evaluation (before ++ q :: after) = Raise e.
Proof.
  intros [Hs Hl] Hbefore Hq.
  unfold Evaluator.run_accuracy_evaluation. rewrite Hs, Hl. cbn [bind].
  now rewrite (first_failure_aborts_loop before after q e _ Hbefore Hq).
Qed.

(** A list with a failing query splits at its first failing query. *)
Lemma first_failure (qs : list QuerySpec) (q : QuerySpec) (e : exn) :
  In q qs -> process_query q = Raise e ->
  exists before q' e' after,
    qs = before ++ q' :: after
    /\ (forall q0, In q0 before -> exists r, process_query q0 = Ok r)
    /\ process_query q' = Raise e'.
Proof.
  induction qs as [|x qs IH]; intros Hin Hq; [destruct Hin|].
  destruct (process_query x) as [r|e0] eqn:Ex.
  - destruct Hin as [->|Hin]; [congruence|].
    destruct (IH Hin Hq) as [before [q' [e' [after [-> [Hb Hq']]]]]].
    exists (x :: before), q', e', after. split; [reflexivity|]. split; trivial.
    intros q0 [<-|H0]; eauto.
  - exists [], x, e0, qs. split; [reflexivity|]. split; trivial.
    intros q0 [].
Qed.

(** C2 (as the code has it).  The evaluation loop has no exception
    handler and the harness keeps no error list.  When, after the set-up
    of the store, the processing of one query of the set raises, the set
    splits at its first failing query: the queries before it are
    processed, the run raises the exception of that query and returns no
    report, and the queries after it are not processed: the run ends the
    same way whatever follows the first failing query. *)
Theorem per_query_failure_aborts_run (qs : list QuerySpec) (q : QuerySpec)
        (e : exn) :
  store_ready ->
  In q qs ->
  process_query q = Raise e ->
  exists before first e' after,
    qs = before ++ first :: after
    /\ (forall q0, In q0 before -> exists r, process_query q0 = Ok r)
    /\ process_query first = Raise e'
    /\ run_accuracy_evaluation qs = Raise e'
    /\ (forall report, run_accuracy_evaluation qs <> Ok report)
    /\ forall rest,
         run_loop (before ++ first :: rest) Evaluator.initial_state = Raise e'
         /\ run_accuracy_evaluation (before ++ first :: rest) = Raise e'.
Proof.
  intros Hready Hin Hq.
  destruct (first_failure qs q e Hin Hq)
    as [before [q' [e' [after [-> [Hb Hq']]]]]].
  exists before, q', e', after. split; [reflexivity|].
  split; [exact Hb|]. split; [exact Hq'|].
  pose proof (first_failure_aborts_run before after q' e' Hready Hb Hq') as Hrun.
  split; [exact Hrun|]. split.
  - intros report E. rewrite Hrun in E. discriminate.
  - intro rest. split.
    + now apply first_failure_aborts_loop.
    + now apply first_failure_aborts_run.
Qed.

End WithCollaborators.

Lemma per_query_failure_aborts_run_witness :
  let search := Samples.flaky_search Samples.funding_query in
  let complete := Samples.canned "Priorities were discussed." in
  let dataset := Evaluator.create_ground_truth_dataset in
  exists before first e' after,
    dataset = before ++ first :: after
    /\ List.length before = 2%nat
    /\ Evaluator.process_query search complete first = Raise e'
    /\ Evaluator.run_accuracy_evaluation search complete (Ok tt) (Ok tt) dataset
       = Raise e'
    /\ Evaluator.run_accuracy_evaluation
         search complete (Ok tt) (Ok tt)
         (before ++ first :: [Samples.empty_keywords_query])
       = Raise e'.
Proof.
  cbv zeta.
  destruct (per_query_failure_aborts_run
              (Samples.flaky_search Samples.funding_query)
              (Samples.canned "Priorities were discussed.")
              (Ok tt) (Ok tt)
              Evaluator.create_ground_truth_dataset
              (nth 2 Evaluator.create_ground_truth_dataset Samples.plain_query)
              (ExternalError "vector store unavailable"))
    as [before [first [e' [after [Hsplit [Hb [Hq [Hrun [_ Hrest]]]]]]]]].
  - split; reflexivity.
  - right. right. left. reflexivity.
  - reflexivity.
  - exists before, first, e', after. split; [exact Hsplit|].
    split; [|split; [exact Hq|split; [exact Hrun|]]].
    + destruct before as [|q0 [|q1 [|q2 before]]].
      * exfalso. inversion Hsplit as [[H0 H1]]. subst first.
        vm_compute in Hq. discriminate.
      * exfalso. inversion Hsplit as [[H0 H1]].
        destruct (Hb q0 (or_introl eq_refl)) as [r Hr]. clear Hb.
        inversion H1 as [[H2 H3]]. subst first.
        vm_compute in Hq. discriminate.
      * reflexivity.
      * exfalso. inversion Hsplit as [[H0 H1 H2 H3]].
        destruct (Hb q2 (or_intror (or_intror (or_introl eq_refl)))) as [r Hr].
        subst q2. vm_compute in Hr. discriminate.
    + exact (proj2 (Hrest [Samples.empty_keywords_query])).
Defined.

(** C2, on the ground truth dataset: the store fails on the third query
    only.  The first two queries are processed, the third raises, and the
    run raises with it; with a store that does not fail the same run
    returns a report over all ten queries. *)
Lemma harness_aborts_on_third_query_example :
  let search := Samples.flaky_search Samples.funding_query in
  let complete := Samples.canned "Priorities were discussed." in
  let dataset := Evaluator.create_ground_truth_dataset in
  (exists r, Evaluator.process_query search complete
               (nth 0 dataset Samples.plain_query) = Ok r)
  /\ Evaluator.process_query search complete (nth 2 dataset Samples.plain_query)
     = Raise (ExternalError "vector store unavailable")
  /\ Evaluator.run_accuracy_evaluation search complete (Ok tt) (Ok tt) dataset
     = Raise (ExternalError "vector store unavailable")
  /\ (exists report,
         Evaluator.run_accuracy_evaluation Samples.reliable_search complete
                                           (Ok tt) (Ok tt) dataset
         = Ok report
         /\ total_queries (overall_metrics report) = 10%nat).
Proof.
  cbv zeta. split; [|split; [|split]].
  - eexists. vm_compute. reflexivity.
  - reflexivity.
  - vm_compute. reflexivity.
  - eexists. split; [vm_compute; reflexivity | reflexivity].
Qed.

End HarnessProps.

(** * Further properties of the modelled code *)

(** ** Answer Synthesizer: what the answer depends on *)

Module SynthesizerExtra.

Lemma firstn5_idem {A : Type} (l : list A) : firstn 5 (firstn 5 l) = firstn 5 l.
Proof. now rewrite firstn_firstn. Qed.

Lemma build_context_top5 (chunks : list Chunk) :
  RAG.build_context (firstn 5 chunks) = RAG.build_context chunks.
Proof. unfold RAG.build_context. now rewrite firstn5_idem. Qed.

Lemma firstn5_nonempty {A : Type} (l : list A) : l <> [] -> firstn 5 l <> [].
Proof. destruct l; [contradiction | discriminate]. Qed.

Section WithGenerator.

Variable complete : string -> result string.

(** X1.  Results ranked below the fifth do not influence the answer: the
    text, the confidence, the retrieval scores and the error of
    [generate_answer] are those obtained from the top five results alone;
    only the [sources_used] of a failed generation counts them. *)
Theorem only_top_five_matter (q : string) (chunks : list Chunk) :
  let r := RAG.generate_answer complete q chunks in
  let r5 := RAG.generate_answer complete q (firstn 5 chunks) in
  answer r = answer r5
  /\ confidence r = confidence r5
  /\ retrieval_scores r = retrieval_scores r5
  /\ error r = error r5
  /\ (error r = None -> sources_used r = sources_used r5).
Proof.
  intros r r5. subst r r5.
  destruct chunks as [|c cs]; [now repeat split|].
  assert (Hne : c :: cs <> []) by discriminate.
  pose proof (firstn5_nonempty (c :: cs) Hne) as Hne5.
  remember (c :: cs) as chunks eqn:Echunks. clear Echunks c cs.
  destruct (complete (RAG.build_prompt q (RAG.build_context chunks)))
    as [g|e] eqn:E.
  - rewrite (SynthesizerProps.generate_answer_success complete q chunks g Hne E).
    rewrite (SynthesizerProps.generate_answer_success
               complete q (firstn 5 chunks) g Hne5)
      by (now rewrite build_context_top5).
    rewrite firstn5_idem. now repeat split.
  - rewrite (SynthesizerProps.generate_answer_failure complete q chunks e Hne E).
    rewrite (SynthesizerProps.generate_answer_failure
               complete q (firstn 5 chunks) e Hne5)
      by (now rewrite build_context_top5).
    cbn [answer confidence retrieval_scores error sources_used].
    repeat split. discriminate.
Qed.

(** X2.  For a non-empty result list the answer carries an error exactly
    when the generation call failed.  An answer without error lists the
    scores of the top five results in rank order, and its [sources_used]
    is their number, between 1 and 5. *)
Theorem error_marks_failed_generation (q : string) (chunks : list Chunk) :
  chunks <> [] ->
  let r := RAG.generate_answer complete q chunks in
  (error r = None
   <-> exists g, complete (RAG.build_prompt q (RAG.build_context chunks)) = Ok g)
  /\ (error r = None ->
      retrieval_scores r = Some (firstn 5 (map score chunks))
      /\ sources_used r = Nat.min (List.length chunks) 5
      /\ (1 <= sources_used r <= 5)%nat).
Proof.
  intros Hne r. subst r.
  destruct (complete (RAG.build_prompt q (RAG.build_context chunks)))
    as [g|e] eqn:E.
  - rewrite (SynthesizerProps.generate_answer_success complete q chunks g Hne E).
    cbn [error retrieval_scores sources_used].
    split; [split; eauto|]. intros _.
    rewrite firstn_map, length_firstn, Nat.min_comm.
    repeat split; try lia.
    destruct chunks; [contradiction | simpl; lia].
  - rewrite (SynthesizerProps.generate_answer_failure complete q chunks e Hne E).
    cbn [error]. split; [|discriminate].
    split; [discriminate | intros [g Hg]; discriminate].
Qed.

End WithGenerator.

Lemma error_marks_failed_generation_witness :
  let r := RAG.generate_answer (Samples.canned "Priorities were discussed.")
                               "What are the priorities?"
                               (repeat (Samples.chunk_with_score 0.9) 7) in
  error r = None
  /\ retrieval_scores r = Some [0.9; 0.9; 0.9; 0.9; 0.9]
  /\ sources_used r = 5%nat.
Proof.
  destruct (error_marks_failed_generation
              (Samples.canned "Priorities were discussed.")
              "What are the priorities?"%string
              (repeat (Samples.chunk_with_score 0.9) 7)) as [Hiff Hshape].
  - discriminate.
  - assert (He : error (RAG.generate_answer
                          (Samples.canned "Priorities were discussed.")
                          "What are the priorities?"
                          (repeat (Samples.chunk_with_score 0.9) 7)) = None)
      by (apply Hiff; eexists; reflexivity).
    destruct (Hshape He) as [Hs [Hu _]].
    split; [exact He|]. split; [exact Hs | exact Hu].
Defined.

End SynthesizerExtra.

(** ** Relevance Scorer: order, empty expectations, extreme values *)

Module RelevanceExtra.

Lemma count_cons {A : Type} (p : A -> bool) (x : A) (l : list A) :
  Spec.count p (x :: l)
  = if p x then S (Spec.count p l) else Spec.count p l.
Proof. unfold Spec.count. simpl. now destruct (p x). Qed.

Lemma count_perm {A : Type} (p : A -> bool) (l l' : list A) :
  Permutation l l' -> Spec.count p l = Spec.count p l'.
Proof.
  induction 1 as [|x l l' _ IH|x y l|l l' l'' _ IH1 _ IH2].
  - reflexivity.
  - rewrite !count_cons. now rewrite IH.
  - rewrite !count_cons. now destruct (p x), (p y).
  - congruence.
Qed.

Lemma fraction_perm {A : Type} (p : A -> bool) (l l' : list A) :
  Permutation l l' -> Spec.fraction p l = Spec.fraction p l'.
Proof.
  intro H. unfold Spec.fraction.
  now rewrite (count_perm p l l' H), (Permutation_length H).
Qed.

(** X3.  The relevance scores do not depend on the order of the results:
    a permutation of the result list gets the same four scores. *)
Theorem relevance_ignores_order (query_data : QuerySpec)
        (results results' : list Chunk) :
  Permutation results results' ->
  Evaluator.evaluate_relevance query_data results
  = Evaluator.evaluate_relevance query_data results'.
Proof.
  intro H. destruct results as [|r rs].
  - apply Permutation_nil in H. now subst.
  - destruct results' as [|r' rs'].
    + apply Permutation_sym, Permutation_nil in H. discriminate.
    + rewrite !RelevanceProps.evaluate_relevance_nonempty. cbv zeta.
      destruct (expected_types query_data), (expected_keywords query_data),
        (expected_speakers query_data);
        rewrite ?(fraction_perm _ _ _ H); reflexivity.
Qed.

Lemma relevance_ignores_order_witness :
  Evaluator.evaluate_relevance
    (nth 1 Evaluator.create_ground_truth_dataset Samples.plain_query)
    Samples.ten_action_items
  = Evaluator.evaluate_relevance
      (nth 1 Evaluator.create_ground_truth_dataset Samples.plain_query)
      (rev Samples.ten_action_items).
Proof.
  apply relevance_ignores_order. apply Permutation_rev.
Defined.

Lemma count_zero_iff {A : Type} (p : A -> bool) (l : list A) :
  Spec.count p l = 0%nat <-> forall x, In x l -> p x = false.
Proof.
  induction l as [|y l IH]; [split; [intros _ x [] | reflexivity]|].
  rewrite count_cons. destruct (p y) eqn:E.
  - split; [discriminate|]. intro H. specialize (H y (or_introl eq_refl)).
    congruence.
  - rewrite IH. split.
    + intros H x [<-|Hx]; auto.
    + intros H x Hx. apply H. now right.
Qed.

Lemma count_full_iff {A : Type} (p : A -> bool) (l : list A) :
  Spec.count p l = List.length l <-> forall x, In x l -> p x = true.
Proof.
  induction l as [|y l IH]; [split; [intros _ x [] | reflexivity]|].
  rewrite count_cons. pose proof (LoopFacts.count_le_length p l) as Hle.
  simpl List.length. destruct (p y) eqn:E.
  - split.
    + intros H x [<-|Hx]; trivial. apply IH; [lia | trivial].
    + intro H. f_equal. apply IH. intros x Hx. apply H. now right.
  - split; [lia|]. intro H. specialize (H y (or_introl eq_refl)). congruence.
Qed.

Lemma quotient_zero_iff (a b : nat) :
  (0 < b)%nat -> (Py.of_nat a / Py.of_nat b == 0 <-> a = 0%nat).
Proof.
  intro Hb. pose proof (PyFacts.of_nat_pos b Hb) as Hpos. split.
  - intro H.
    assert (Ha : Py.of_nat a == 0).
    { transitivity (Py.of_nat a / Py.of_nat b * Py.of_nat b);
        [field; lra|].
      transitivity (0 * Py.of_nat b);
        [apply Qmult_comp; [exact H | reflexivity] | ring]. }
    unfold Py.of_nat in Ha. change 0 with (inject_Z 0) in Ha.
    apply (proj1 (inject_Z_injective _ _)) in Ha. lia.
  - intros ->. unfold Qdiv. change (Py.of_nat 0) with 0. ring.
Qed.

Lemma quotient_one_iff (a b : nat) :
  (0 < b)%nat -> (Py.of_nat a / Py.of_nat b == 1 <-> a = b).
Proof.
  intro Hb. pose proof (PyFacts.of_nat_pos b Hb) as Hpos. split.
  - intro H.
    assert (Ha : Py.of_nat a == Py.of_nat b).
    { transitivity (Py.of_nat a / Py.of_nat b * Py.of_nat b);
        [field; lra|].
      transitivity (1 * Py.of_nat b);
        [apply Qmult_comp; [exact H | reflexivity] | ring]. }
    unfold Py.of_nat in Ha. apply (proj1 (inject_Z_injective _ _)) in Ha. lia.
  - intros ->. field. lra.
Qed.

Lemma fraction_zero_iff {A : Type} (p : A -> bool) (l : list A) :
  l <> [] -> (Spec.fraction p l == 0 <-> forall x, In x l -> p x = false).
Proof.
  intro H. unfold Spec.fraction. rewrite quotient_zero_iff.
  - apply count_zero_iff.
  - destruct l; [contradiction | simpl; lia].
Qed.

Lemma fraction_one_iff {A : Type} (p : A -> bool) (l : list A) :
  l <> [] -> (Spec.fraction p l == 1 <-> forall x, In x l -> p x = true).
Proof.
  intro H. unfold Spec.fraction. rewrite quotient_one_iff.
  - apply count_full_iff.
  - destruct l; [contradiction | simpl; lia].
Qed.

(** X4.  An expectation that is declared as an empty list scores 0.0 on
    every non-empty result list, whereas an expectation that is not
    declared scores 1.0. *)
Theorem empty_expectation_scores_zero (query_data : QuerySpec) (r : Chunk)
        (rs : list Chunk) :
  exists m,
    Evaluator.evaluate_relevance query_data (r :: rs) = Ok m
    /\ (expected_types query_data = Some [] -> type_accuracy m == 0)
    /\ (expected_keywords query_data = Some [] -> keyword_relevance m == 0)
    /\ (expected_speakers query_data = Some [] -> speaker_accuracy m == 0)
    /\ (expected_types query_data = None -> type_accuracy m == 1)
    /\ (expected_keywords query_data = None -> keyword_relevance m == 1)
    /\ (expected_speakers query_data = None -> speaker_accuracy m == 1).
Proof.
  rewrite RelevanceProps.evaluate_relevance_nonempty. cbv zeta.
  eexists. split; [reflexivity|].
  cbn [type_accuracy keyword_relevance speaker_accuracy].
  assert (Hne : r :: rs <> []) by discriminate.
  repeat split; intros ->; try reflexivity;
    apply fraction_zero_iff; trivial; intros x _;
    unfold Spec.has_expected_speaker; try reflexivity.
  now destruct (speaker x).
Qed.

Lemma empty_expectation_scores_zero_witness :
  exists m,
    Evaluator.evaluate_relevance Samples.empty_keywords_query
                                 Samples.strong_results = Ok m
    /\ keyword_relevance m == 0
    /\ type_accuracy m == 1.
Proof.
  destruct (empty_expectation_scores_zero
              Samples.empty_keywords_query
              (Samples.chunk_with_score 0.95) [Samples.chunk_with_score 0.9])
    as [m [Hm [_ [Hk [_ [Ht _]]]]]].
  exists m. split; [exact Hm|]. split; [apply Hk | apply Ht]; reflexivity.
Defined.

(** X5.  On a non-empty result list with declared expectations, a
    sub-score is 1 exactly when every result matches and 0 exactly when
    no result does: all results of an expected type, all texts containing
    at least one keyword without regard to case, all speakers expected. *)
Theorem relevance_extremes (query_data : QuerySpec) (r : Chunk)
        (rs : list Chunk) :
  let results := r :: rs in
  exists m,
    Evaluator.evaluate_relevance query_data results = Ok m
    /\ (forall types, expected_types query_data = Some types ->
          (type_accuracy m == 1
           <-> forall x, In x results -> In (type x) types)
          /\ (type_accuracy m == 0
              <-> forall x, In x results -> ~ In (type x) types))
    /\ (forall keywords, expected_keywords query_data = Some keywords ->
          (keyword_relevance m == 1
           <-> forall x, In x results ->
                 exists k, In k keywords /\ Spec.matches_keyword (text x) k = true)
          /\ (keyword_relevance m == 0
              <-> forall x k, In x results -> In k keywords ->
                    Spec.matches_keyword (text x) k = false))
    /\ (forall speakers, expected_speakers query_data = Some speakers ->
          (speaker_accuracy m == 1
           <-> forall x, In x results ->
                 exists s, speaker x = Some s /\ In s speakers)
          /\ (speaker_accuracy m == 0
              <-> forall x s, In x results -> speaker x = Some s ->
                    ~ In s speakers)).
Proof.
  intro results. subst results.
  rewrite RelevanceProps.evaluate_relevance_nonempty. cbv zeta.
  eexists. split; [reflexivity|].
  cbn [type_accuracy keyword_relevance speaker_accuracy].
  assert (Hne : r :: rs <> []) by discriminate.
  split; [|split].
  - intros types ->.
    rewrite (fraction_one_iff _ _ Hne), (fraction_zero_iff _ _ Hne).
    unfold Spec.has_expected_type.
    split; split; intros H x Hx; specialize (H x Hx);
      destruct (in_dec string_dec (type x) types);
      first [assumption | reflexivity | discriminate | contradiction].
  - intros keywords ->.
    rewrite (fraction_one_iff _ _ Hne), (fraction_zero_iff _ _ Hne).
    unfold Spec.mentions_keyword.
    split; split.
    + intros H x Hx. specialize (H x Hx). apply existsb_exists in H.
      destruct H as [k [Hk Hm]]. eauto.
    + intros H x Hx. destruct (H x Hx) as [k [Hk Hm]].
      apply existsb_exists. eauto.
    + intros H x k Hx Hk. specialize (H x Hx).
      destruct (Spec.matches_keyword (text x) k) eqn:E; trivial.
      assert (existsb (Spec.matches_keyword (text x)) keywords = true)
        by (apply existsb_exists; eauto).
      congruence.
    + intros H x Hx.
      destruct (existsb (Spec.matches_keyword (text x)) keywords) eqn:E; trivial.
      apply existsb_exists in E. destruct E as [k [Hk Hm]].
      rewrite (H x k Hx Hk) in Hm. discriminate.
  - intros speakers ->.
    rewrite (fraction_one_iff _ _ Hne), (fraction_zero_iff _ _ Hne).
    unfold Spec.has_expected_speaker.
    split; split.
    + intros H x Hx. specialize (H x Hx). destruct (speaker x) as [s|];
        [|discriminate]. exists s. split; trivial.
      destruct (in_dec string_dec s speakers); [assumption | discriminate].
    + intros H x Hx. destruct (H x Hx) as [s [-> Hs]].
      destruct (in_dec string_dec s speakers); [reflexivity | contradiction].
    + intros H x s Hx Hs Hin. specialize (H x Hx). rewrite Hs in H.
      destruct (in_dec string_dec s speakers); [discriminate | contradiction].
    + intros H x Hx. destruct (speaker x) as [s|] eqn:Es; trivial.
      destruct (in_dec string_dec s speakers); [|reflexivity].
      now elim (H x s Hx Es).
Qed.

Lemma relevance_extremes_witness :
  exists m,
    Evaluator.evaluate_relevance
      (nth 1 Evaluator.create_ground_truth_dataset Samples.plain_query)
      [ Samples.action_item 1 "Top PRIORITY: file the compliance report";
        Samples.action_item 8 "Agree on Priority levels for support tickets" ]
    = Ok m
    /\ type_accuracy m == 1
    /\ keyword_relevance m == 1.
Proof.
  destruct (relevance_extremes
              (nth 1 Evaluator.create_ground_truth_dataset Samples.plain_query)
              (Samples.action_item 1 "Top PRIORITY: file the compliance report")
              [Samples.action_item 8 "Agree on Priority levels for support tickets"])
    as [m [Hm [Ht [Hk _]]]].
  exists m. split; [exact Hm|]. split.
  - apply (Ht ["action_item"%string] eq_refl).
    intros x Hx. left.
    repeat (destruct Hx as [<-|Hx]; [reflexivity|]). destruct Hx.
  - apply (Hk ["high"; "priority"; "urgent"; "deadline"; "task"]%string eq_refl).
    intros x Hx. exists "priority"%string. split; [right; left; reflexivity|].
    repeat (destruct Hx as [<-|Hx]; [reflexivity|]). destruct Hx.
Defined.

End RelevanceExtra.

(** ** Ranking Scorer: range of the scores, sorted results *)

Module RankingExtra.

Lemma ranking_quality_few (results : list Chunk) :
  (List.length results < 2)%nat ->
  Evaluator.evaluate_ranking_quality results
  = Ok {| score_monotonicity := 1.0; score_distribution := 1.0 |}.
Proof.
  intro H. unfold Evaluator.evaluate_ranking_quality.
  apply Nat.ltb_lt in H. now rewrite H.
Qed.

Lemma spread_nonneg (x : Q) (l : list Q) :
  0 <= Py.max_seq x l - Py.min_seq x l.
Proof.
  pose proof (PyFacts.max_seq_ge_first l x).
  pose proof (PyFacts.min_seq_le_first l x). lra.
Qed.

Lemma ranking_quality_returns (results : list Chunk) :
  exists m, Evaluator.evaluate_ranking_quality results = Ok m.
Proof.
  destruct results as [|r1 [|r2 rs]]; try (eexists; reflexivity).
  rewrite RankingProps.evaluate_ranking_quality_many. cbv zeta. eauto.
Qed.

Lemma ranking_quality_range (results : list Chunk) :
  exists m,
    Evaluator.evaluate_ranking_quality results = Ok m
    /\ (score_monotonicity m = 1.0 \/ score_monotonicity m = 0.0)
    /\ 0 <= score_distribution m <= 1.
Proof.
  destruct results as [|r1 [|r2 rs]].
  - eexists. split; [reflexivity|]. simpl. split; [now left | lra].
  - eexists. split; [reflexivity|]. simpl. split; [now left | lra].
  - rewrite RankingProps.evaluate_ranking_quality_many. cbv zeta.
    eexists. split; [reflexivity|].
    cbn [score_monotonicity score_distribution]. split.
    + destruct (Evaluator.monotonic _); auto.
    + set (mx := Py.max_seq (score r1) (map score (r2 :: rs))).
      set (mn := Py.min_seq (score r1) (map score (r2 :: rs))).
      pose proof (spread_nonneg (score r1) (map score (r2 :: rs))) as Hs.
      fold mx mn in Hs.
      PyFacts.case_lt 0 mx; [|lra]. split.
      * apply PyFacts.min_glb; [|lra].
        apply Qle_shift_div_l; [assumption | lra].
      * eapply Qle_trans; [apply PyFacts.min_le_r | lra].
Qed.

(** X6.  The ranking scorer returns for every result list: the
    monotonicity score is 1.0 or 0.0 and the distribution score lies
    between 0 and 1, also when scores are negative. *)
Theorem ranking_scores_in_unit_interval (results : list Chunk) :
  exists m,
    Evaluator.evaluate_ranking_quality results = Ok m
    /\ (score_monotonicity m = 1.0 \/ score_monotonicity m = 0.0)
    /\ 0 <= score_distribution m <= 1.
Proof. exact (ranking_quality_range results). Qed.

Lemma non_increasing_le (l : list Q) :
  Spec.non_increasing l ->
  forall i j, (i <= j)%nat -> (j < List.length l)%nat ->
              nth j l 0 <= nth i l 0.
Proof.
  intros H i j Hij. induction Hij as [|j Hij IH]; intro Hj.
  - apply Qle_refl.
  - eapply Qle_trans; [apply H; exact Hj | apply IH; lia].
Qed.

Lemma last_as_nth (l : list Q) (d : Q) :
  last l d = nth (List.length l - 1) l d.
Proof.
  induction l as [|x [|y l] IH]; trivial.
  change (last (x :: y :: l) d) with (last (y :: l) d). rewrite IH.
  simpl. now rewrite Nat.sub_0_r.
Qed.

Lemma sorted_first_is_max (x : Q) (l : list Q) :
  Spec.non_increasing (x :: l) -> Spec.is_max x (x :: l).
Proof.
  intro H. split.
  - exists x. split; [now left | reflexivity].
  - intros y Hy. destruct (In_nth _ _ 0 Hy) as [n [Hn <-]].
    apply (non_increasing_le _ H 0 n); [lia | exact Hn].
Qed.

Lemma sorted_last_is_min (x : Q) (l : list Q) :
  Spec.non_increasing (x :: l) -> Spec.is_min (last (x :: l) 0) (x :: l).
Proof.
  intro H. rewrite last_as_nth. split.
  - exists (nth (List.length (x :: l) - 1) (x :: l) 0). split; [|reflexivity].
    apply nth_In. simpl. lia.
  - intros y Hy. destruct (In_nth _ _ 0 Hy) as [n [Hn <-]].
    apply (non_increasing_le _ H); simpl in *; lia.
Qed.

(** X7.  For two or more results whose scores are in non-increasing order
    the monotonicity score is 1.0 and the distribution score is computed
    from the first and the last score alone: it is
    [min((top - bottom) / top, 1.0)] for a positive top score and 0.0 for
    a top score that is not positive. *)
Theorem ranking_of_sorted_results (r1 r2 : Chunk) (rs : list Chunk) :
  let results := r1 :: r2 :: rs in
  let top := score r1 in
  let bottom := last (map score results) 0 in
  Spec.non_increasing (map score results) ->
  exists m,
    Evaluator.evaluate_ranking_quality results = Ok m
    /\ score_monotonicity m = 1.0
    /\ (0 < top -> score_distribution m == Py.min ((top - bottom) / top) 1.0)
    /\ (top <= 0 -> score_distribution m == 0).
Proof.
  intros results top bottom Hsorted.
  assert (Hmono : Evaluator.monotonic (map score results) = true)
    by now apply RankingProps.monotonic_iff.
  pose proof (sorted_first_is_max _ _ Hsorted) as Hmax.
  pose proof (sorted_last_is_min _ _ Hsorted) as Hmin.
  fold top bottom in Hmax, Hmin.
  pose proof (RankingProps.is_max_unique _ _ _ Hmax
                (RankingProps.max_seq_is_max (score r1) (map score (r2 :: rs))))
    as Emx.
  pose proof (RankingProps.is_min_unique _ _ _ Hmin
                (RankingProps.min_seq_is_min (score r1) (map score (r2 :: rs))))
    as Emn.
  subst results. rewrite RankingProps.evaluate_ranking_quality_many. cbv zeta.
  eexists. split; [reflexivity|].
  cbn [score_monotonicity score_distribution].
  rewrite Hmono. split; [reflexivity|].
  set (mx := Py.max_seq (score r1) (map score (r2 :: rs))) in *.
  set (mn := Py.min_seq (score r1) (map score (r2 :: rs))) in *.
  assert (Hform : 0 < top ->
                  (if Py.Qlt_bool 0 mx then Py.min ((mx - mn) / mx) 1.0 else 0.0)
                  == Py.min ((top - bottom) / top) 1.0).
  { intro Htop. PyFacts.case_lt 0 mx; [|lra].
    apply PyFacts.min_compat; [|reflexivity].
    rewrite <- Emx, <- Emn. reflexivity. }
  split; [exact Hform|].
  intro Htop. PyFacts.case_lt 0 mx; lra.
Qed.

Lemma ranking_of_sorted_results_witness :
  exists m,
    Evaluator.evaluate_ranking_quality Samples.strong_results = Ok m
    /\ score_monotonicity m = 1.0
    /\ score_distribution m == Py.min ((0.95 - 0.9) / 0.95) 1.0.
Proof.
  destruct (ranking_of_sorted_results
              (Samples.chunk_with_score 0.95) (Samples.chunk_with_score 0.9) [])
    as [m [Hm [Hs [Hd _]]]].
  - intros [|[|i]] Hi; simpl in *; try lia. unfold Qle. simpl. lia.
  - exists m. split; [exact Hm|]. split; [exact Hs|].
    apply Hd; unfold Qlt; simpl; lia.
Defined.

End RankingExtra.

(** ** Generation Scorer: length score, degraded answers, grades *)

Module GenerationExtra.

(** X8.  Whenever the scorer returns, the length score takes one of two
    values: 0.3 for an answer shorter than 50 characters and 1.0 for
    every other answer, however long. *)
Theorem length_score_two_valued (query_data : QuerySpec)
        (rag_result : RagResult) :
  expected_keywords query_data <> Some [] ->
  let len := String.length (answer (generated_answer rag_result)) in
  exists m,
    Evaluator.evaluate_generation_quality query_data rag_result = Ok m
    /\ ((len < 50)%nat -> length_score m == 0.3)
    /\ ((50 <= len)%nat -> length_score m == 1).
Proof.
  intros H len.
  destruct (GenerationProps.evaluate_generation_quality_total
              query_data rag_result H) as [kc [Hm _]].
  eexists. split; [exact Hm|].
  cbn [Spec.generation_metrics length_score]. fold len. split.
  - apply GenerationProps.length_score_short.
  - intro Hlen. destruct (Nat.le_gt_cases len 1000) as [Hle|Hgt].
    + rewrite GenerationProps.length_score_in_range by lia. reflexivity.
    + now apply GenerationProps.length_score_long.
Qed.

Lemma length_score_two_valued_witness :
  exists m,
    Evaluator.evaluate_generation_quality Samples.plain_query
                                          (Samples.answer_of_length 5000) = Ok m
    /\ length_score m == 1.
Proof.
  destruct (length_score_two_valued Samples.plain_query
                                    (Samples.answer_of_length 5000))
    as [m [Hm [_ Hlong]]].
  - discriminate.
  - exists m. split; [exact Hm|]. apply Hlong.
    apply Nat.leb_le. vm_compute. reflexivity.
Defined.

Lemma append_length (a b : string) :
  String.length (a ++ b) = (String.length a + String.length b)%nat.
Proof. induction a as [|c a IH]; simpl; [trivial | now rewrite IH]. Qed.

Lemma source_utilization_saturated (used : nat) :
  (3 <= used)%nat -> Spec.source_utilization_of used == 1.
Proof.
  intro H. unfold Spec.source_utilization_of.
  assert (Hq : 1 <= Py.of_nat used / 3.0).
  { apply Qle_shift_div_l; [lra|].
    pose proof (PyFacts.of_nat_le 3 used H) as Hle.
    change (Py.of_nat 3) with 3 in Hle. lra. }
  unfold Py.min. PyFacts.case_lt 1.0 (Py.of_nat used / 3.0); lra.
Qed.

(** X9.  A failed generation is not scored zero.  When the generation
    call fails over a non-empty result list, the degraded answer has
    confidence 0 but a full length score, and it is credited with every
    retrieved chunk as a source: its overall quality is
    [0.2 + 0.3 * keyword_coverage + 0.1 * source_utilization], at least
    0.2, and at least 0.3 when three or more chunks were retrieved. *)
Theorem failed_generation_still_scores (complete : string -> result string)
        (query_data : QuerySpec) (q : string) (chunks : list Chunk) (e : exn) :
  chunks <> [] ->
  complete (RAG.build_prompt q (RAG.build_context chunks)) = Raise e ->
  expected_keywords query_data <> Some [] ->
  let rag_result :=
    {| rag_query := q;
       generated_answer := RAG.generate_answer complete q chunks;
       retrieved_chunks := chunks;
       total_chunks_found := List.length chunks |} in
  exists m,
    Evaluator.evaluate_generation_quality query_data rag_result = Ok m
    /\ gen_confidence m == 0
    /\ length_score m == 1
    /\ source_utilization m == Py.min (Py.of_nat (List.length chunks) / 3.0) 1.0
    /\ overall_quality m
       == 0.2 + 0.3 * keyword_coverage m + 0.1 * source_utilization m
    /\ 0.2 <= overall_quality m
    /\ ((3 <= List.length chunks)%nat -> 0.3 <= overall_quality m).
Proof.
  intros Hne Hfail Hk rag_result.
  destruct (GenerationProps.evaluate_generation_quality_total
              query_data rag_result Hk) as [kc [Hm Hkc]].
  eexists. split; [exact Hm|].
  subst rag_result. cbn [generated_answer].
  rewrite (SynthesizerProps.generate_answer_failure complete q chunks e Hne Hfail).
  cbn [Spec.generation_metrics gen_confidence length_score source_utilization
       overall_quality keyword_coverage answer confidence sources_used].
  assert (Hlen : (50 <= String.length (RAG.error_prefix ++ str_exn e))%nat).
  { rewrite append_length. change (String.length RAG.error_prefix) with 55%nat.
    lia. }
  assert (Hls : Spec.length_score_of
                  (String.length (RAG.error_prefix ++ str_exn e)) == 1).
  { destruct (Nat.le_gt_cases
                (String.length (RAG.error_prefix ++ str_exn e)) 1000).
    - rewrite GenerationProps.length_score_in_range by lia. reflexivity.
    - now apply GenerationProps.length_score_long. }
  pose proof (GenerationProps.source_utilization_unit (List.length chunks))
    as Hsu.
  split; [reflexivity|]. split; [exact Hls|]. split; [reflexivity|].
  split; [rewrite Hls; ring|]. split.
  - rewrite Hls. lra.
  - intro H3. rewrite Hls.
    rewrite (source_utilization_saturated _ H3). lra.
Qed.

Lemma failed_generation_still_scores_witness :
  exists m,
    Evaluator.evaluate_generation_quality
      Samples.plain_query
      {| rag_query := "What are the priorities?";
         generated_answer :=
           RAG.generate_answer (Samples.failing "quota exceeded")
                               "What are the priorities?"
                               (repeat (Samples.chunk_with_score 0.9) 7);
         retrieved_chunks := repeat (Samples.chunk_with_score 0.9) 7;
         total_chunks_found := 7 |} = Ok m
    /\ 0.3 <= overall_quality m.
Proof.
  destruct (failed_generation_still_scores
              (Samples.failing "quota exceeded") Samples.plain_query
              "What are the priorities?"%string
              (repeat (Samples.chunk_with_score 0.9) 7)
              (ExternalError "quota exceeded"))
    as [m [Hm [_ [_ [_ [_ [_ H3]]]]]]].
  - discriminate.
  - reflexivity.
  - discriminate.
  - exists m. split; [exact Hm|]. apply H3. simpl. lia.
Defined.

Lemma Qle_bool_false (a b : Q) : Qle_bool a b = false -> b < a.
Proof.
  intro H. apply Qnot_le_lt. intro Hle. apply Qle_bool_iff in Hle. congruence.
Qed.

(** X10.  The letter grade is determined by the interval the score falls
    in: A+ from 0.9, A on [0.8, 0.9), B+ on [0.7, 0.8), B on [0.6, 0.7),
    C on [0.5, 0.6) and D below 0.5; no other grade is returned. *)
Theorem grade_intervals (s : Q) :
  (Evaluator.get_grade s = "A+"%string <-> 0.9 <= s)
  /\ (Evaluator.get_grade s = "A"%string <-> 0.8 <= s /\ s < 0.9)
  /\ (Evaluator.get_grade s = "B+"%string <-> 0.7 <= s /\ s < 0.8)
  /\ (Evaluator.get_grade s = "B"%string <-> 0.6 <= s /\ s < 0.7)
  /\ (Evaluator.get_grade s = "C"%string <-> 0.5 <= s /\ s < 0.6)
  /\ (Evaluator.get_grade s = "D"%string <-> s < 0.5).
Proof.
  unfold Evaluator.get_grade.
  destruct (Qle_bool 0.9 s) eqn:E9; [apply Qle_bool_iff in E9 | apply Qle_bool_false in E9];
    [repeat split; intros; try discriminate; lra|].
  destruct (Qle_bool 0.8 s) eqn:E8; [apply Qle_bool_iff in E8 | apply Qle_bool_false in E8];
    [repeat split; intros; try discriminate; lra|].
  destruct (Qle_bool 0.7 s) eqn:E7; [apply Qle_bool_iff in E7 | apply Qle_bool_false in E7];
    [repeat split; intros; try discriminate; lra|].
  destruct (Qle_bool 0.6 s) eqn:E6; [apply Qle_bool_iff in E6 | apply Qle_bool_false in E6];
    [repeat split; intros; try discriminate; lra|].
  destruct (Qle_bool 0.5 s) eqn:E5; [apply Qle_bool_iff in E5 | apply Qle_bool_false in E5];
    repeat split; intros; try discriminate; lra.
Qed.

End GenerationExtra.

(** ** Evaluation Harness: outcome of a run, categories, averages *)

Module HarnessExtra.

Lemma dict_append_keys (c : string) (r : QueryResult)
      (d : list (string * list QueryResult)) (k : string) :
  In k (Spec2.keys (Evaluator.dict_append c r d)) <-> k = c \/ In k (Spec2.keys d).
Proof.
  unfold Spec2.keys. induction d as [|[k0 v] d IH]; simpl.
  - intuition.
  - destruct (String.eqb k0 c) eqn:E; simpl.
    + apply String.eqb_eq in E. subst. intuition.
    + rewrite IH. intuition.
Qed.

Lemma dict_append_nodup (c : string) (r : QueryResult)
      (d : list (string * list QueryResult)) :
  NoDup (Spec2.keys d) -> NoDup (Spec2.keys (Evaluator.dict_append c r d)).
Proof.
  unfold Spec2.keys. induction d as [|[k0 v] d IH]; simpl; intro H.
  - constructor; [intros [] | constructor].
  - destruct (String.eqb k0 c) eqn:E; simpl; trivial.
    inversion H as [|? ? Hnotin Hnd]; subst. constructor.
    + intro Hin. apply (dict_append_keys c r d k0) in Hin.
      destruct Hin as [->|Hin]; [|contradiction].
      rewrite String.eqb_refl in E. discriminate.
    + now apply IH.
Qed.

Lemma dict_append_stored (c : string) (r : QueryResult)
      (d : list (string * list QueryResult)) :
  Spec2.stored (Evaluator.dict_append c r d) = S (Spec2.stored d).
Proof.
  unfold Spec2.stored. induction d as [|[k0 v] d IH]; simpl; trivial.
  destruct (String.eqb k0 c); simpl.
  - rewrite length_app. simpl. lia.
  - rewrite IH. lia.
Qed.

Lemma dict_append_nonempty (c : string) (r : QueryResult)
      (d : list (string * list QueryResult)) :
  Forall (fun kv => snd kv <> []) d ->
  Forall (fun kv => snd kv <> []) (Evaluator.dict_append c r d).
Proof.
  induction d as [|[k0 v] d IH]; simpl; intro H.
  - constructor; [discriminate | constructor].
  - inversion H; subst. destruct (String.eqb k0 c); constructor; auto.
    simpl. intro E. apply app_eq_nil in E. destruct E. discriminate.
Qed.

Lemma of_nat_S (n : nat) : Py.of_nat (S n) == Py.of_nat n + 1.
Proof.
  unfold Py.of_nat. rewrite Nat2Z.inj_succ, <- Z.add_1_r, inject_Z_plus.
  reflexivity.
Qed.

Lemma sum_app (l1 l2 : list Q) : Py.sum (l1 ++ l2) == Py.sum l1 + Py.sum l2.
Proof.
  induction l1 as [|x l1 IH]; simpl.
  - unfold Py.sum at 2. simpl. ring.
  - rewrite !PyFacts.sum_cons, IH. ring.
Qed.

Lemma sum_unit_bounds (l : list Q) :
  Forall Spec2.in_unit l -> 0 <= Py.sum l <= Py.of_nat (List.length l).
Proof.
  induction 1 as [|x l [Hx0 Hx1] _ IH].
  - change (Py.sum []) with 0.
    change (Py.of_nat (List.length (@nil Q))) with 0. lra.
  - rewrite PyFacts.sum_cons. simpl List.length. rewrite of_nat_S. lra.
Qed.

Lemma mean_unit (l : list Q) (m : Q) :
  Forall Spec2.in_unit l -> Py.mean l = Ok m -> Spec2.in_unit m.
Proof.
  intros H Hm. destruct l as [|x l]; [discriminate|].
  unfold Py.mean in Hm. inversion Hm; subst. clear Hm.
  pose proof (sum_unit_bounds _ H) as [H0 H1]. unfold Spec2.in_unit.
  assert (Hpos : 0 < Py.of_nat (List.length (x :: l)))
    by (apply PyFacts.of_nat_pos; simpl; lia).
  split.
  - apply Qle_shift_div_l; [assumption|]. rewrite Qmult_0_l. exact H0.
  - apply Qle_shift_div_r; [assumption|]. rewrite Qmult_1_l. exact H1.
Qed.

Section WithCollaborators.

Variable search : string -> nat -> result (list Chunk).
Variable complete : string -> result string.

#[local] Abbreviation process_query := (Evaluator.process_query search complete).
#[local] Abbreviation loop_body := (Evaluator.loop_body search complete).
#[local] Abbreviation run_loop := (Evaluator.run_loop search complete).

Variable setup_collection : result unit.
Variable load_embeddings_to_qdrant : result unit.

#[local] Abbreviation run_accuracy_evaluation :=
  (Evaluator.run_accuracy_evaluation search complete setup_collection
                                     load_embeddings_to_qdrant).

(** What a processed query was computed from. *)
Lemma process_query_inv (q : QuerySpec) (qr : QueryResult) :
  process_query q = Ok qr ->
  exists chunks,
    search (query q) 10 = Ok chunks
    /\ Evaluator.evaluate_relevance q chunks = Ok (relevance qr)
    /\ Evaluator.evaluate_ranking_quality chunks = Ok (ranking qr)
    /\ Evaluator.evaluate_generation_quality
         q {| rag_query := query q;
              generated_answer := RAG.generate_answer complete (query q) chunks;
              retrieved_chunks := chunks;
              total_chunks_found := List.length chunks |}
       = Ok (generation qr)
    /\ qr_query qr = query q
    /\ num_retrieved qr = List.length chunks
    /\ qr_confidence qr
       = confidence (RAG.generate_answer complete (query q) chunks)
    /\ top_score qr = match chunks with r :: _ => score r | [] => 0.0 end.
Proof.
  unfold Evaluator.process_query, RAG.search_and_generate. cbv zeta.
  destruct (search (query q) 10) as [chunks|e] eqn:Es; [|discriminate].
  cbn [bind].
  destruct (Evaluator.evaluate_relevance q chunks) as [rel|e] eqn:Er;
    [|discriminate].
  cbn [bind].
  destruct (Evaluator.evaluate_ranking_quality chunks) as [rk|e] eqn:Ek;
    [|discriminate].
  cbn [bind].
  destruct (Evaluator.evaluate_generation_quality q _) as [gen|e] eqn:Eg;
    [|discriminate].
  cbn [bind]. intro H. inversion H; subst; clear H.
  exists chunks.
  cbn [relevance ranking generation qr_query num_retrieved qr_confidence
       top_score generated_answer].
  repeat split; try reflexivity; assumption.
Qed.

Lemma process_query_search_raises (q : QuerySpec) (e : exn) :
  search (query q) 10 = Raise e -> process_query q = Raise e.
Proof. intro H. unfold Evaluator.process_query. cbv zeta. now rewrite H. Qed.

Lemma process_query_after_search (q : QuerySpec) (chunks : list Chunk) :
  search (query q) 10 = Ok chunks ->
  process_query q
  = gen <- Evaluator.evaluate_generation_quality
             q {| rag_query := query q;
                  generated_answer :=
                    RAG.generate_answer complete (query q) chunks;
                  retrieved_chunks := chunks;
                  total_chunks_found := List.length chunks |} ;;
    rel <- Evaluator.evaluate_relevance q chunks ;;
    rk <- Evaluator.evaluate_ranking_quality chunks ;;
    Ok {| qr_query := query q;
          num_retrieved := List.length chunks;
          relevance := rel;
          ranking := rk;
          generation := gen;
          qr_confidence :=
            confidence (RAG.generate_answer complete (query q) chunks);
          top_score := match chunks with r :: _ => score r | [] => 0.0 end |}.
Proof.
  intro H. unfold Evaluator.process_query, RAG.search_and_generate. cbv zeta.
  rewrite H. cbn [bind].
  destruct (RelevanceProps.overall_relevance_unit q chunks) as [rel [-> _]].
  destruct (RankingExtra.ranking_quality_returns chunks) as [rk ->].
  cbn [bind generated_answer].
  now destruct (Evaluator.evaluate_generation_quality q _).
Qed.

(** X11.  Processing one query raises in exactly two situations: the
    retriever raises for its query text, or the query declares an empty
    list of expected keywords (then with [ZeroDivisionError]).  A failure
    of the generation capability never makes it raise. *)
Theorem process_query_failures (q : QuerySpec) (e : exn) :
  process_query q = Raise e
  <-> search (query q) 10 = Raise e
      \/ ((exists chunks, search (query q) 10 = Ok chunks)
          /\ expected_keywords q = Some []
          /\ e = ZeroDivisionError).
Proof.
  destruct (search (query q) 10) as [chunks|e0] eqn:Es.
  - rewrite (process_query_after_search q chunks Es).
    destruct (expected_keywords q) as [[|k ks]|] eqn:Ek.
    + rewrite (GenerationProps.evaluate_generation_quality_declared _ _ _ Ek).
      rewrite PyFacts.int_div_zero. cbn [bind]. split.
      * intro H. inversion H. right. split; [eauto|]. now split.
      * intros [H|[_ [_ ->]]]; [discriminate | reflexivity].
    + destruct (GenerationProps.evaluate_generation_quality_total
                  q {| rag_query := query q;
                       generated_answer :=
                         RAG.generate_answer complete (query q) chunks;
                       retrieved_chunks := chunks;
                       total_chunks_found := List.length chunks |})
        as [kc [-> _]]; [rewrite Ek; discriminate|].
      destruct (RelevanceProps.overall_relevance_unit q chunks) as [rel [-> _]].
      destruct (RankingExtra.ranking_quality_returns chunks) as [rk ->].
      cbn [bind]. split; [discriminate|].
      intros [H|[_ [H _]]]; discriminate.
    + destruct (GenerationProps.evaluate_generation_quality_total
                  q {| rag_query := query q;
                       generated_answer :=
                         RAG.generate_answer complete (query q) chunks;
                       retrieved_chunks := chunks;
                       total_chunks_found := List.length chunks |})
        as [kc [-> _]]; [rewrite Ek; discriminate|].
      destruct (RelevanceProps.overall_relevance_unit q chunks) as [rel [-> _]].
      destruct (RankingExtra.ranking_quality_returns chunks) as [rk ->].
      cbn [bind]. split; [discriminate|].
      intros [H|[_ [H _]]]; discriminate.
  - rewrite (process_query_search_raises q e0 Es). split.
    + intro H. left. inversion H. reflexivity.
    + intros [H|[[chunks H] _]]; [inversion H; reflexivity | discriminate].
Qed.

Lemma process_query_outcome (q : QuerySpec) :
  (exists r, process_query q = Ok r) \/ (exists e, process_query q = Raise e).
Proof. destruct (process_query q); eauto. Qed.

(** The loop the run is built on, once the store is set up. *)
Lemma run_after_setup (qs : list QuerySpec) (report : EvaluationResults) :
  run_accuracy_evaluation qs = Ok report ->
  setup_collection = Ok tt /\ load_embeddings_to_qdrant = Ok tt.
Proof.
  unfold Evaluator.run_accuracy_evaluation.
  destruct setup_collection as [[]|e]; cbn [bind]; [|discriminate].
  destruct load_embeddings_to_qdrant as [[]|e]; cbn [bind]; [|discriminate].
  now split.
Qed.

(** X12.  A run returns a report exactly when both set-up calls return,
    the query set is not empty and every query is processed without
    exception.  An exception of a set-up call ends the run before the
    first query; with the store set up, the empty query set raises
    [StatisticsError]. *)
Theorem run_returns_iff (qs : list QuerySpec) :
  ((exists report, run_accuracy_evaluation qs = Ok report)
   <-> setup_collection = Ok tt
       /\ load_embeddings_to_qdrant = Ok tt
       /\ qs <> []
       /\ forall q, In q qs -> exists r, process_query q = Ok r)
  /\ (forall e, setup_collection = Raise e ->
                run_accuracy_evaluation qs = Raise e)
  /\ (forall e, setup_collection = Ok tt ->
                load_embeddings_to_qdrant = Raise e ->
                run_accuracy_evaluation qs = Raise e)
  /\ (setup_collection = Ok tt -> load_embeddings_to_qdrant = Ok tt ->
      run_accuracy_evaluation [] = Raise StatisticsError).
Proof.
  split; [|split; [|split]].
  - split.
    + intros [report Hrun].
      destruct (run_after_setup qs report Hrun) as [Hs Hl].
      split; [exact Hs|]. split; [exact Hl|]. split.
      * intros ->. unfold Evaluator.run_accuracy_evaluation in Hrun.
        rewrite Hs, Hl in Hrun. discriminate.
      * intros q Hq.
        destruct (process_query_outcome q) as [H|[e He]]; trivial.
        destruct (HarnessProps.first_failure search complete qs q e Hq He)
          as [before [q' [e' [after [-> [Hb Hq']]]]]].
        rewrite (HarnessProps.first_failure_aborts_run
                   search complete setup_collection load_embeddings_to_qdrant
                   before after q' e' (conj Hs Hl) Hb Hq') in Hrun.
        discriminate.
    + intros [Hs [Hl [Hne Hall]]].
      destruct (HarnessProps.run_returns_report
                  search complete setup_collection load_embeddings_to_qdrant
                  qs (conj Hs Hl) Hne Hall)
        as [report [Hrun _]].
      eauto.
  - intros e H. apply HarnessProps.setup_failure_aborts_run. now left.
  - intros e H1 H2. apply HarnessProps.setup_failure_aborts_run. now right.
  - intros Hs Hl. unfold Evaluator.run_accuracy_evaluation.
    now rewrite Hs, Hl.
Qed.

(** The loop keeps the categories distinct and never stores an empty
    list. *)
Lemma run_loop_categories (qs : list QuerySpec) (st st' : Evaluator.LoopState) :
  run_loop qs st = Ok st' ->
  NoDup (Spec2.keys (Evaluator.by_category st)) ->
  Forall (fun kv => snd kv <> []) (Evaluator.by_category st) ->
  NoDup (Spec2.keys (Evaluator.by_category st'))
  /\ Forall (fun kv => snd kv <> []) (Evaluator.by_category st')
  /\ Spec2.stored (Evaluator.by_category st')
     = (Spec2.stored (Evaluator.by_category st) + List.length qs)%nat
  /\ forall k, In k (Spec2.keys (Evaluator.by_category st'))
               <-> In k (Spec2.keys (Evaluator.by_category st))
                   \/ In k (map category qs).
Proof.
  revert st. induction qs as [|q qs IH]; intros st H Hnd Hne; simpl in H.
  - inversion H; subst.
    split; [trivial|]. split; [trivial|]. split; [simpl; lia|].
    intro k. simpl. intuition.
  - unfold Evaluator.loop_body in H.
    destruct (process_query q) as [r|e]; cbn [bind] in H; [|discriminate].
    apply IH in H; cbn [Evaluator.by_category] in *.
    + destruct H as [H1 [H2 [H3 H4]]].
      split; [trivial|]. split; [trivial|]. split.
      * rewrite H3, dict_append_stored. simpl. lia.
      * intro k. rewrite H4, dict_append_keys. simpl. intuition.
    + now apply dict_append_nodup.
    + now apply dict_append_nonempty.
Qed.

(** The loop only appends scores that lie in the unit interval. *)
Lemma run_loop_scores (qs : list QuerySpec) (st st' : Evaluator.LoopState) :
  run_loop qs st = Ok st' ->
  Forall Spec2.in_unit (Evaluator.all_relevance_scores st) ->
  Forall Spec2.in_unit (Evaluator.all_ranking_scores st) ->
  Forall Spec2.in_unit (Evaluator.all_relevance_scores st')
  /\ Forall Spec2.in_unit (Evaluator.all_ranking_scores st').
Proof.
  revert st. induction qs as [|q qs IH]; intros st H Hrel Hrk; simpl in H.
  - inversion H; subst. now split.
  - unfold Evaluator.loop_body in H.
    destruct (process_query q) as [r|e] eqn:Eq; cbn [bind] in H; [|discriminate].
    destruct (process_query_inv q r Eq) as [chunks [_ [Hr [Hk _]]]].
    apply IH in H; trivial;
      cbn [Evaluator.all_relevance_scores Evaluator.all_ranking_scores];
      apply Forall_app; split; trivial; (constructor; [|constructor]).
    + destruct (RelevanceProps.overall_relevance_unit q chunks) as [m [Hm Hb]].
      rewrite Hr in Hm. inversion Hm; subst. exact Hb.
    + destruct (RankingExtra.ranking_quality_range chunks) as [m [Hm [Hb _]]].
      rewrite Hk in Hm. inversion Hm; subst.
      unfold Spec2.in_unit. destruct Hb as [-> | ->]; lra.
Qed.

(** What a report was computed from. *)
Lemma run_inv (qs : list QuerySpec) (report : EvaluationResults) :
  run_accuracy_evaluation qs = Ok report ->
  exists st,
    run_loop qs Evaluator.initial_state = Ok st
    /\ results_by_category report = Evaluator.by_category st
    /\ relevance_scores report = Evaluator.all_relevance_scores st
    /\ ranking_scores report = Evaluator.all_ranking_scores st
    /\ Py.mean (Evaluator.all_relevance_scores st)
       = Ok (average_relevance (overall_metrics report))
    /\ Py.mean (Evaluator.all_ranking_scores st)
       = Ok (average_ranking_quality (overall_metrics report))
    /\ total_queries (overall_metrics report) = List.length qs
    /\ categories_tested (overall_metrics report)
       = List.length (Evaluator.by_category st).
Proof.
  unfold Evaluator.run_accuracy_evaluation.
  destruct setup_collection as [[]|e]; cbn [bind]; [|discriminate].
  destruct load_embeddings_to_qdrant as [[]|e]; cbn [bind]; [|discriminate].
  destruct (run_loop qs Evaluator.initial_state) as [st|e] eqn:El;
    cbn [bind]; [|discriminate].
  destruct (Py.mean (Evaluator.all_relevance_scores st)) as [m1|e] eqn:E1;
    cbn [bind]; [|discriminate].
  destruct (Py.mean (Evaluator.all_ranking_scores st)) as [m2|e] eqn:E2;
    cbn [bind]; [|discriminate].
  destruct (Py.mean (Evaluator.all_generation_scores st)) as [m3|e] eqn:E3;
    cbn [bind]; [|discriminate].
  intro H. inversion H; subst; clear H. exists st.
  cbn [results_by_category relevance_scores ranking_scores overall_metrics
       average_relevance average_ranking_quality total_queries
       categories_tested].
  now repeat split.
Qed.

Lemma length_le_stored (d : list (string * list QueryResult)) :
  Forall (fun kv => snd kv <> []) d -> (List.length d <= Spec2.stored d)%nat.
Proof.
  unfold Spec2.stored. induction 1 as [|[k v] d Hv _ IH]; simpl; [lia|].
  destruct v; [contradiction | simpl in *; lia].
Qed.

(** X13.  In every report the categories of [results_by_category] are
    pairwise distinct and are exactly the categories of the queries, no
    category has an empty result list, and the stored results add up to
    the number of queries; so the number of categories tested is at
    least one and at most the number of queries. *)
Theorem report_categories (qs : list QuerySpec) (report : EvaluationResults) :
  run_accuracy_evaluation qs = Ok report ->
  let d := results_by_category report in
  NoDup (Spec2.keys d)
  /\ (forall k, In k (Spec2.keys d) <-> In k (map category qs))
  /\ Forall (fun kv => snd kv <> []) d
  /\ Spec2.stored d = List.length qs
  /\ total_queries (overall_metrics report) = List.length qs
  /\ categories_tested (overall_metrics report) = List.length d
  /\ (1 <= categories_tested (overall_metrics report)
      <= total_queries (overall_metrics report))%nat.
Proof.
  intros Hrun d.
  destruct (run_inv qs report Hrun)
    as [st [Hloop [Hd [_ [_ [_ [_ [Ht Hc]]]]]]]].
  destruct (run_loop_categories qs _ _ Hloop) as [H1 [H2 [H3 H4]]];
    [constructor | constructor |].
  subst d. rewrite Hd, Ht, Hc. cbn in H3.
  assert (Hqs : qs <> []).
  { intros ->. destruct (run_after_setup _ _ Hrun) as [Hs Hl].
    unfold Evaluator.run_accuracy_evaluation in Hrun.
    rewrite Hs, Hl in Hrun. discriminate. }
  pose proof (length_le_stored _ H2) as Hle.
  repeat split; trivial.
  - intro Hk. apply H4 in Hk. destruct Hk as [[]|Hk]. exact Hk.
  - intro Hk. apply H4. now right.
  - destruct (Evaluator.by_category st) as [|kv d'] eqn:Ed; [|simpl; lia].
    cbn in H3. destruct qs; [contradiction | simpl in H3; lia].
  - lia.
Qed.

(** X14.  In every report each relevance score and each ranking score
    lies between 0 and 1, there is one of each per query, and so do the
    average relevance and the average ranking quality. *)
Theorem report_scores_in_unit_interval (qs : list QuerySpec)
        (report : EvaluationResults) :
  run_accuracy_evaluation qs = Ok report ->
  Forall Spec2.in_unit (relevance_scores report)
  /\ Forall Spec2.in_unit (ranking_scores report)
  /\ List.length (relevance_scores report) = List.length qs
  /\ List.length (ranking_scores report) = List.length qs
  /\ Spec2.in_unit (average_relevance (overall_metrics report))
  /\ Spec2.in_unit (average_ranking_quality (overall_metrics report)).
Proof.
  intro Hrun.
  destruct (run_inv qs report Hrun)
    as [st [Hloop [_ [Hrel [Hrk [Hm1 [Hm2 _]]]]]]].
  destruct (run_loop_scores qs _ _ Hloop) as [H1 H2];
    [constructor | constructor |].
  destruct (HarnessProps.run_loop_lengths search complete qs _ _ Hloop)
    as [L1 [L2 _]].
  rewrite Hrel, Hrk. cbn in L1, L2.
  repeat split; trivial.
  - apply (mean_unit _ _ H1 Hm1).
  - apply (mean_unit _ _ H1 Hm1).
  - apply (mean_unit _ _ H2 Hm2).
  - apply (mean_unit _ _ H2 Hm2).
Qed.

(** X15.  When the store returns no result for a query that declares no
    empty keyword list, the query is still processed: zero results, top
    score and confidence 0, relevance scores all 0.0, ranking scores both
    1.0; the fixed fallback answer gets a full length score and no source
    utilization, so its overall quality is
    [0.2 + 0.3 * keyword_coverage], between 0.2 and 0.5.  The generation
    capability is not consulted. *)
Theorem empty_store_query_result (q : QuerySpec) :
  search (query q) 10 = Ok [] ->
  expected_keywords q <> Some [] ->
  exists qr,
    process_query q = Ok qr
    /\ num_retrieved qr = 0%nat
    /\ top_score qr == 0
    /\ qr_confidence qr == 0
    /\ relevance qr
       = {| type_accuracy := 0.0; keyword_relevance := 0.0;
            speaker_accuracy := 0.0; overall_relevance := 0.0 |}
    /\ ranking qr
       = {| score_monotonicity := 1.0; score_distribution := 1.0 |}
    /\ length_score (generation qr) == 1
    /\ source_utilization (generation qr) == 0
    /\ overall_quality (generation qr)
       == 0.2 + 0.3 * keyword_coverage (generation qr)
    /\ 0.2 <= overall_quality (generation qr) <= 0.5.
Proof.
  intros Hs Hk. rewrite (process_query_after_search q [] Hs).
  destruct (GenerationProps.evaluate_generation_quality_total
              q {| rag_query := query q;
                   generated_answer := RAG.generate_answer complete (query q) [];
                   retrieved_chunks := [];
                   total_chunks_found := List.length (@nil Chunk) |} Hk)
    as [kc [-> [Hk0 Hk1]]].
  cbn [bind]. eexists. split; [reflexivity|].
  cbn [num_retrieved top_score qr_confidence relevance ranking generation
       generated_answer].
  change (RAG.generate_answer complete (query q) [])
    with {| answer := RAG.no_information; confidence := 0.0;
            sources_used := 0; retrieval_scores := None; error := None |}.
  cbn [Spec.generation_metrics length_score source_utilization overall_quality
       keyword_coverage answer confidence sources_used].
  assert (Hls : Spec.length_score_of (String.length RAG.no_information) == 1)
    by reflexivity.
  assert (Hsu : Spec.source_utilization_of 0 == 0) by reflexivity.
  repeat split; try reflexivity; rewrite ?Hls, ?Hsu; try lra; ring.
Qed.

End WithCollaborators.

End HarnessExtra.

(** ** The displayed average retrieval score *)

Module InterfaceProps.

(** X16.  [format_llm_response] can always compute its average retrieval
    score: an answer of [generate_answer] carries retrieval scores only
    after a successful generation over a non-empty result list, so the
    division never fails; the average shown is the one the confidence was
    derived from. *)
Theorem displayed_average_is_defined (complete : string -> result string)
        (q : string) (chunks : list Chunk) :
  let r := RAG.generate_answer complete q chunks in
  exists shown,
    Interface.average_retrieval_score r = Ok shown
    /\ (shown = None <-> chunks = [] \/ error r <> None)
    /\ forall avg,
        shown = Some avg ->
        avg = Spec.average (map score (firstn 5 chunks))
        /\ confidence r = Py.min (avg * 1.2) 1.0.
Proof.
  intro r. subst r. destruct chunks as [|c cs].
  - exists None. split; [reflexivity|]. split.
    + split; auto.
    + discriminate.
  - assert (Hne : c :: cs <> []) by discriminate.
    remember (c :: cs) as chunks eqn:Echunks.
    destruct (complete (RAG.build_prompt q (RAG.build_context chunks)))
      as [g|e] eqn:E.
    + rewrite (SynthesizerProps.generate_answer_success complete q chunks g Hne E).
      unfold Interface.average_retrieval_score. cbn [retrieval_scores].
      rewrite PyFacts.div_pos.
      * cbn [bind error confidence]. eexists. split; [reflexivity|]. split.
        -- split; [discriminate|]. intros [H|H]; [subst; discriminate|].
           now elim H.
        -- intros avg H. inversion H. split; reflexivity.
      * apply PyFacts.of_nat_pos. rewrite SynthesizerProps.top5_length.
        subst chunks. simpl. lia.
    + rewrite (SynthesizerProps.generate_answer_failure complete q chunks e Hne E).
      exists None. split; [reflexivity|]. cbn [error]. split.
      * split; [right; discriminate | reflexivity].
      * discriminate.
Qed.

End InterfaceProps.

(** ** Dictionaries and traversals *)

Module DictFacts.

Lemma mem_iff (k : string) (ks : list string) :
  Dict.mem k ks = true <-> In k ks.
Proof.
  unfold Dict.mem. rewrite existsb_exists. split.
  - intros [x [Hx E]]. apply String.eqb_eq in E. now subst.
  - intro H. exists k. split; trivial. apply String.eqb_refl.
Qed.

(** Removing keys removes exactly their entries. *)
Lemma lookup_without (excluded : list string) (d : Dict.t) (k : string) :
  Dict.lookup k (Dict.without excluded d)
  = if Dict.mem k excluded then None else Dict.lookup k d.
Proof.
  unfold Dict.without. induction d as [|[k' v] d IH]; simpl.
  - now destruct (Dict.mem k excluded).
  - destruct (Dict.mem k' excluded) eqn:Em; simpl.
    + rewrite IH. destruct (String.eqb k' k) eqn:E; trivial.
      apply String.eqb_eq in E. subst. now rewrite Em.
    + rewrite IH. destruct (String.eqb k' k) eqn:E; trivial.
      apply String.eqb_eq in E. subst. now rewrite Em.
Qed.

Lemma index_done (k : string) (d : Dict.t) (v : option string) :
  index k d = Done v <-> Dict.lookup k d = Some v.
Proof.
  unfold index. destruct (Dict.lookup k d); split; intro H;
    inversion H; reflexivity.
Qed.

Lemma index_get (k : string) (d : Dict.t) (v : option string) :
  index k d = Done v -> Dict.get k d = v.
Proof. intro H. apply index_done in H. unfold Dict.get. now rewrite H. Qed.

Lemma index_outcome (k : string) (d : Dict.t) :
  (exists v, index k d = Done v /\ Dict.lookup k d = Some v)
  \/ (index k d = KeyError k /\ Dict.lookup k d = None).
Proof. unfold index. destruct (Dict.lookup k d); eauto. Qed.

Lemma traverse_done {A B : Type} (f : A -> outcome B) (l : list A)
      (rs : list B) :
  traverse f l = Done rs <-> Forall2 (fun x r => f x = Done r) l rs.
Proof.
  revert rs. induction l as [|x l IH]; intro rs; simpl.
  - split; intro H; [inversion H; constructor | inversion H; reflexivity].
  - destruct (f x) as [y| |] eqn:E; cbn [obind].
    + destruct (traverse f l) as [ys| |] eqn:Et; cbn [obind].
      * split; intro H.
        -- inversion H; subst. constructor; trivial. now apply IH.
        -- inversion H as [|? ? ? ? Hx Hl]; subst.
           rewrite E in Hx. inversion Hx; subst.
           apply IH in Hl. inversion Hl; subst. reflexivity.
      * split; intro H; [discriminate|].
        inversion H as [|? ? ? ? Hx Hl]; subst. apply IH in Hl. discriminate.
      * split; intro H; [discriminate|].
        inversion H as [|? ? ? ? Hx Hl]; subst. apply IH in Hl. discriminate.
    + split; intro H; [discriminate|].
      inversion H as [|? ? ? ? Hx Hl]; subst. congruence.
    + split; intro H; [discriminate|].
      inversion H as [|? ? ? ? Hx Hl]; subst. congruence.
Qed.

Lemma traverse_returns {A B : Type} (f : A -> outcome B) (l : list A) :
  (forall x, In x l -> exists r, f x = Done r) ->
  exists rs, traverse f l = Done rs.
Proof.
  induction l as [|x l IH]; intro H; simpl; [eauto|].
  destruct (H x (or_introl eq_refl)) as [y ->]. cbn [obind].
  destruct IH as [ys ->]; [intros; apply H; now right|].
  cbn [obind]. eauto.
Qed.

(** A traversal that does not return stopped at an element that failed. *)
Lemma traverse_key_error {A B : Type} (f : A -> outcome B) (l : list A)
      (k : string) :
  traverse f l = KeyError k -> exists x, In x l /\ f x = KeyError k.
Proof.
  induction l as [|x l IH]; simpl; [discriminate|].
  destruct (f x) as [y| |] eqn:E; cbn [obind].
  - destruct (traverse f l) as [ys| |]; cbn [obind]; try discriminate.
    intro H. inversion H; subst.
    destruct IH as [x' [Hin Hx']]; [reflexivity|]. eauto.
  - intro H. inversion H; subst. eauto.
  - discriminate.
Qed.

Lemma traverse_failed {A B : Type} (f : A -> outcome B) (l : list A)
      (e : exn) :
  traverse f l = Failed e -> exists x, In x l /\ f x = Failed e.
Proof.
  induction l as [|x l IH]; simpl; [discriminate|].
  destruct (f x) as [y| |] eqn:E; cbn [obind].
  - destruct (traverse f l) as [ys| |]; cbn [obind]; try discriminate.
    intro H. inversion H; subst.
    destruct IH as [x' [Hin Hx']]; [reflexivity|]. eauto.
  - discriminate.
  - intro H. inversion H; subst. eauto.
Qed.

Lemma forall2_in_left {A B : Type} (P : A -> B -> Prop) (l : list A)
      (l' : list B) (x : A) :
  Forall2 P l l' -> In x l -> exists y, In y l' /\ P x y.
Proof.
  induction 1 as [|a b l l' Hab _ IH]; intros [].
  - subst. exists b. split; [now left | exact Hab].
  - destruct (IH H) as [y [Hy Hp]]. exists y. split; [now right | exact Hp].
Qed.

End DictFacts.


(** ** Retrieval: what [search] does with the hits of the store *)

Module StoreProps.

Lemma format_result_fields (hit : Store.ScoredPoint) (r : Store.Result) :
  Store.format_result hit = Done r ->
  let p := Store.hit_payload hit in
  Store.r_score r = Store.hit_score hit
  /\ Store.r_chunk_id r = Dict.get "chunk_id" p
  /\ Store.r_meeting_id r = Dict.get "meeting_id" p
  /\ Store.r_text r = Dict.get "text" p
  /\ Store.r_type r = Dict.get "type" p
  /\ Store.r_speaker r = Dict.get "speaker" p
  /\ Store.r_role r = Dict.get "role" p
  /\ Store.r_metadata r = Dict.without Store.named_fields p
  /\ StoreSpec.well_formed p.
Proof.
  unfold Store.format_result. cbv zeta.
  destruct (index "chunk_id" (Store.hit_payload hit)) as [cid| |] eqn:E1;
    cbn [obind]; try discriminate.
  destruct (index "meeting_id" (Store.hit_payload hit)) as [mid| |] eqn:E2;
    cbn [obind]; try discriminate.
  destruct (index "text" (Store.hit_payload hit)) as [txt| |] eqn:E3;
    cbn [obind]; try discriminate.
  destruct (index "type" (Store.hit_payload hit)) as [ty| |] eqn:E4;
    cbn [obind]; try discriminate.
  intro H. inversion H; subst; clear H.
  cbn [Store.r_score Store.r_chunk_id Store.r_meeting_id Store.r_text
       Store.r_type Store.r_speaker Store.r_role Store.r_metadata].
  rewrite (DictFacts.index_get _ _ _ E1), (DictFacts.index_get _ _ _ E2),
    (DictFacts.index_get _ _ _ E3), (DictFacts.index_get _ _ _ E4).
  repeat split.
  apply DictFacts.index_done in E1, E2, E3, E4.
  intros k [<-|[<-|[<-|[<-|[]]]]]; congruence.
Qed.

Lemma format_result_returns (hit : Store.ScoredPoint) :
  StoreSpec.well_formed (Store.hit_payload hit) ->
  exists r, Store.format_result hit = Done r.
Proof.
  intro H. unfold Store.format_result. cbv zeta.
  destruct (DictFacts.index_outcome "chunk_id" (Store.hit_payload hit))
    as [[v1 [-> _]]|[_ E]];
    [|elim (H "chunk_id"%string); [simpl; auto | exact E]].
  destruct (DictFacts.index_outcome "meeting_id" (Store.hit_payload hit))
    as [[v2 [-> _]]|[_ E]];
    [|elim (H "meeting_id"%string); [simpl; auto | exact E]].
  destruct (DictFacts.index_outcome "text" (Store.hit_payload hit))
    as [[v3 [-> _]]|[_ E]];
    [|elim (H "text"%string); [simpl; auto | exact E]].
  destruct (DictFacts.index_outcome "type" (Store.hit_payload hit))
    as [[v4 [-> _]]|[_ E]];
    [|elim (H "type"%string); [simpl; auto 6 | exact E]].
  cbn [obind]. eauto.
Qed.

Lemma format_result_key_error (hit : Store.ScoredPoint) (k : string) :
  Store.format_result hit = KeyError k ->
  In k StoreSpec.required_keys /\ Dict.lookup k (Store.hit_payload hit) = None.
Proof.
  unfold Store.format_result. cbv zeta.
  destruct (DictFacts.index_outcome "chunk_id" (Store.hit_payload hit))
    as [[v1 [-> _]]|[-> E]]; cbn [obind];
    [|intro H; inversion H; subst; split; [simpl; auto | exact E]].
  destruct (DictFacts.index_outcome "meeting_id" (Store.hit_payload hit))
    as [[v2 [-> _]]|[-> E]]; cbn [obind];
    [|intro H; inversion H; subst; split; [simpl; auto | exact E]].
  destruct (DictFacts.index_outcome "text" (Store.hit_payload hit))
    as [[v3 [-> _]]|[-> E]]; cbn [obind];
    [|intro H; inversion H; subst; split; [simpl; auto | exact E]].
  destruct (DictFacts.index_outcome "type" (Store.hit_payload hit))
    as [[v4 [-> _]]|[-> E]]; cbn [obind];
    [|intro H; inversion H; subst; split; [simpl; auto 6 | exact E]].
  discriminate.
Qed.

Lemma format_result_not_failed (hit : Store.ScoredPoint) (e : exn) :
  Store.format_result hit <> Failed e.
Proof.
  unfold Store.format_result. cbv zeta.
  destruct (index "chunk_id" _) as [?|?|?] eqn:E1; cbn [obind];
    try discriminate; [|unfold index in E1; destruct (Dict.lookup _ _); discriminate].
  destruct (index "meeting_id" _) as [?|?|?] eqn:E2; cbn [obind];
    try discriminate; [|unfold index in E2; destruct (Dict.lookup _ _); discriminate].
  destruct (index "text" _) as [?|?|?] eqn:E3; cbn [obind];
    try discriminate; [|unfold index in E3; destruct (Dict.lookup _ _); discriminate].
  destruct (index "type" _) as [?|?|?] eqn:E4; cbn [obind];
    try discriminate. unfold index in E4. destruct (Dict.lookup _ _); discriminate.
Qed.

Section WithStore.

Variable encode : string -> list Q.
Variable client_search :
  list Q -> option (list (string * string)) -> nat -> result (list Store.ScoredPoint).

#[local] Abbreviation search := (Store.search encode client_search).

Lemma search_inv (q : string) (limit : nat) (chunk_type meeting_id : option string)
      (results : list Store.Result) :
  search q limit chunk_type meeting_id = Done results ->
  exists hits,
    client_search (encode q) (Store.search_filter chunk_type meeting_id) limit
    = Ok hits
    /\ Forall2 (fun hit r => Store.format_result hit = Done r) hits results.
Proof.
  unfold Store.search.
  destruct (client_search _ _ _) as [hits|e]; [|discriminate].
  intro H. exists hits. split; trivial. now apply DictFacts.traverse_done.
Qed.

(** X17.  [search] returns one entry per hit of the store, in the order
    of the store and with the score of the store: it neither drops nor
    reorders hits, so a non-increasing ranking of the store stays
    non-increasing; the named fields of each entry are read from the
    payload of its hit. *)
Theorem search_keeps_the_ranking (q : string) (limit : nat)
        (chunk_type meeting_id : option string) (results : list Store.Result) :
  search q limit chunk_type meeting_id = Done results ->
  exists hits,
    client_search (encode q) (Store.search_filter chunk_type meeting_id) limit
    = Ok hits
    /\ List.length results = List.length hits
    /\ map Store.r_score results = map Store.hit_score hits
    /\ (Spec.non_increasing (map Store.hit_score hits) ->
        Spec.non_increasing (map Store.r_score results))
    /\ Forall2 (fun hit r =>
                  let p := Store.hit_payload hit in
                  Store.r_chunk_id r = Dict.get "chunk_id" p
                  /\ Store.r_meeting_id r = Dict.get "meeting_id" p
                  /\ Store.r_text r = Dict.get "text" p
                  /\ Store.r_type r = Dict.get "type" p
                  /\ Store.r_speaker r = Dict.get "speaker" p
                  /\ Store.r_role r = Dict.get "role" p)
               hits results.
Proof.
  intro H. destruct (search_inv _ _ _ _ _ H) as [hits [Hc Hf]].
  exists hits. split; [exact Hc|].
  assert (Hscores : map Store.r_score results = map Store.hit_score hits).
  { clear Hc H. induction Hf as [|hit r hits results Hr _ IH]; simpl; trivial.
    destruct (format_result_fields hit r Hr) as [-> _]. now rewrite IH. }
  split; [symmetry; apply (Forall2_length Hf)|].
  split; [exact Hscores|]. split; [now rewrite Hscores|].
  clear Hc H Hscores. induction Hf as [|hit r hits results Hr _ IH];
    constructor; trivial.
  destruct (format_result_fields hit r Hr) as [_ [? [? [? [? [? [? _]]]]]]].
  cbv zeta. now repeat split.
Qed.

(** X18.  The [metadata] of an entry holds every field of the payload
    except the six named ones ([text], [chunk_id], [meeting_id], [type],
    [speaker], [role]), with its value: looking a key up in [metadata]
    finds nothing for a named field and the payload's value for any
    other key. *)
Theorem metadata_holds_the_other_fields (hit : Store.ScoredPoint)
        (r : Store.Result) :
  Store.format_result hit = Done r ->
  forall k,
    Dict.lookup k (Store.r_metadata r)
    = if Dict.mem k Store.named_fields
      then None
      else Dict.lookup k (Store.hit_payload hit).
Proof.
  intros H k.
  destruct (format_result_fields hit r H) as [_ [_ [_ [_ [_ [_ [_ [-> _]]]]]]]].
  apply DictFacts.lookup_without.
Qed.

(** X19.  When the store answers, [search] returns exactly when every hit
    has the four keys [chunk_id], [meeting_id], [text] and [type] in its
    payload; otherwise it raises [KeyError] for one of these keys, missing
    from some hit, and returns no partial list.  When the store raises,
    [search] raises the same exception. *)
Theorem search_needs_the_required_keys (q : string) (limit : nat)
        (chunk_type meeting_id : option string) :
  (forall hits,
      client_search (encode q) (Store.search_filter chunk_type meeting_id) limit
      = Ok hits ->
      ((exists results, search q limit chunk_type meeting_id = Done results)
       <-> forall hit, In hit hits ->
                       StoreSpec.well_formed (Store.hit_payload hit))
      /\ (forall k,
             search q limit chunk_type meeting_id = KeyError k ->
             In k StoreSpec.required_keys
             /\ exists hit, In hit hits
                            /\ Dict.lookup k (Store.hit_payload hit) = None)
      /\ forall e, search q limit chunk_type meeting_id <> Failed e)
  /\ (forall e,
         client_search (encode q) (Store.search_filter chunk_type meeting_id)
                       limit = Raise e ->
         search q limit chunk_type meeting_id = Failed e).
Proof.
  split.
  - intros hits Hc. unfold Store.search. rewrite Hc. split; [|split].
    + split.
      * intros [results H] hit Hin. apply DictFacts.traverse_done in H.
        destruct (DictFacts.forall2_in_left _ _ _ hit H Hin) as [r [_ Hr]].
        now destruct (format_result_fields hit r Hr) as [_ [_ [_ [_ [_ [_ [_ [_ ?]]]]]]]].
      * intro H. apply DictFacts.traverse_returns.
        intros hit Hin. apply format_result_returns. now apply H.
    + intros k H. apply DictFacts.traverse_key_error in H.
      destruct H as [hit [Hin Hk]].
      destruct (format_result_key_error hit k Hk). eauto.
    + intros e H. apply DictFacts.traverse_failed in H.
      destruct H as [hit [_ Hk]]. now apply format_result_not_failed in Hk.
  - intros e Hc. unfold Store.search. now rewrite Hc.
Qed.

End WithStore.

End StoreProps.

(** ** Loading the embeddings into the store *)

Module LoadProps.

Lemma load_items_inv (file_name : string) (items : list Ingest.Item) (n : nat)
      (ps : list Store.Point) :
  Store.load_items file_name items n = Done ps ->
  map Store.point_id ps = seq n (List.length items)
  /\ map Store.vector ps = map Ingest.embedding items
  /\ Forall2 (fun item p => Store.item_payload file_name item
                            = Done (Store.payload p)) items ps.
Proof.
  revert n ps. induction items as [|item items IH]; intros n ps; simpl.
  - intro H. inversion H. repeat split. constructor.
  - destruct (Store.item_payload file_name item) as [p| |] eqn:Ep;
      cbn [obind]; try discriminate.
    destruct (Store.load_items file_name items (S n)) as [ps'| |] eqn:El;
      cbn [obind]; try discriminate.
    intro H. inversion H; subst; clear H.
    destruct (IH _ _ El) as [H1 [H2 H3]]. simpl.
    rewrite H1, H2. repeat split. constructor; trivial.
Qed.

Lemma load_items_length (file_name : string) (items : list Ingest.Item)
      (n : nat) (ps : list Store.Point) :
  Store.load_items file_name items n = Done ps ->
  List.length ps = List.length items.
Proof.
  intro H. destruct (load_items_inv _ _ _ _ H) as [_ [_ H3]].
  symmetry. apply (Forall2_length H3).
Qed.

(** Every point comes from an item of a file, with the payload built for
    it. *)
Lemma load_files_inv (files : list (string * list Ingest.Item)) (n : nat)
      (ps : list Store.Point) :
  Store.load_files files n = Done ps ->
  map Store.point_id ps = seq n (List.length ps)
  /\ map Store.vector ps = map Ingest.embedding (StoreSpec.all_items files)
  /\ forall p, In p ps ->
       exists file_name items item,
         In (file_name, items) files /\ In item items
         /\ Store.item_payload file_name item = Done (Store.payload p).
Proof.
  unfold StoreSpec.all_items.
  revert n ps. induction files as [|[file_name items] files IH];
    intros n ps; simpl.
  - intro H. inversion H. repeat split. intros p [].
  - destruct (Store.load_items file_name items n) as [ps1| |] eqn:E1;
      cbn [obind]; try discriminate.
    destruct (Store.load_files files (n + List.length ps1)) as [ps2| |] eqn:E2;
      cbn [obind]; try discriminate.
    intro H. inversion H; subst; clear H.
    destruct (load_items_inv _ _ _ _ E1) as [H1 [H2 H3]].
    pose proof (load_items_length _ _ _ _ E1) as Hlen.
    destruct (IH _ _ E2) as [G1 [G2 G3]].
    rewrite !map_app, length_app, seq_app, H1, H2, G1, G2, Hlen.
    repeat split. intros p Hp. apply in_app_or in Hp. destruct Hp as [Hp|Hp].
    + destruct (DictFacts.forall2_in_left
                  (fun p item => Store.item_payload file_name item
                                 = Done (Store.payload p)) ps1 items p)
        as [item [Hi Hpay]]; trivial.
      * clear -H3. induction H3; constructor; trivial.
      * exists file_name, items, item. split; [now left|]. now split.
    + destruct (G3 p Hp) as [f [its [item [Hf [Hi Hpay]]]]].
      exists f, its, item. split; [now right|]. now split.
Qed.

(** [range] steps through the whole list. *)
Lemma batches_from {A : Type} (l : list A) (fuel start : nat) :
  (List.length l - start <= fuel)%nat ->
  List.concat
    (map (fun i => firstn Store.batch_size (skipn i l))
         (Store.range_step fuel start (List.length l) Store.batch_size))
  = skipn start l.
Proof.
  revert start. induction fuel as [|fuel IH]; intros start Hf;
    cbn [Store.range_step map List.concat].
  - symmetry. apply skipn_all2. lia.
  - destruct (start <? List.length l)%nat eqn:E; cbn [map List.concat].
    + apply Nat.ltb_lt in E. rewrite IH by (unfold Store.batch_size; lia).
      rewrite Nat.add_comm, <- skipn_skipn. apply firstn_skipn.
    + apply Nat.ltb_ge in E. symmetry. now apply skipn_all2.
Qed.

Lemma batches_concat {A : Type} (l : list A) :
  List.concat (Store.batches l) = l.
Proof. unfold Store.batches. now rewrite batches_from by lia. Qed.

Lemma range_step_below (fuel start stop step : nat) :
  Forall (fun i => (i < stop)%nat) (Store.range_step fuel start stop step).
Proof.
  revert start. induction fuel as [|fuel IH]; intro start; simpl.
  - constructor.
  - destruct (start <? stop)%nat eqn:E; constructor.
    + now apply Nat.ltb_lt.
    + apply IH.
Qed.

Lemma batches_sizes {A : Type} (l : list A) :
  Forall (fun b => (1 <= List.length b <= Store.batch_size)%nat)
         (Store.batches l).
Proof.
  unfold Store.batches. apply Forall_map.
  eapply Forall_impl; [|apply range_step_below].
  intros i Hi. simpl in Hi. rewrite length_firstn, length_skipn.
  unfold Store.batch_size. lia.
Qed.

Lemma div_step (x : nat) :
  (100 <= x)%nat -> ((x + 99) / 100 = S ((x - 100 + 99) / 100))%nat.
Proof.
  intro H. replace (x + 99)%nat with (x - 100 + 99 + 1 * 100)%nat by lia.
  rewrite Nat.div_add by lia. lia.
Qed.

Lemma div_small (x : nat) :
  (1 <= x < 100)%nat -> ((x + 99) / 100 = 1)%nat.
Proof.
  intro H. symmetry. apply (Nat.div_unique _ 100 1 (x - 1)); lia.
Qed.

Lemma range_step_count (fuel start stop : nat) :
  (stop - start <= fuel)%nat ->
  List.length (Store.range_step fuel start stop Store.batch_size)
  = ((stop - start + 99) / 100)%nat.
Proof.
  revert start. induction fuel as [|fuel IH]; intros start Hf;
    cbn [Store.range_step].
  - replace (stop - start)%nat with 0%nat by lia. reflexivity.
  - destruct (start <? stop)%nat eqn:E.
    + apply Nat.ltb_lt in E. cbn [List.length].
      rewrite IH by (unfold Store.batch_size; lia).
      unfold Store.batch_size.
      destruct (Nat.le_gt_cases 100 (stop - start)) as [Hbig|Hsmall].
      * rewrite (div_step (stop - start) Hbig). do 3 f_equal. lia.
      * rewrite (div_small (stop - start)) by lia.
        replace (stop - (start + 100))%nat with 0%nat by lia. reflexivity.
    + apply Nat.ltb_ge in E.
      replace (stop - start)%nat with 0%nat by lia. reflexivity.
Qed.

(** X20.  [load_embeddings_to_qdrant] numbers the points 0, 1, 2, ... in
    the order of the files and of the items in each file: the upserted
    points carry pairwise distinct ids, there is one point per item, and
    the n-th point holds the embedding of the n-th item. *)
Theorem loaded_points_are_numbered (files : list (string * list Ingest.Item))
        (upserts : list (list Store.Point)) :
  Store.load_embeddings_to_qdrant files = Done upserts ->
  let points := List.concat upserts in
  map Store.point_id points = seq 0 (List.length points)
  /\ NoDup (map Store.point_id points)
  /\ List.length points = List.length (StoreSpec.all_items files)
  /\ map Store.vector points = map Ingest.embedding (StoreSpec.all_items files).
Proof.
  unfold Store.load_embeddings_to_qdrant.
  destruct (Store.load_files files 0) as [ps| |] eqn:E; cbn [obind];
    try discriminate.
  intro H. inversion H; subst; clear H. cbv zeta. rewrite batches_concat.
  destruct (load_files_inv _ _ _ E) as [H1 [H2 _]].
  split; [exact H1|]. split; [rewrite H1; apply seq_NoDup|].
  split; [|exact H2].
  rewrite <- (length_map Store.vector), H2. apply length_map.
Qed.

(** X21.  The points are upserted in batches that split the point list in
    order: concatenating the batches gives back the points, every batch
    holds between 1 and 100 points, and [n] points make
    [(n + 99) / 100] batches; no empty batch is sent and no point is sent
    twice. *)
Theorem upsert_batches_partition {A : Type} (points : list A) :
  List.concat (Store.batches points) = points
  /\ Forall (fun b => (1 <= List.length b <= 100)%nat) (Store.batches points)
  /\ List.length (Store.batches points)
     = ((List.length points + 99) / 100)%nat.
Proof.
  split; [apply batches_concat|]. split; [apply batches_sizes|].
  unfold Store.batches. rewrite length_map, range_step_count by lia.
  now rewrite Nat.sub_0_r.
Qed.

Lemma item_payload_inv (file_name : string) (item : Ingest.Item) (p : Dict.t) :
  Store.item_payload file_name item = Done p ->
  let metadata := Ingest.item_metadata item in
  exists mid ty,
    Dict.lookup "meeting_id" metadata = Some mid
    /\ Dict.lookup "type" metadata = Some ty
    /\ p = [ ("chunk_id", Ingest.item_chunk_id item);
             ("meeting_id", mid);
             ("text", Dict.get_default "text" metadata
                        (Dict.get_default "task" metadata (Some ""%string)));
             ("type", ty);
             ("speaker", Dict.get "speaker" metadata);
             ("role", Dict.get "role" metadata);
             ("assigned_to", Dict.get "assigned_to" metadata);
             ("due_date", Dict.get "due_date" metadata);
             ("priority", Dict.get "priority" metadata);
             ("file_source", Some file_name) ]%string.
Proof.
  unfold Store.item_payload. cbv zeta.
  destruct (DictFacts.index_outcome "meeting_id" (Ingest.item_metadata item))
    as [[mid [-> Hm]]|[-> _]]; cbn [obind]; [|discriminate].
  destruct (DictFacts.index_outcome "type" (Ingest.item_metadata item))
    as [[ty [-> Ht]]|[-> _]]; cbn [obind]; [|discriminate].
  intro H. inversion H. exists mid, ty. now repeat split.
Qed.

Lemma item_payload_returns (file_name : string) (item : Ingest.Item) :
  Dict.lookup "meeting_id" (Ingest.item_metadata item) <> None ->
  Dict.lookup "type" (Ingest.item_metadata item) <> None ->
  exists p, Store.item_payload file_name item = Done p.
Proof.
  intros Hm Ht. unfold Store.item_payload. cbv zeta.
  destruct (DictFacts.index_outcome "meeting_id" (Ingest.item_metadata item))
    as [[mid [-> _]]|[_ E]]; [|contradiction].
  destruct (DictFacts.index_outcome "type" (Ingest.item_metadata item))
    as [[ty [-> _]]|[_ E]]; [|contradiction].
  cbn [obind]. eauto.
Qed.

(** X22.  What [load_embeddings_to_qdrant] stores, [search] reads back
    without [KeyError]: for every upserted point, formatting a hit on it
    returns an entry with the chunk id of its item, the [meeting_id],
    [type], [speaker] and [role] of the item's metadata, as text the
    metadata's [text] (or, without that key, its [task], or else the
    empty string), and as [metadata] exactly the four fields
    [assigned_to], [due_date], [priority] and [file_source]. *)
Theorem search_reads_back_loaded_points
        (files : list (string * list Ingest.Item))
        (upserts : list (list Store.Point)) :
  Store.load_embeddings_to_qdrant files = Done upserts ->
  forall point, In point (List.concat upserts) ->
    exists file_name items item,
      In (file_name, items) files /\ In item items
      /\ forall s,
          let metadata := Ingest.item_metadata item in
          Store.format_result {| Store.hit_score := s;
                                 Store.hit_payload := Store.payload point |}
          = Done {| Store.r_score := s;
                    Store.r_chunk_id := Ingest.item_chunk_id item;
                    Store.r_meeting_id := Dict.get "meeting_id" metadata;
                    Store.r_text :=
                      Dict.get_default "text" metadata
                        (Dict.get_default "task" metadata (Some ""%string));
                    Store.r_type := Dict.get "type" metadata;
                    Store.r_speaker := Dict.get "speaker" metadata;
                    Store.r_role := Dict.get "role" metadata;
                    Store.r_metadata :=
                      [ ("assigned_to", Dict.get "assigned_to" metadata);
                        ("due_date", Dict.get "due_date" metadata);
                        ("priority", Dict.get "priority" metadata);
                        ("file_source", Some file_name) ]%string |}.
Proof.
  unfold Store.load_embeddings_to_qdrant.
  destruct (Store.load_files files 0) as [ps| |] eqn:E; cbn [obind];
    try discriminate.
  intro H. inversion H; subst; clear H. rewrite batches_concat.
  intros point Hin.
  destruct (load_files_inv _ _ _ E) as [_ [_ H3]].
  destruct (H3 point Hin) as [file_name [items [item [Hf [Hi Hp]]]]].
  exists file_name, items, item. split; [exact Hf|]. split; [exact Hi|].
  intro s. cbv zeta.
  destruct (item_payload_inv _ _ _ Hp) as [mid [ty [Hm [Ht ->]]]].
  assert (Gm : Dict.get "meeting_id" (Ingest.item_metadata item) = mid)
    by (unfold Dict.get; now rewrite Hm).
  assert (Gt : Dict.get "type" (Ingest.item_metadata item) = ty)
    by (unfold Dict.get; now rewrite Ht).
  rewrite Gm, Gt. reflexivity.
Qed.

Lemma load_items_returns (file_name : string) (items : list Ingest.Item)
      (n : nat) :
  (forall item, In item items ->
     Dict.lookup "meeting_id" (Ingest.item_metadata item) <> None
     /\ Dict.lookup "type" (Ingest.item_metadata item) <> None) ->
  exists ps, Store.load_items file_name items n = Done ps.
Proof.
  revert n. induction items as [|item items IH]; intros n H; simpl; [eauto|].
  destruct (H item (or_introl eq_refl)) as [Hm Ht].
  destruct (item_payload_returns file_name item Hm Ht) as [p ->].
  cbn [obind]. destruct (IH (S n)) as [ps ->]; [intros; apply H; now right|].
  cbn [obind]. eauto.
Qed.

Lemma load_files_returns (files : list (string * list Ingest.Item)) (n : nat) :
  (forall item, In item (StoreSpec.all_items files) ->
     Dict.lookup "meeting_id" (Ingest.item_metadata item) <> None
     /\ Dict.lookup "type" (Ingest.item_metadata item) <> None) ->
  exists ps, Store.load_files files n = Done ps.
Proof.
  unfold StoreSpec.all_items.
  revert n. induction files as [|[file_name items] files IH]; intros n H;
    simpl; [eauto|].
  simpl in H.
  destruct (load_items_returns file_name items n) as [ps ->];
    [intros; apply H; apply in_or_app; now left|].
  cbn [obind]. destruct (IH (n + List.length ps)%nat) as [qs ->];
    [intros; apply H; apply in_or_app; now right|].
  cbn [obind]. eauto.
Qed.

(** X23.  The load succeeds exactly when the metadata of every item has
    the keys [meeting_id] and [type]; it reads every other field with a
    default and never fails on it. *)
Theorem load_needs_meeting_id_and_type
        (files : list (string * list Ingest.Item)) :
  (exists upserts, Store.load_embeddings_to_qdrant files = Done upserts)
  <-> forall item, In item (StoreSpec.all_items files) ->
        Dict.lookup "meeting_id" (Ingest.item_metadata item) <> None
        /\ Dict.lookup "type" (Ingest.item_metadata item) <> None.
Proof.
  unfold Store.load_embeddings_to_qdrant. split.
  - intros [upserts H] item Hin.
    destruct (Store.load_files files 0) as [ps| |] eqn:E; cbn [obind] in H;
      try discriminate.
    destruct (load_files_inv _ _ _ E) as [_ [H2 H3]].
    assert (Hex : exists p, In p ps
                            /\ exists f, Store.item_payload f item
                                         = Done (Store.payload p)).
    { clear H H2. revert ps E H3. generalize 0%nat.
      unfold StoreSpec.all_items in Hin.
      induction files as [|[f items] files IH]; intros n ps E H3;
        [destruct Hin|].
      simpl in E, Hin.
      destruct (Store.load_items f items n) as [ps1| |] eqn:E1;
        cbn [obind] in E; try discriminate.
      destruct (Store.load_files files (n + List.length ps1)) as [ps2| |] eqn:E2;
        cbn [obind] in E; try discriminate.
      inversion E; subst; clear E.
      apply in_app_or in Hin. destruct Hin as [Hin|Hin].
      - destruct (load_items_inv _ _ _ _ E1) as [_ [_ F]].
        destruct (DictFacts.forall2_in_left _ _ _ item F Hin) as [p [Hp Hpay]].
        exists p. split; [apply in_or_app; now left | eauto].
      - destruct (IH Hin _ _ E2) as [p [Hp Hpay]].
        + intros p Hp. destruct (load_files_inv _ _ _ E2) as [_ [_ G]].
          now apply G.
        + exists p. split; [apply in_or_app; now right | exact Hpay]. }
    destruct Hex as [p [_ [f Hpay]]].
    destruct (item_payload_inv _ _ _ Hpay) as [mid [ty [Hm [Ht _]]]].
    split; congruence.
  - intro H. destruct (load_files_returns files 0 H) as [ps ->].
    cbn [obind]. eauto.
Qed.

End LoadProps.

(** ** Chunking and embedding *)

Module IngestProps.

Lemma enumerate_fst {A : Type} (i : nat) (l : list A) :
  map fst (Ingest.enumerate i l) = seq i (List.length l).
Proof.
  revert i. induction l as [|x l IH]; intro i; simpl; [trivial|].
  now rewrite IH.
Qed.

Lemma enumerate_length {A : Type} (i : nat) (l : list A) :
  List.length (Ingest.enumerate i l) = List.length l.
Proof. now rewrite <- (length_map fst), enumerate_fst, length_seq. Qed.

Lemma map_constant {A B : Type} (f : A -> B) (b : B) (l : list A) :
  (forall x, f x = b) -> map f l = repeat b (List.length l).
Proof. intro H. induction l; simpl; [trivial | now rewrite H, IHl]. Qed.

Lemma chunk_meeting_keys (meeting_data : Ingest.Meeting) :
  Forall (fun c => Dict.lookup "chunk_id" c <> None
                   /\ Dict.lookup "type" c <> None
                   /\ Dict.lookup "meeting_id" c
                      = Some (Ingest.meeting_key meeting_data))
         (Ingest.chunk_meeting meeting_data).
Proof.
  unfold Ingest.chunk_meeting.
  rewrite !Forall_app. repeat split; apply Forall_map, Forall_forall;
    intros x _; (split; [discriminate | split; [discriminate | reflexivity]]).
Qed.

(** X24.  [chunk_meeting] yields one chunk per minute, per action item
    and per key insight, in this order and typed accordingly; every chunk
    carries the keys [chunk_id], [meeting_id] and [type], and its
    [meeting_id] is that of the meeting. *)
Theorem chunk_meeting_structure (meeting_data : Ingest.Meeting) :
  let chunks := Ingest.chunk_meeting meeting_data in
  let n1 := List.length (Ingest.minutes meeting_data) in
  let n2 := List.length (Ingest.action_items meeting_data) in
  let n3 := List.length (Ingest.key_insights meeting_data) in
  List.length chunks = (n1 + n2 + n3)%nat
  /\ map (Dict.get "type") chunks
     = repeat (Some "minute"%string) n1
       ++ repeat (Some "action_item"%string) n2
       ++ repeat (Some "key_insight"%string) n3
  /\ Forall (fun c => Dict.lookup "chunk_id" c <> None
                      /\ Dict.lookup "type" c <> None
                      /\ Dict.lookup "meeting_id" c
                         = Some (Ingest.meeting_key meeting_data))
            chunks.
Proof.
  cbv zeta. unfold Ingest.chunk_meeting. split; [|split].
  - rewrite !length_app, !length_map, !enumerate_length. lia.
  - rewrite !map_app, !map_map.
    rewrite (map_constant _ (Some "minute"%string)) by reflexivity.
    rewrite (map_constant _ (Some "action_item"%string)) by reflexivity.
    rewrite (map_constant _ (Some "key_insight"%string)) by reflexivity.
    now rewrite !enumerate_length.
  - apply (chunk_meeting_keys meeting_data).
Qed.

Lemma append_cancel (p a b : string) : (p ++ a = p ++ b)%string -> a = b.
Proof. induction p as [|c p IH]; simpl; intro H; [trivial|]. inversion H. auto. Qed.

Lemma str_nat_injective (a b : nat) : Py.str_nat a = Py.str_nat b -> a = b.
Proof.
  unfold Py.str_nat. intro H.
  assert (Hu : Some (Nat.to_uint a) = Some (Nat.to_uint b))
    by (rewrite <- !NilEmpty.usu; now rewrite H).
  inversion Hu as [Hu'].
  rewrite <- (Unsigned.of_to a), <- (Unsigned.of_to b). now rewrite Hu'.
Qed.

Lemma skipn_length_app {A : Type} (l1 l2 : list A) :
  skipn (List.length l1) (l1 ++ l2) = l2.
Proof. induction l1; simpl; trivial. Qed.

Lemma numbered_ids (pre infix : string) (n : nat) :
  NoDup (map (fun i => Some (pre ++ infix ++ Py.str_nat (i + 1))%string) (seq 0 n)).
Proof.
  apply Injective_map_NoDup; [|apply seq_NoDup].
  intros i j H. inversion H as [H'].
  apply append_cancel, append_cancel, str_nat_injective in H'. lia.
Qed.

(** X25.  Within one meeting the chunk ids of the action items and of the
    key insights (the chunks after the minutes) are pairwise distinct. *)
Theorem action_and_insight_ids_distinct (meeting_data : Ingest.Meeting) :
  NoDup (map (Dict.get "chunk_id")
             (skipn (List.length (Ingest.minutes meeting_data))
                    (Ingest.chunk_meeting meeting_data))).
Proof.
  unfold Ingest.chunk_meeting. cbv zeta.
  rewrite <- (length_map (Ingest.minute_chunk (Ingest.meeting_key meeting_data)
                            (Ingest.participants meeting_data))
                         (Ingest.minutes meeting_data)).
  rewrite skipn_length_app, map_app, !map_map.
  set (pre := Py.str_opt (Ingest.meeting_key meeting_data)).
  assert (Ha : forall l : list Dict.t,
             map (fun x => Dict.get "chunk_id"
                             (Ingest.action_chunk
                                (Ingest.meeting_key meeting_data) (fst x) (snd x)))
                 (Ingest.enumerate 0 l)
             = map (fun i => Some (pre ++ "_action_" ++ Py.str_nat (i + 1))%string)
                   (seq 0 (List.length l))).
  { intro l. rewrite <- enumerate_fst, map_map. reflexivity. }
  assert (Hi : forall l : list (option string),
             map (fun x => Dict.get "chunk_id"
                             (Ingest.insight_chunk
                                (Ingest.meeting_key meeting_data) (fst x) (snd x)))
                 (Ingest.enumerate 0 l)
             = map (fun i => Some (pre ++ "_insight_" ++ Py.str_nat (i + 1))%string)
                   (seq 0 (List.length l))).
  { intro l. rewrite <- enumerate_fst, map_map. reflexivity. }
  rewrite Ha, Hi. apply NoDup_app; [apply numbered_ids | apply numbered_ids |].
  intros x Hx Hy. apply in_map_iff in Hx, Hy.
  destruct Hx as [i [<- _]]. destruct Hy as [j [Hj _]].
  inversion Hj as [Hj']. apply append_cancel in Hj'. discriminate.
Qed.

Section WithEncoder.

Variable encode : string -> list Q.

Lemma embed_chunk_skipped (chunk : Dict.t) :
  Py.truthy (Ingest.embedded_text chunk) = false ->
  Ingest.embed_chunk encode chunk = Done [].
Proof.
  unfold Ingest.embed_chunk.
  destruct (Ingest.embedded_text chunk) as [[|c s]|]; trivial. discriminate.
Qed.

Lemma embed_chunk_embedded (chunk : Dict.t) :
  Py.truthy (Ingest.embedded_text chunk) = true ->
  exists t,
    Ingest.embedded_text chunk = Some t /\ t <> ""%string
    /\ Ingest.embed_chunk encode chunk
       = cid <~ index "chunk_id" chunk ;;
         Done [ {| Ingest.item_chunk_id := cid;
                   Ingest.embedding := encode t;
                   Ingest.item_metadata := chunk |} ].
Proof.
  unfold Ingest.embed_chunk.
  destruct (Ingest.embedded_text chunk) as [[|c s]|]; try discriminate.
  intros _. exists (String c s). split; [reflexivity|]. split; [discriminate|].
  reflexivity.
Qed.

Lemma generate_embeddings_cons (chunk : Dict.t) (chunks : list Dict.t) :
  Ingest.generate_embeddings encode (chunk :: chunks)
  = part <~ Ingest.embed_chunk encode chunk ;;
    rest <~ Ingest.generate_embeddings encode chunks ;;
    Done (part ++ rest).
Proof.
  unfold Ingest.generate_embeddings. simpl.
  destruct (Ingest.embed_chunk encode chunk) as [part| |]; cbn [obind]; trivial.
  destruct (traverse (Ingest.embed_chunk encode) chunks) as [parts| |];
    cbn [obind]; trivial.
Qed.

Lemma generate_embeddings_inv (chunks : list Dict.t) (items : list Ingest.Item) :
  Ingest.generate_embeddings encode chunks = Done items ->
  map Ingest.item_metadata items
  = filter (fun c => Py.truthy (Ingest.embedded_text c)) chunks
  /\ Forall (StoreSpec.embedded_from encode) items.
Proof.
  revert items. induction chunks as [|c cs IH]; intro items.
  - intro H. inversion H. split; [reflexivity | constructor].
  - rewrite generate_embeddings_cons. simpl filter.
    destruct (Py.truthy (Ingest.embedded_text c)) eqn:Et.
    + destruct (embed_chunk_embedded c Et) as [t [Htext [Hne ->]]].
      destruct (DictFacts.index_outcome "chunk_id" c) as [[cid [-> Hc]]|[-> _]];
        cbn [obind]; [|discriminate].
      destruct (Ingest.generate_embeddings encode cs) as [rest| |];
        cbn [obind]; try discriminate.
      intro H. inversion H; subst; clear H.
      destruct (IH rest eq_refl) as [H1 H2]. simpl. rewrite H1.
      split; [reflexivity|]. constructor; trivial.
      exists t. cbn [Ingest.item_metadata Ingest.embedding Ingest.item_chunk_id].
      now repeat split.
    + rewrite (embed_chunk_skipped c Et). cbn [obind].
      destruct (Ingest.generate_embeddings encode cs) as [rest| |];
        cbn [obind]; try discriminate.
      intro H. inversion H; subst; clear H. now apply IH.
Qed.

Lemma generate_embeddings_returns (chunks : list Dict.t) :
  Forall (fun c => Dict.lookup "chunk_id" c <> None) chunks ->
  exists items, Ingest.generate_embeddings encode chunks = Done items.
Proof.
  induction 1 as [|c cs Hc _ [items IH]].
  - eexists. reflexivity.
  - rewrite generate_embeddings_cons, IH.
    destruct (Py.truthy (Ingest.embedded_text c)) eqn:Et.
    + destruct (embed_chunk_embedded c Et) as [t [_ [_ ->]]].
      destruct (DictFacts.index_outcome "chunk_id" c) as [[cid [-> _]]|[_ E]];
        [|contradiction].
      cbn [obind]. eauto.
    + rewrite (embed_chunk_skipped c Et). cbn [obind]. eauto.
Qed.

(** X26.  [generate_embeddings] embeds exactly the chunks that have a
    non-empty [text] or, failing that, a non-empty [task], in their
    order, and skips the others: every item keeps its whole chunk as
    metadata, is embedded from that non-empty text, and takes its chunk
    id from the chunk. *)
Theorem only_chunks_with_text_are_embedded (chunks : list Dict.t)
        (items : list Ingest.Item) :
  Ingest.generate_embeddings encode chunks = Done items ->
  map Ingest.item_metadata items
  = filter (fun c => Py.truthy (Ingest.embedded_text c)) chunks
  /\ Forall (fun item =>
               exists t,
                 Ingest.embedded_text (Ingest.item_metadata item) = Some t
                 /\ t <> ""%string
                 /\ Ingest.embedding item = encode t
                 /\ Dict.lookup "chunk_id" (Ingest.item_metadata item)
                    = Some (Ingest.item_chunk_id item))
            items.
Proof. apply generate_embeddings_inv. Qed.

End WithEncoder.

End IngestProps.

(** ** From a meeting to the store *)

Module PipelineProps.

Lemma chunk_meeting_cases (meeting_data : Ingest.Meeting) (c : Dict.t) :
  In c (Ingest.chunk_meeting meeting_data) ->
  let mid := Ingest.meeting_key meeting_data in
  (exists minute,
      c = Ingest.minute_chunk mid (Ingest.participants meeting_data) minute)
  \/ (exists idx action, c = Ingest.action_chunk mid idx action)
  \/ (exists idx insight, c = Ingest.insight_chunk mid idx insight).
Proof.
  unfold Ingest.chunk_meeting. cbv zeta. intro H.
  apply in_app_or in H. destruct H as [H|H].
  - apply in_map_iff in H. destruct H as [x [<- _]]. left. eauto.
  - apply in_app_or in H. destruct H as [H|H];
      apply in_map_iff in H; destruct H as [x [<- _]]; right; [left|right]; eauto.
Qed.

Lemma value_or_truthy (a b : option string) (t : string) :
  Ingest.value_or a None = Some t -> a = Some t.
Proof.
  unfold Ingest.value_or. destruct (Py.truthy a); [trivial | discriminate].
Qed.

(** For the chunks of [chunk_meeting] the text stored in the payload is
    the text that was embedded. *)
Lemma stored_text_is_embedded_text (meeting_data : Ingest.Meeting)
      (c : Dict.t) (t : string) :
  In c (Ingest.chunk_meeting meeting_data) ->
  Ingest.embedded_text c = Some t ->
  Dict.get_default "text" c (Dict.get_default "task" c (Some ""%string))
  = Some t.
Proof.
  intros Hin Ht.
  destruct (chunk_meeting_cases meeting_data c Hin)
    as [[minute ->]|[[idx [action ->]]|[idx [insight ->]]]].
  - unfold Ingest.embedded_text in Ht.
    change (Dict.get "task" (Ingest.minute_chunk _ _ minute))
      with (@None string) in Ht.
    apply (value_or_truthy _ None) in Ht. exact Ht.
  - exact Ht.
  - unfold Ingest.embedded_text in Ht.
    change (Dict.get "task" (Ingest.insight_chunk _ idx insight))
      with (@None string) in Ht.
    apply (value_or_truthy _ None) in Ht. exact Ht.
Qed.

Lemma load_items_pairs (file_name : string) (items : list Ingest.Item) (n : nat)
      (ps : list Store.Point) :
  Store.load_items file_name items n = Done ps ->
  Forall2 (fun item p => Store.item_payload file_name item
                         = Done (Store.payload p)
                         /\ Store.vector p = Ingest.embedding item) items ps.
Proof.
  revert n ps. induction items as [|item items IH]; intros n ps; simpl.
  - intro H. inversion H. constructor.
  - destruct (Store.item_payload file_name item) as [p| |] eqn:Ep;
      cbn [obind]; try discriminate.
    destruct (Store.load_items file_name items (S n)) as [ps'| |] eqn:El;
      cbn [obind]; try discriminate.
    intro H. inversion H; subst; clear H. constructor; [now split|].
    now apply (IH (S n)).
Qed.

Lemma forall2_in_right {A B : Type} (P : A -> B -> Prop) (l : list A)
      (l' : list B) (y : B) :
  Forall2 P l l' -> In y l' -> exists x, In x l /\ P x y.
Proof.
  induction 1 as [|a b l l' Hab _ IH]; intros [].
  - subst. exists a. split; [now left | exact Hab].
  - destruct (IH H) as [x [Hx Hp]]. exists x. split; [now right | exact Hp].
Qed.

(** X27.  The pipeline from a meeting to the store never raises a
    [KeyError]: the chunks of [chunk_meeting] can always be embedded and
    the embedded items can always be loaded.  Every stored point holds a
    non-empty text in its payload, and this text is the one its vector
    was computed from; chunks without text are not stored. *)
Theorem pipeline_stores_the_embedded_text (encode : string -> list Q)
        (meeting_data : Ingest.Meeting) (file_name : string) :
  exists items upserts,
    Ingest.generate_embeddings encode (Ingest.chunk_meeting meeting_data)
    = Done items
    /\ Store.load_embeddings_to_qdrant [(file_name, items)] = Done upserts
    /\ (List.length (List.concat upserts)
        <= List.length (Ingest.chunk_meeting meeting_data))%nat
    /\ forall p, In p (List.concat upserts) ->
         exists t,
           Dict.get "text" (Store.payload p) = Some t
           /\ t <> ""%string
           /\ Store.vector p = encode t
           /\ Dict.get "meeting_id" (Store.payload p)
              = Ingest.meeting_key meeting_data.
Proof.
  pose proof (IngestProps.chunk_meeting_keys meeting_data) as Hkeys.
  destruct (IngestProps.generate_embeddings_returns
              encode (Ingest.chunk_meeting meeting_data)) as [items Hitems].
  { eapply Forall_impl; [|exact Hkeys]. intros c [H _]. exact H. }
  destruct (IngestProps.generate_embeddings_inv encode _ _ Hitems)
    as [Hmeta Hemb].
  assert (Hfrom : forall item, In item items ->
                    In (Ingest.item_metadata item)
                       (Ingest.chunk_meeting meeting_data)).
  { intros item Hin.
    assert (H : In (Ingest.item_metadata item)
                   (map Ingest.item_metadata items)) by now apply in_map.
    rewrite Hmeta in H. apply filter_In in H. tauto. }
  destruct (LoadProps.load_items_returns file_name items 0) as [ps Hps].
  { intros item Hin. rewrite Forall_forall in Hkeys.
    destruct (Hkeys _ (Hfrom item Hin)) as [_ [Hty Hmid]].
    split; [congruence | exact Hty]. }
  exists items, (Store.batches ps). split; [exact Hitems|].
  split.
  { unfold Store.load_embeddings_to_qdrant. simpl. rewrite Hps.
    cbn [obind]. now rewrite app_nil_r. }
  rewrite LoadProps.batches_concat.
  pose proof (load_items_pairs _ _ _ _ Hps) as Hpairs.
  split.
  { rewrite <- (Forall2_length Hpairs), <- (length_map Ingest.item_metadata),
      Hmeta.
    apply filter_length_le. }
  intros p Hp.
  destruct (forall2_in_right _ _ _ p Hpairs Hp) as [item [Hin [Hpay Hvec]]].
  rewrite Forall_forall in Hemb.
  destruct (Hemb item Hin) as [t [Ht [Hne [Henc _]]]].
  destruct (LoadProps.item_payload_inv _ _ _ Hpay) as [mid [ty [Hm [_ Hp']]]].
  exists t. rewrite Hp'. split; [|split; [exact Hne | split]].
  - change (Dict.get "text" _)
      with (Dict.get_default "text" (Ingest.item_metadata item)
              (Dict.get_default "task" (Ingest.item_metadata item)
                                (Some ""%string))).
    apply (stored_text_is_embedded_text meeting_data); [now apply Hfrom | exact Ht].
  - now rewrite Hvec.
  - change (Dict.get "meeting_id" _) with mid.
    rewrite Forall_forall in Hkeys.
    destruct (Hkeys _ (Hfrom item Hin)) as [_ [_ Hmid]]. congruence.
Qed.

End PipelineProps.

(** ** The command line: filters and query text *)

Module CliProps.

Lemma append_empty (s : string) : (s ++ "")%string = s.
Proof. induction s as [|c s IH]; simpl; [trivial | now rewrite IH]. Qed.

Lemma append_assoc (a b c : string) :
  ((a ++ b) ++ c)%string = (a ++ (b ++ c))%string.
Proof. induction a as [|x a IH]; simpl; [trivial | now rewrite IH]. Qed.

Lemma append_nonempty (a : string) (c : ascii) :
  (a ++ String c "")%string <> ""%string.
Proof. destruct a; discriminate. Qed.

Lemma no_space_append (a b : string) :
  CliSpec.no_space (a ++ b) = CliSpec.no_space a && CliSpec.no_space b.
Proof.
  induction a as [|c a IH]; simpl; [trivial|].
  rewrite IH. now rewrite andb_assoc.
Qed.

(** Every part [split] returns is a token. *)
Lemma split_from_tokens (s cur : string) :
  CliSpec.no_space cur = true -> Forall CliSpec.token (Cli.split_from cur s).
Proof.
  revert cur. induction s as [|c s IH]; intros cur Hcur; simpl.
  - destruct cur; constructor; [|constructor]. split; [discriminate | exact Hcur].
  - destruct (Cli.is_space c) eqn:Ec.
    + destruct cur as [|d cur]; [now apply IH|].
      constructor; [split; [discriminate | exact Hcur] | now apply IH].
    + apply IH. rewrite no_space_append, Hcur. simpl. now rewrite Ec.
Qed.

Lemma split_tokens (s : string) : Forall CliSpec.token (Cli.split s).
Proof. now apply split_from_tokens. Qed.

Lemma split_from_token (t cur rest : string) :
  CliSpec.no_space t = true ->
  Cli.split_from cur (t ++ rest) = Cli.split_from (cur ++ t) rest.
Proof.
  revert cur. induction t as [|c t IH]; intros cur Ht; simpl.
  - now rewrite append_empty.
  - simpl in Ht. apply andb_true_iff in Ht. destruct Ht as [Hc Ht].
    apply negb_true_iff in Hc. rewrite Hc, (IH _ Ht), append_assoc.
    reflexivity.
Qed.

(** Joining tokens with single spaces and splitting again gives the
    tokens back. *)
Lemma split_join (tokens : list string) :
  Forall CliSpec.token tokens ->
  Cli.split (String.concat " " tokens) = tokens.
Proof.
  unfold Cli.split. induction 1 as [|t ts [Hne Hns] Hts IH]; [reflexivity|].
  destruct ts as [|t' ts].
  - change (String.concat " " [t]) with t.
    rewrite <- (append_empty t) at 1.
    rewrite (split_from_token t "" "" Hns).
    change ("" ++ t)%string with t. cbn [Cli.split_from].
    destruct t; [contradiction | reflexivity].
  - change (String.concat " " (t :: t' :: ts))
      with (t ++ String " "%char (String.concat " " (t' :: ts)))%string.
    rewrite (split_from_token t "" _ Hns).
    change ("" ++ t)%string with t.
    remember (String.concat " " (t' :: ts)) as joined eqn:Ej.
    cbn [Cli.split_from]. change (Cli.is_space " "%char) with true.
    cbv iota. destruct t as [|c t]; [contradiction|]. now rewrite IH.
Qed.

Lemma parse_parts_spec (parts : list string) (chunk_type meeting_id : option string)
      (query_parts : list string) :
  Cli.parse_parts parts chunk_type meeting_id query_parts
  = (CliSpec.last_value "type" parts chunk_type,
     CliSpec.last_value "meeting" parts meeting_id,
     query_parts ++ filter (fun p => negb (CliSpec.is_filter p)) parts).
Proof.
  revert chunk_type meeting_id query_parts.
  induction parts as [|part rest IH]; intros ct mid qp;
    cbn [Cli.parse_parts CliSpec.last_value filter].
  - now rewrite app_nil_r.
  - unfold CliSpec.assignment, CliSpec.is_filter.
    destruct (prefix "filter:" part) eqn:Ep; cbn [negb].
    + cbv zeta.
      destruct (Cli.split_assignment (Cli.drop 7 part)) as [[key value]|];
        [|apply IH].
      destruct (String.eqb key "type") eqn:Et.
      * apply String.eqb_eq in Et. subst key. cbn [String.eqb]. apply IH.
      * destruct (String.eqb key "meeting") eqn:Em; apply IH.
    + rewrite IH, <- app_assoc. reflexivity.
Qed.

Lemma parse_filters_with_filter (q : string) :
  Py.str_in "filter:" q = true ->
  Cli.parse_filters q
  = (CliSpec.last_value "type" (Cli.split q) None,
     CliSpec.last_value "meeting" (Cli.split q) None,
     String.concat " "
       (filter (fun p => negb (CliSpec.is_filter p)) (Cli.split q))).
Proof.
  unfold Cli.parse_filters. intros ->. now rewrite parse_parts_spec.
Qed.

(** X28.  When the query text contains [filter:], every token that
    starts with [filter:] is taken out of the query, whether or not it is
    a usable filter, and the remaining tokens are joined by single
    spaces; each filter gets the value of the last [filter:key=value]
    token for its key ([type] or [meeting]), other keys and tokens
    without [=] being dropped silently.  Without [filter:] the text is
    passed on unchanged and no filter is set. *)
Theorem filters_are_cut_out_of_the_query (q : string) :
  (Py.str_in "filter:" q = true ->
   Cli.parse_filters q
   = (CliSpec.last_value "type" (Cli.split q) None,
      CliSpec.last_value "meeting" (Cli.split q) None,
      String.concat " "
        (filter (fun p => negb (CliSpec.is_filter p)) (Cli.split q))))
  /\ (Py.str_in "filter:" q = false -> Cli.parse_filters q = (None, None, q)).
Proof.
  split; [apply parse_filters_with_filter|].
  unfold Cli.parse_filters. intros ->. reflexivity.
Qed.

Lemma filters_are_cut_out_of_the_query_witness :
  Cli.parse_filters "show filter:type=minute me filter:oops filter:type=action_item tasks"
  = (Some "action_item"%string, None, "show me tasks"%string).
Proof.
  rewrite (proj1 (filters_are_cut_out_of_the_query
                    "show filter:type=minute me filter:oops filter:type=action_item tasks"));
    reflexivity.
Defined.

(** X29.  The query text handed to the RAG system after filter parsing
    splits into exactly the tokens of the input that do not start with
    [filter:], in their order: no filter token ever reaches the
    retriever as part of the query. *)
Theorem no_filter_token_reaches_the_query (q : string) :
  Py.str_in "filter:" q = true ->
  let q' := snd (Cli.parse_filters q) in
  Cli.split q' = filter (fun p => negb (CliSpec.is_filter p)) (Cli.split q)
  /\ Forall (fun p => prefix "filter:" p = false) (Cli.split q').
Proof.
  intros H q'. subst q'.
  rewrite (parse_filters_with_filter q H). cbn [snd].
  assert (Hs : Cli.split
                 (String.concat " "
                    (filter (fun p => negb (CliSpec.is_filter p)) (Cli.split q)))
               = filter (fun p => negb (CliSpec.is_filter p)) (Cli.split q)).
  { apply split_join. apply Forall_forall. intros t Ht.
    apply filter_In in Ht. destruct Ht as [Ht _].
    pose proof (split_tokens q) as Hall. rewrite Forall_forall in Hall.
    now apply Hall. }
  split; [exact Hs|]. rewrite Hs. apply Forall_forall. intros t Ht.
  apply filter_In in Ht. destruct Ht as [_ Ht].
  apply negb_true_iff in Ht. exact Ht.
Qed.

Lemma no_filter_token_reaches_the_query_witness :
  Cli.split (snd (Cli.parse_filters "show   filter:type=minute me"))
  = ["show"; "me"]%string.
Proof.
  apply (proj1 (no_filter_token_reaches_the_query
                  "show   filter:type=minute me" eq_refl)).
Defined.

End CliProps.

(** ** The LangSmith evaluator *)

Module LangsmithEvalProps.

(** X30.  [evaluate_answer_quality] never raises.  For an empty list of
    expected topics the division by zero is caught and the score is 0.0;
    otherwise the score is
    [0.4 * min(2 * confidence, 1) + 0.4 * coverage + 0.2 * min(sources / 3, 1)],
    where coverage is the fraction of topics found in the answer without
    regard to case; it is at most 1, and at least 0 when the confidence is
    not negative. *)
Theorem quality_score_of_a_run (generated : GeneratedAnswer)
        (expected_topics : list string) :
  (expected_topics = [] ->
   LangsmithEval.quality_score generated expected_topics = 0.0)
  /\ (expected_topics <> [] ->
      LangsmithEval.quality_score generated expected_topics
      == 0.4 * Py.min (confidence generated * 2) 1.0
         + 0.4 * Spec.fraction (Spec.matches_keyword (answer generated))
                               expected_topics
         + 0.2 * Py.min (Py.of_nat (sources_used generated) / 3) 1.0)
  /\ LangsmithEval.quality_score generated expected_topics <= 1
  /\ (0 <= confidence generated ->
      0 <= LangsmithEval.quality_score generated expected_topics).
Proof.
  unfold LangsmithEval.quality_score, LangsmithEval.try_quality_score.
  cbv zeta. rewrite LoopFacts.answer_matches_count.
  destruct expected_topics as [|t ts].
  - rewrite PyFacts.int_div_zero. cbn [bind].
    split; [reflexivity|]. split; [intro H; now elim H|]. split; lra.
  - assert (Hne : t :: ts <> []) by discriminate.
    rewrite PyFacts.int_div_pos by (simpl; lia). cbn [bind].
    change (Py.of_nat (Spec.count (Spec.matches_keyword (answer generated)) (t :: ts))
            / Py.of_nat (List.length (t :: ts)))
      with (Spec.fraction (Spec.matches_keyword (answer generated)) (t :: ts)).
    pose proof (LoopFacts.fraction_unit
                  (Spec.matches_keyword (answer generated)) (t :: ts) Hne)
      as [Hf0 Hf1].
    pose proof (PyFacts.min_le_r (confidence generated * 2) 1.0) as Hc1.
    pose proof (PyFacts.min_le_r (Py.of_nat (sources_used generated) / 3) 1.0)
      as Hs1.
    assert (Hs0 : 0 <= Py.min (Py.of_nat (sources_used generated) / 3) 1.0).
    { apply PyFacts.min_glb; [|lra].
      apply Qle_shift_div_l; [lra|].
      pose proof (PyFacts.of_nat_nonneg (sources_used generated)). lra. }
    split; [discriminate|]. split; [intros _; ring|]. split; [lra|].
    intro Hc.
    assert (Hc0 : 0 <= Py.min (confidence generated * 2) 1.0)
      by (apply PyFacts.min_glb; lra).
    lra.
Qed.

Lemma quality_score_of_a_run_witness :
  LangsmithEval.quality_score
    (generated_answer Samples.priority_answer)
    ["Priority"; "TASKS"; "budget"; "deadline"]%string
  == 0.8
  /\ Spec.fraction
       (Spec.matches_keyword "Two HIGH priority tasks are open.")
       ["Priority"; "TASKS"; "budget"; "deadline"]%string
     == 0.5.
Proof.
  split; [|vm_compute; reflexivity].
  rewrite (proj1 (proj2 (quality_score_of_a_run
                           (generated_answer Samples.priority_answer)
                           ["Priority"; "TASKS"; "budget"; "deadline"]%string)))
    by discriminate.
  vm_compute. reflexivity.
Defined.

End LangsmithEvalProps.

(** ** The further properties at sample inputs *)

Module SampleRuns.

Lemma only_top_five_matter_witness :
  sources_used (RAG.generate_answer (Samples.canned "Priorities were discussed.")
                                    "What are the priorities?"
                                    (repeat (Samples.chunk_with_score 0.9) 7))
  = sources_used (RAG.generate_answer
                    (Samples.canned "Priorities were discussed.")
                    "What are the priorities?"
                    (firstn 5 (repeat (Samples.chunk_with_score 0.9) 7))).
Proof.
  apply (SynthesizerExtra.only_top_five_matter
           (Samples.canned "Priorities were discussed.")
           "What are the priorities?"%string
           (repeat (Samples.chunk_with_score 0.9) 7)).
  reflexivity.
Defined.

Lemma report_categories_witness :
  exists report,
    Evaluator.run_accuracy_evaluation
      Samples.reliable_search (Samples.canned "Priorities were discussed.")
      (Ok tt) (Ok tt) Evaluator.create_ground_truth_dataset = Ok report
    /\ NoDup (Spec2.keys (results_by_category report))
    /\ Spec2.stored (results_by_category report) = 10%nat.
Proof.
  assert (H : exists report,
             Evaluator.run_accuracy_evaluation
               Samples.reliable_search
               (Samples.canned "Priorities were discussed.")
               (Ok tt) (Ok tt) Evaluator.create_ground_truth_dataset = Ok report)
    by (eexists; vm_compute; reflexivity).
  destruct H as [report H]. exists report. split; [exact H|].
  destruct (HarnessExtra.report_categories _ _ _ _ _ report H)
    as [H1 [_ [_ [H4 _]]]].
  split; [exact H1 | exact H4].
Defined.

Lemma report_scores_in_unit_interval_witness :
  exists report,
    Evaluator.run_accuracy_evaluation
      Samples.reliable_search (Samples.canned "Priorities were discussed.")
      (Ok tt) (Ok tt) Evaluator.create_ground_truth_dataset = Ok report
    /\ Spec2.in_unit (average_relevance (overall_metrics report))
    /\ Spec2.in_unit (average_ranking_quality (overall_metrics report)).
Proof.
  assert (H : exists report,
             Evaluator.run_accuracy_evaluation
               Samples.reliable_search
               (Samples.canned "Priorities were discussed.")
               (Ok tt) (Ok tt) Evaluator.create_ground_truth_dataset = Ok report)
    by (eexists; vm_compute; reflexivity).
  destruct H as [report H]. exists report. split; [exact H|].
  destruct (HarnessExtra.report_scores_in_unit_interval _ _ _ _ _ report H)
    as [_ [_ [_ [_ [H5 H6]]]]].
  split; [exact H5 | exact H6].
Defined.

Lemma empty_store_query_result_witness :
  exists qr,
    Evaluator.process_query Samples2.empty_search
                            (Samples.failing "offline") Samples.plain_query
    = Ok qr
    /\ num_retrieved qr = 0%nat
    /\ 0.2 <= overall_quality (generation qr) <= 0.5.
Proof.
  destruct (HarnessExtra.empty_store_query_result
              Samples2.empty_search (Samples.failing "offline")
              Samples.plain_query)
    as [qr [H1 [H2 [_ [_ [_ [_ [_ [_ [_ H10]]]]]]]]]].
  - reflexivity.
  - discriminate.
  - exists qr. split; [exact H1|]. split; [exact H2 | exact H10].
Defined.

Lemma displayed_average_is_defined_witness :
  exists shown,
    Interface.average_retrieval_score
      (RAG.generate_answer (Samples.canned "Priorities were discussed.")
                           "What are the priorities?" Samples.strong_results)
    = Ok (Some shown)
    /\ shown = Spec.average [0.95; 0.9].
Proof.
  destruct (InterfaceProps.displayed_average_is_defined
              (Samples.canned "Priorities were discussed.")
              "What are the priorities?"%string Samples.strong_results)
    as [shown [H1 [_ H3]]].
  destruct shown as [avg|]; [|discriminate].
  exists avg. split; [exact H1|]. exact (proj1 (H3 avg eq_refl)).
Defined.

Lemma search_keeps_the_ranking_witness :
  exists results,
    Store.search Samples2.length_encoder Samples2.two_hit_store
                 "term sheet" 5 (Some "action_item"%string) None
    = Done results
    /\ map Store.r_score results = [0.8; 0.6].
Proof.
  assert (H : exists results,
             Store.search Samples2.length_encoder Samples2.two_hit_store
                          "term sheet" 5 (Some "action_item"%string) None
             = Done results) by (eexists; reflexivity).
  destruct H as [results H]. exists results. split; [exact H|].
  destruct (StoreProps.search_keeps_the_ranking _ _ _ _ _ _ _ H)
    as [hits [Hc [_ [Hs _]]]].
  inversion Hc; subst. exact Hs.
Defined.

Lemma metadata_holds_the_other_fields_witness :
  exists r,
    Store.format_result Samples2.action_hit = Done r
    /\ Dict.lookup "priority" (Store.r_metadata r) = Some (Some "high"%string)
    /\ Dict.lookup "text" (Store.r_metadata r) = None.
Proof.
  assert (H : exists r, Store.format_result Samples2.action_hit = Done r)
    by (eexists; reflexivity).
  destruct H as [r H]. exists r. split; [exact H|]. split.
  - rewrite (StoreProps.metadata_holds_the_other_fields _ r H). reflexivity.
  - rewrite (StoreProps.metadata_holds_the_other_fields _ r H). reflexivity.
Defined.

Lemma search_needs_the_required_keys_witness :
  exists results,
    Store.search Samples2.length_encoder Samples2.two_hit_store
                 "term sheet" 5 None None = Done results.
Proof.
  apply (proj1 (proj1 (StoreProps.search_needs_the_required_keys
                         Samples2.length_encoder Samples2.two_hit_store
                         "term sheet" 5 None None)
                      [Samples2.action_hit; Samples2.minute_hit] eq_refl)).
  intros hit [<-|[<-|[]]] k [<-|[<-|[<-|[<-|[]]]]]; discriminate.
Defined.

Lemma loaded_points_are_numbered_witness :
  exists upserts,
    Store.load_embeddings_to_qdrant Samples2.standup_files = Done upserts
    /\ NoDup (map Store.point_id (List.concat upserts)).
Proof.
  assert (H : exists upserts,
             Store.load_embeddings_to_qdrant Samples2.standup_files
             = Done upserts) by (eexists; reflexivity).
  destruct H as [upserts H]. exists upserts. split; [exact H|].
  exact (proj1 (proj2 (LoadProps.loaded_points_are_numbered _ _ H))).
Defined.

Lemma search_reads_back_loaded_points_witness :
  exists upserts point,
    Store.load_embeddings_to_qdrant Samples2.standup_files = Done upserts
    /\ In point (List.concat upserts)
    /\ exists r,
        Store.format_result {| Store.hit_score := 0.8;
                               Store.hit_payload := Store.payload point |}
        = Done r.
Proof.
  assert (H : exists upserts,
             Store.load_embeddings_to_qdrant Samples2.standup_files
             = Done upserts) by (eexists; reflexivity).
  destruct H as [upserts H].
  assert (Hp : exists point, In point (List.concat upserts)).
  { inversion H. eexists. left. reflexivity. }
  destruct Hp as [point Hp]. exists upserts, point.
  split; [exact H|]. split; [exact Hp|].
  destruct (LoadProps.search_reads_back_loaded_points _ _ H point Hp)
    as [file_name [items [item [_ [_ Hr]]]]].
  eexists. apply (Hr 0.8).
Defined.

Lemma only_chunks_with_text_are_embedded_witness :
  exists items,
    Ingest.generate_embeddings Samples2.length_encoder
                               (Ingest.chunk_meeting Samples2.standup)
    = Done items
    /\ List.length items = 3%nat.
Proof.
  assert (H : exists items,
             Ingest.generate_embeddings Samples2.length_encoder
                                        (Ingest.chunk_meeting Samples2.standup)
             = Done items) by (eexists; reflexivity).
  destruct H as [items H]. exists items. split; [exact H|].
  rewrite <- (length_map Ingest.item_metadata).
  rewrite (proj1 (IngestProps.only_chunks_with_text_are_embedded _ _ _ H)).
  reflexivity.
Defined.

Lemma pipeline_stores_the_embedded_text_witness :
  exists items upserts,
    Ingest.generate_embeddings Samples2.length_encoder
                               (Ingest.chunk_meeting Samples2.standup)
    = Done items
    /\ Store.load_embeddings_to_qdrant [("standup.json"%string, items)]
       = Done upserts
    /\ (List.length (List.concat upserts) <= 5)%nat.
Proof.
  destruct (PipelineProps.pipeline_stores_the_embedded_text
              Samples2.length_encoder Samples2.standup "standup.json"%string)
    as [items [upserts [H1 [H2 [H3 _]]]]].
  exists items, upserts. split; [exact H1|]. split; [exact H2 | exact H3].
Defined.

Lemma grade_intervals_witness :
  Evaluator.get_grade 0.9 = "A+"%string /\ Evaluator.get_grade 0.85 = "A"%string.
Proof.
  split.
  - apply (proj2 (proj1 (GenerationExtra.grade_intervals 0.9))). lra.
  - apply (proj2 (proj1 (proj2 (GenerationExtra.grade_intervals 0.85)))).
    split; lra.
Defined.

Lemma process_query_failures_witness :
  Evaluator.process_query Samples.reliable_search
                          (Samples.failing "offline")
                          Samples.empty_keywords_query
  = Raise ZeroDivisionError.
Proof.
  apply (proj2 (HarnessExtra.process_query_failures
                  Samples.reliable_search (Samples.failing "offline")
                  Samples.empty_keywords_query ZeroDivisionError)).
  right. split; [eexists; reflexivity|]. split; reflexivity.
Defined.

Lemma run_returns_iff_witness :
  (exists report,
      Evaluator.run_accuracy_evaluation
        Samples.reliable_search (Samples.canned "Priorities were discussed.")
        (Ok tt) (Ok tt) Evaluator.create_ground_truth_dataset = Ok report)
  /\ Evaluator.run_accuracy_evaluation
       Samples.reliable_search (Samples.canned "Priorities were discussed.")
       (Ok tt) (Raise (ExternalError "embeddings directory not found"))
       Evaluator.create_ground_truth_dataset
     = Raise (ExternalError "embeddings directory not found").
Proof.
  split.
  - apply (proj2 (proj1 (HarnessExtra.run_returns_iff
                           Samples.reliable_search
                           (Samples.canned "Priorities were discussed.")
                           (Ok tt) (Ok tt)
                           Evaluator.create_ground_truth_dataset))).
    split; [reflexivity|]. split; [reflexivity|]. split; [discriminate|].
    intros q H. unfold Evaluator.create_ground_truth_dataset in H.
    repeat (destruct H as [<-|H]; [eexists; vm_compute; reflexivity|]).
    destruct H.
  - apply (proj1 (proj2 (proj2 (HarnessExtra.run_returns_iff
                                  Samples.reliable_search
                                  (Samples.canned "Priorities were discussed.")
                                  (Ok tt)
                                  (Raise (ExternalError
                                            "embeddings directory not found"))
                                  Evaluator.create_ground_truth_dataset))));
      reflexivity.
Defined.

Lemma load_needs_meeting_id_and_type_witness :
  exists upserts,
    Store.load_embeddings_to_qdrant Samples2.standup_files = Done upserts.
Proof.
  apply (proj2 (LoadProps.load_needs_meeting_id_and_type
                  Samples2.standup_files)).
  intros item [<-|[<-|[]]]; split; discriminate.
Defined.

End SampleRuns.
